(** * CEEMS: retention-aware load balancer and cgroup compute-unit collector

    A shallow embedding of
      - [pkg/lb/serverpool/resource.go]  (the [resourceBased] strategy:
        [Target], [Add], [Size]),
      - [pkg/lb/frontend/frontend.go]    ([loadBalancer.Serve]),
      - the cgroup collector ([NewCgroupManager], [cgroupManager.discover],
        [NewCgroupCollector], [parseCgroupSubSysIds], and
        [cgroupCollector]'s [parseCPUSet], [getCPUs], [statsV1], [statsV2],
        [update], [doUpdate] and [Update]),
    followed by the properties established about them.

    Conventions.  Go's [int], [int64], [uint64] and [time.Duration] values
    are integers in [Z] (no arithmetic in the modelled code can overflow,
    except the loop counter of [parseCPUSet], which is treated explicitly);
    [float64] is Rocq's primitive binary64 float; Go maps are [gmap]s, a nil
    map and an empty map being indistinguishable for every operation the code
    performs on them; a Go [(value, error)] pair is an [outcome]. Loggers and
    log calls are left out: they change no value.

    What lies outside the repository is a parameter: a backend is the record
    of what its methods answer during one call of [Target] (its liveness
    flag is set by a health check while requests are served, so the record
    holds one answer for each of the two liveness tests of [Target]), and
    the operating system and the containerd
    cgroups library are a [host] record (files, the entries of a directory
    walk, the result of loading and reading a control group). Go's
    [strings], [strconv] and [regexp] functions are modelled on byte strings
    for the inputs the collector gives them.

    Layout: the embedding (modules [serverpool], [frontend], [golib],
    [regexp], [cgroup1], [cgroup2], [collector]); the definitions the
    statements need and example systems ([lbspec], [cgspec]); the properties
    ([lb], [cg]). *)

From Stdlib Require Import ZArith Floats Uint63 Lia Ascii String.
From stdpp Require Import gmap strings list fin_maps pretty.

Local Open Scope Z_scope.

(** ** Results of fallible calls *)

(** [Ok v] is Go's [(v, nil)], [Err e] is [(_, err)] with the error text
    [e], and [Hang] is a call that never returns. *)
Inductive outcome (A : Type) : Type :=
| Ok (a : A)
| Err (e : string)
| Hang.
Arguments Ok {A} a.
Arguments Err {A} e.
Arguments Hang {A}.

#[global] Instance outcome_ret : MRet outcome := fun A a => Ok a.

#[global] Instance outcome_bind : MBind outcome := fun A B f x =>
  match x with
  | Ok a => f a
  | Err e => Err e
  | Hang => Hang
  end.

(** ** The load balancer: [package serverpool] *)

Module serverpool.

(** What one call of [Target] observes of a [backend.Server]: the answers
    of the interface's methods [IsAlive], [RetentionPeriod] (a
    [time.Duration], nanoseconds) and [ActiveConnections] (an [int]); [URL]
    identifies the backend. [IsAlive()] reads a flag that the health check
    of the backend sets while requests are served, and [Target] calls it up
    to twice on a backend, once in each of its loops: [IsAlive] is the
    answer to the call of the first loop and [IsAliveAgain] the answer to the
    call of the second loop, which differs when the flag changed in
    between. *)
Record Server : Type := mkServer {
  URL : string;
  IsAlive : bool;
  IsAliveAgain : bool;
  RetentionPeriod : Z;
  ActiveConnections : Z
}.

Record resourceBased : Type := {
  backends : gmap string (list Server)
}.

(** [math.MaxInt32] *)
Definition MaxInt32 : Z := 2147483647.

(** [Size]: [len(s.backends[id])]; indexing a missing key yields nil. *)
Definition Size (s : resourceBased) (id : string) : nat :=
  length (default [] (backends s !! id)).

(** [Add]: [s.backends[id] = append(s.backends[id], b)]. *)
Definition Add (s : resourceBased) (id : string) (b : Server) : resourceBased :=
  {| backends := <[id := default [] (backends s !! id) ++ [b]]> (backends s) |}.

(** The test of the first loop: alive when the loop asks, and
    [d < RetentionPeriod()]. *)
Definition eligible (d : Z) (b : Server) : bool :=
  IsAlive b && (d <? RetentionPeriod b).

(** One iteration of the first loop of [Target], on the pair
    [(targetBackends, retentionPeriods)]. *)
Definition collect (d : Z) (acc : list Server * list Z) (b : Server)
  : list Server * list Z :=
  if negb (IsAlive b) then acc
  else if d <? RetentionPeriod b
       then (acc.1 ++ [b], acc.2 ++ [RetentionPeriod b])
       else acc.

(** [slices.Min]; it panics on an empty slice, which [Target] never passes
    (the call is reached with at least two elements). *)
Definition slices_Min (l : list Z) : Z :=
  match l with
  | [] => 0
  | x :: xs => foldl Z.min x xs
  end.

(** One iteration of the second loop, on the pair
    [(targetBackend, activeConnections)]; the element is
    [(targetBackends[i], retentionPeriods[i])]. *)
Definition pick (minRetentionPeriod : Z) (st : option Server * Z)
    (br : Server * Z) : option Server * Z :=
  if negb (IsAliveAgain br.1) then st
  else if br.2 =? minRetentionPeriod
       then let backendActiveConnections := ActiveConnections br.1 in
            if st.2 >? backendActiveConnections
            then (Some br.1, backendActiveConnections)
            else st
       else st.

(** [Target]: [None] is the nil [backend.Server]. *)
Definition Target (s : resourceBased) (id : string) (d : Z) : option Server :=
  match backends s !! id with
  | None => None
  | Some bs =>
      let '(targetBackends, retentionPeriods) := foldl (collect d) ([], []) bs in
      match targetBackends with
      | [] => None
      | [b] => Some b
      | _ =>
          let minRetentionPeriod := slices_Min retentionPeriods in
          (foldl (pick minRetentionPeriod) (None, MaxInt32)
                 (zip targetBackends retentionPeriods)).1
      end
  end.

End serverpool.

(** ** The load balancer: [package frontend] *)

Module frontend.
Import serverpool.

(** [QueryParams], the value stored under [QueryParamsContextKey]. *)
Record QueryParams : Type := {
  uuids : list string;
  queryPeriod : Z
}.

(** Of an [*http.Request], [Serve] reads only
    [r.Context().Value(QueryParamsContextKey{})]; [None] is nil. *)
Record Request : Type := {
  contextQueryParams : option QueryParams
}.

(** [serverpool.Manager], as [Serve] calls it. *)
Record Manager : Type := {
  manager_Target : Z -> option Server
}.

Record loadBalancer : Type := {
  manager : Manager
}.

(** What [Serve] does with the response writer: hand the request to the
    target's reverse proxy, or [http.Error(w, msg, code)]. *)
Inductive Response : Type :=
| Proxied (target : Server) (r : Request)
| HttpError (msg : string) (code : Z).

Definition StatusServiceUnavailable : Z := 503.

Definition Serve (lb : loadBalancer) (r : Request) : Response :=
  let queryPeriod :=
    match contextQueryParams r with
    | None => 0
    | Some queryParams => queryPeriod queryParams
    end in
  match manager_Target (manager lb) queryPeriod with
  | Some target => Proxied target r
  | None => HttpError "Service not available" StatusServiceUnavailable
  end.

(** The sources hold [Serve] and the [resourceBased] strategy but not the
    manager between them; [clusterBalancer s id] is the balancer whose
    manager asks strategy [s] for cluster [id]. *)
Definition clusterBalancer (s : resourceBased) (id : string) : loadBalancer :=
  {| manager := {| manager_Target := Target s id |} |}.

End frontend.

(** ** Go library functions the collector calls *)

Module golib.

Definition MaxUint64 : Z := 18446744073709551615.
Definition MaxInt64 : Z := 9223372036854775807.
Definition MinInt64 : Z := -9223372036854775808.

(** *** [float64] *)

Definition float64 : Set := PrimFloat.float.

(** [float64(u)] for an unsigned 64-bit [u], rounded to nearest-even. Below
    [2^63] this is the primitive conversion; above, the value is halved with
    a sticky low bit, converted, and doubled, which rounds identically. *)
Definition float64_of_uint64 (u : Z) : float64 :=
  if u <? 2 ^ 63 then PrimFloat.of_uint63 (Uint63.of_Z u)
  else (PrimFloat.of_uint63 (Uint63.of_Z (Z.lor (Z.shiftr u 1) (Z.land u 1))) * 2)%float.

(** [float64(n)] for an [int]. *)
Definition float64_of_int (n : Z) : float64 :=
  if n <? 0 then (- float64_of_uint64 (- n))%float else float64_of_uint64 n.

(** [v > 0] on floats (false for NaN). *)
Definition positive (v : float64) : bool := PrimFloat.ltb 0%float v.

(** *** [strings] (byte strings; the paths and files read are ASCII) *)

Definition LF : ascii := ascii_of_nat 10.

(** [strings.Split(s, sep)] for a one-character separator; it returns one
    (empty) piece for the empty string. *)
Fixpoint strings_Split (s : string) (sep : ascii) : list string :=
  match s with
  | EmptyString => [EmptyString]
  | String c s' =>
      if Ascii.eqb c sep then EmptyString :: strings_Split s' sep
      else match strings_Split s' sep with
           | piece :: pieces => String c piece :: pieces
           | [] => [String c EmptyString]
           end
  end.

Fixpoint strings_Contains (s substr : string) : bool :=
  String.prefix substr s ||
  match s with
  | EmptyString => false
  | String _ s' => strings_Contains s' substr
  end.

(** [strings.TrimSuffix(s, "\n")] *)
Fixpoint trimSuffixLF (s : string) : string :=
  match s with
  | EmptyString => EmptyString
  | String c EmptyString => if Ascii.eqb c LF then EmptyString else s
  | String c s' => String c (trimSuffixLF s')
  end.

(** The ASCII white space of [unicode.IsSpace]. *)
Definition isSpace (c : ascii) : bool :=
  let n := nat_of_ascii c in
  ((9 <=? n) && (n <=? 13))%nat || (n =? 32)%nat.

Fixpoint trimLeft (s : string) : string :=
  match s with
  | String c s' => if isSpace c then trimLeft s' else s
  | EmptyString => EmptyString
  end.

Fixpoint trimRight (s : string) : string :=
  match s with
  | EmptyString => EmptyString
  | String c s' =>
      match trimRight s' with
      | EmptyString => if isSpace c then EmptyString else String c EmptyString
      | t => String c t
      end
  end.

Definition strings_TrimSpace (s : string) : string := trimRight (trimLeft s).

(** *** [strconv] *)

Definition digit (c : ascii) : option Z :=
  let n := Z.of_nat (nat_of_ascii c) in
  if (48 <=? n) && (n <=? 57) then Some (n - 48) else None.

Fixpoint digits (acc : Z) (s : string) : option Z :=
  match s with
  | EmptyString => Some acc
  | String c s' =>
      match digit c with
      | Some v => digits (10 * acc + v) s'
      | None => None
      end
  end.

(** [strconv.Atoi] (and [strconv.ParseInt(s, 10, 0)]) on a 64-bit platform:
    an optional sign, at least one decimal digit, and a range check. The
    error texts are the causes Go reports ([ErrSyntax], [ErrRange]), without
    the prefix that names the function and quotes the input; the collector
    tests these errors for nil and never reads their text. *)
Definition strconv_Atoi (s : string) : outcome Z :=
  let '(neg, body) :=
    match s with
    | String c s' =>
        if Ascii.eqb c "+"%char then (false, s')
        else if Ascii.eqb c "-"%char then (true, s')
        else (false, s)
    | EmptyString => (false, s)
    end in
  match body with
  | EmptyString => Err "invalid syntax"
  | _ =>
      match digits 0 body with
      | None => Err "invalid syntax"
      | Some n =>
          let v := if neg then - n else n in
          if (MinInt64 <=? v) && (v <=? MaxInt64) then Ok v
          else Err "value out of range"
      end
  end.

(** [strconv.Itoa], and [%d] of [fmt.Sprintf]. *)
Definition strconv_Itoa (n : Z) : string := pretty n.

(** *** [path/filepath] *)

(** [filepath.Join] of clean, non-empty elements: the elements are joined
    with the separator, and the [filepath.Clean] that Go applies to the
    result is left out, which changes nothing for elements that are clean
    paths without a trailing separator. *)
Definition filepath_Join (elems : list string) : string :=
  match filter (fun e => e <> EmptyString) elems with
  | [] => EmptyString
  | e :: es => foldl (fun acc x => acc +:+ "/" +:+ x) e es
  end.

(** *** [bufio.Scanner] with the default line splitter: the lines of [data]
    without their terminators (a final empty line is not a token). *)
Fixpoint dropCR (s : string) : string :=
  match s with
  | EmptyString => EmptyString
  | String c EmptyString => if Ascii.eqb c (ascii_of_nat 13) then EmptyString else s
  | String c s' => String c (dropCR s')
  end.

Definition scanLines (data : string) : list string :=
  let pieces := strings_Split data LF in
  dropCR <$> (if decide (last pieces = Some EmptyString)
              then removelast pieces else pieces).


Definition MaxUint32 : Z := 4294967295.

(** [strings.Fields]: the maximal runs of characters that are not white
    space. *)
Fixpoint strings_Fields (s : string) : list string :=
  match s with
  | EmptyString => []
  | String c s' =>
      if isSpace c then strings_Fields s'
      else match s' with
           | EmptyString => [String c EmptyString]
           | String c' _ =>
               if isSpace c' then String c EmptyString :: strings_Fields s'
               else match strings_Fields s' with
                    | field :: fields => String c field :: fields
                    | [] => [String c EmptyString]
                    end
           end
  end.

(** [strconv.ParseUint(s, 10, 32)]: at least one decimal digit, no sign, and
    a range check. *)
Definition strconv_ParseUint32 (s : string) : outcome Z :=
  match s with
  | EmptyString => Err "invalid syntax"
  | _ =>
      match digits 0 s with
      | None => Err "invalid syntax"
      | Some n => if n <=? MaxUint32 then Ok n else Err "value out of range"
      end
  end.

End golib.

(** *** [regexp]: the fragment of Go's syntax the collector's patterns use,
    with Go's leftmost-first (backtracking-priority) matching. *)

Module regexp.

Inductive Regexp : Type :=
| Lit (s : string)                                  (** literal text *)
| Class (cls : ascii -> bool) (min : nat) (greedy : bool)
    (** [x*], [x+] (greedy) and [x*?], [x+?] (lazy) for a one-character [x];
        [min] is 0 for a star and 1 for a plus *)
| Cat (r1 r2 : Regexp)
| Alt (r1 r2 : Regexp)
| Capture (n : nat) (r : Regexp)                    (** the [n]-th [( )] *)
| BeginText                                         (** [^] *)
| EndText.                                          (** [$] *)

Definition take (n : nat) (s : string) : string := String.substring 0 n s.
Definition drop (n : nat) (s : string) : string :=
  String.substring n (String.length s - n) s.

Section matcher.
Context {R : Type}.

Fixpoint repeat_greedy (cls : ascii -> bool) (k : string -> option R)
    (min : nat) (s : string) : option R :=
  let stop := match min with O => k s | S _ => None end in
  match s with
  | String c s' =>
      if cls c then
        match repeat_greedy cls k (Nat.pred min) s' with
        | Some r => Some r
        | None => stop
        end
      else stop
  | EmptyString => stop
  end.

Fixpoint repeat_lazy (cls : ascii -> bool) (k : string -> option R)
    (min : nat) (s : string) : option R :=
  match (match min with O => k s | S _ => None end) with
  | Some r => Some r
  | None =>
      match s with
      | String c s' => if cls c then repeat_lazy cls k (Nat.pred min) s' else None
      | EmptyString => None
      end
  end.

(** [run re whole s caps k]: match [re] at the front of [s] (a suffix of an
    input of length [whole]), then continue with [k] on the rest. *)
Fixpoint run (re : Regexp) (whole : nat) (s : string) (caps : gmap nat string)
    (k : string -> gmap nat string -> option R) : option R :=
  match re with
  | Lit l =>
      if String.prefix l s then k (drop (String.length l) s) caps else None
  | Class cls min greedy =>
      (if greedy then repeat_greedy else repeat_lazy) cls (fun s' => k s' caps) min s
  | Cat r1 r2 => run r1 whole s caps (fun s' caps' => run r2 whole s' caps' k)
  | Alt r1 r2 =>
      match run r1 whole s caps k with
      | Some r => Some r
      | None => run r2 whole s caps k
      end
  | Capture n r =>
      run r whole s caps (fun s' caps' =>
        k s' (<[n := take (String.length s - String.length s') s]> caps'))
  | BeginText => if (String.length s =? whole)%nat then k s caps else None
  | EndText => match s with EmptyString => k s caps | _ => None end
  end.
End matcher.

Fixpoint NumSubexp (re : Regexp) : nat :=
  match re with
  | Cat r1 r2 | Alt r1 r2 => NumSubexp r1 + NumSubexp r2
  | Capture _ r => S (NumSubexp r)
  | _ => 0
  end.

Fixpoint search (re : Regexp) (whole : nat) (s : string) : list string :=
  match run re whole s ∅ (fun s' caps => Some (s', caps)) with
  | Some (s', caps) =>
      take (String.length s - String.length s') s
        :: ((fun i => default EmptyString (caps !! i)) <$> seq 1 (NumSubexp re))
  | None =>
      match s with
      | String _ s' => search re whole s'
      | EmptyString => []
      end
  end.

(** [re.FindStringSubmatch(s)]: nil ([[]]) when there is no match, else the
    leftmost match followed by the text of each capture group. *)
Definition FindStringSubmatch (re : Regexp) (s : string) : list string :=
  search re (String.length s) s.

Definition MatchString (re : Regexp) (s : string) : bool :=
  match FindStringSubmatch re s with [] => false | _ => true end.

(** Pattern building blocks. *)
Definition dot (c : ascii) : bool := negb (Ascii.eqb c golib.LF).
Definition digit09 (c : ascii) : bool :=
  let n := nat_of_ascii c in ((48 <=? n) && (n <=? 57))%nat.
Definition hex09af (c : ascii) : bool :=
  let n := nat_of_ascii c in (digit09 c || ((97 <=? n) && (n <=? 102)))%nat.
Definition cat (rs : list Regexp) : Regexp := foldr Cat (Lit EmptyString) rs.

End regexp.

(** ** What the containerd cgroups library returns *)

(** [cgroup1]: the v1 [stats.Metrics] fields that [statsV1] reads. A nil
    pointer is [None]. *)
Module cgroup1.

Record CPUUsage : Type := { User : Z; Kernel : Z; Total : Z }.
Record CPUStat : Type := { cpu_Usage : option CPUUsage }.
Record MemoryEntry : Type := { Usage : Z; Limit : Z; Failcnt : Z }.
Record MemoryStat : Type := {
  TotalRSS : Z;
  TotalCache : Z;
  mem_Usage : option MemoryEntry;
  mem_Swap : option MemoryEntry
}.
Record BlkIOEntry : Type := { Op : string; Major : Z; Minor : Z; Value : Z }.
Record BlkIOStat : Type := {
  IoServiceBytesRecursive : list BlkIOEntry;
  IoServicedRecursive : list BlkIOEntry
}.
Record RdmaEntry : Type := { Device : string; HcaHandles : Z; HcaObjects : Z }.
Record RdmaStat : Type := { Current : list RdmaEntry }.
Record Metrics : Type := {
  CPU : option CPUStat;
  Memory : option MemoryStat;
  Blkio : option BlkIOStat;
  Rdma : option RdmaStat
}.

(** A loaded control group: the result of [ctrl.Stat(IgnoreNotExist)]. *)
Record Cgroup : Type := { Stat : outcome (option Metrics) }.

End cgroup1.

(** [cgroup2]: the v2 [stats.Metrics] fields that [statsV2] reads. *)
Module cgroup2.

Record PSIData : Type := { Total : Z }.
Record PSIStats : Type := { Full : option PSIData }.

(** [psi.GetFull().GetTotal()]: the getters are nil-safe. *)
Definition fullTotal (psi : PSIStats) : Z :=
  match Full psi with Some full => Total full | None => 0 end.

Record CPUStat : Type := {
  UsageUsec : Z; UserUsec : Z; SystemUsec : Z; cpu_PSI : option PSIStats
}.
Record MemoryStat : Type := {
  Anon : Z; File : Z; Usage : Z; UsageLimit : Z; SwapUsage : Z; SwapLimit : Z;
  mem_PSI : option PSIStats
}.
Record MemoryEvents : Type := { Oom : Z }.
Record IOEntry : Type := {
  Major : Z; Minor : Z; Rbytes : Z; Wbytes : Z; Rios : Z; Wios : Z
}.
Record IOStat : Type := { io_Usage : list IOEntry; io_PSI : option PSIStats }.
Record RdmaEntry : Type := { Device : string; HcaHandles : Z; HcaObjects : Z }.
Record RdmaStat : Type := { Current : list RdmaEntry }.
Record Metrics : Type := {
  CPU : option CPUStat;
  Memory : option MemoryStat;
  MemoryEvents_ : option MemoryEvents;
  Io : option IOStat;
  Rdma : option RdmaStat
}.

(** A loaded control group: the result of [ctrl.Stat()]. *)
Record Manager : Type := { Stat : outcome (option Metrics) }.

End cgroup2.

(** ** The collector: [package collector] *)

Module collector.
Import golib.

(** [cgroups.CGMode] *)
Inductive CGMode : Type := Unavailable | Legacy | Hybrid | Unified.

#[global] Instance CGMode_eq_dec : EqDecision CGMode.
Proof. solve_decision. Defined.

Definition slurm : string := "slurm".
Definition libvirt : string := "libvirt".
Definition readOp : string := "Read".
Definition writeOp : string := "Write".

(** ["^.*/slurm(?:.*?)/job_([0-9]+)(?:.*$)"] *)
Definition slurmCgroupPathRegex : regexp.Regexp :=
  regexp.cat [regexp.BeginText; regexp.Class regexp.dot 0 true;
              regexp.Lit "/slurm"; regexp.Class regexp.dot 0 false;
              regexp.Lit "/job_";
              regexp.Capture 1 (regexp.Class regexp.digit09 1 true);
              regexp.Class regexp.dot 0 true; regexp.EndText].

(** [slurmIgnoreProcsRegex]: three alternatives, [slurmstepd:] and any text
    (group 1); [sleep ] and digits (group 2); [/bin/bash ], any text (group 3)
    and [/slurm_script]. *)
Definition slurmIgnoreProcsRegex : regexp.Regexp :=
  regexp.Alt
    (regexp.Cat (regexp.Lit "slurmstepd:")
                (regexp.Capture 1 (regexp.Class regexp.dot 0 true)))
    (regexp.Alt
       (regexp.Cat (regexp.Lit "sleep ")
                   (regexp.Capture 2 (regexp.Class regexp.digit09 1 true)))
       (regexp.cat [regexp.Lit "/bin/bash ";
                    regexp.Capture 3 (regexp.Class regexp.dot 0 true);
                    regexp.Lit "/slurm_script"])).

(** ["^.*/(?:.+?)-qemu-(?:[0-9]+)-(instance-[0-9a-f]+)(?:.*$)"] *)
Definition libvirtCgroupPathRegex : regexp.Regexp :=
  regexp.cat [regexp.BeginText; regexp.Class regexp.dot 0 true;
              regexp.Lit "/"; regexp.Class regexp.dot 1 false;
              regexp.Lit "-qemu-"; regexp.Class regexp.digit09 1 true;
              regexp.Lit "-";
              regexp.Capture 1 (regexp.Cat (regexp.Lit "instance-")
                                           (regexp.Class regexp.hex09af 1 true));
              regexp.Class regexp.dot 0 true; regexp.EndText].

Record cgroupPath : Type := { abs : string; rel : string }.

(** [procfs.Proc], and the [procfs.FS] that resolves a PID to one. *)
Record Proc : Type := { PID : Z }.
Record FS : Type := { fs_Proc : Z -> outcome Proc }.

Record cgroup : Type := {
  cg_id : string;
  cg_uuid : string;
  cg_procs : list Proc;
  cg_path : cgroupPath;
  cg_children : list cgroupPath
}.

Record cgroupManager : Type := {
  fs : FS;
  mode : CGMode;
  root : string;
  slice : string;
  scope : string;
  activeController : string;
  mountPoint : string;
  manager : string;
  idRegex : regexp.Regexp;
  isChild : string -> bool;
  ignoreProc : string -> bool
}.

(** ** The host, as the collector reads it *)

Inductive file : Type :=
| Unreadable
| Content (data : string).

(** One call of the function that [filepath.WalkDir] is given: the path,
    whether the entry is a directory, and the error of reading it. *)
Record walkEntry : Type := {
  wPath : string;
  wIsDir : bool;
  wErr : option string
}.

Record host : Type := {
  (** the [--path.cgroupfs] flag *)
  cgroupfsPath : string;
  (** the files that [os.ReadFile] can name *)
  files : gmap string file;
  (** the calls [filepath.WalkDir] makes on a root, in order, for a function
      that keeps returning nil *)
  walk : string -> list walkEntry;
  (** [filepath.Rel] *)
  filepath_Rel : string -> string -> outcome string;
  (** the collector's helper [unescapeString], which is not among the
      sources: it decodes the escapes of a cgroup path, or fails *)
  unescapeString : string -> outcome string;
  (** [cgroup1.Load] of a static path, with the hierarchy of [subsystem] *)
  cgroup1_Load : string -> outcome cgroup1.Cgroup;
  (** [cgroup2.Load] of a path, with the cgroupfs path as mount point *)
  cgroup2_Load : string -> outcome cgroup2.Manager
}.

Definition os_ReadFile (h : host) (name : string) : outcome string :=
  match files h !! name with
  | Some (Content data) => Ok data
  | Some Unreadable => Err ("open " +:+ name +:+ ": permission denied")
  | None => Err ("open " +:+ name +:+ ": no such file or directory")
  end.

(** Modelled from the spec: [fileExists], a helper of the collector that is
    not among the sources; it tells a present stats file from a missing one. *)
Definition fileExists (h : host) (name : string) : bool :=
  bool_decide (is_Some (files h !! name)).

(** The value of a hexadecimal digit. *)
Definition hexval (c : ascii) : option nat :=
  let n := nat_of_ascii c in
  if ((48 <=? n) && (n <=? 57))%nat then Some (n - 48)%nat
  else if ((97 <=? n) && (n <=? 102))%nat then Some (n - 87)%nat
  else if ((65 <=? n) && (n <=? 70))%nat then Some (n - 55)%nat
  else None.

(** Modelled from the spec: an [unescapeString] that decodes the [\xHH]
    escapes libvirt writes in cgroup paths (for example [\x2d] for [-]) and
    fails on any other backslash. It is the [unescapeString] of the example
    hosts; [discover] takes the function from its [host]. *)
Fixpoint unescapeHex (s : string) : outcome string :=
  match s with
  | EmptyString => Ok EmptyString
  | String c rest =>
      if Ascii.eqb c (ascii_of_nat 92) then
        match rest with
        | String x (String h1 (String h2 rest')) =>
            if Ascii.eqb x "x"%char then
              match hexval h1, hexval h2 with
              | Some a, Some b =>
                  r ← unescapeHex rest'; Ok (String (ascii_of_nat (16 * a + b)) r)
              | _, _ => Err "invalid syntax"
              end
            else Err "invalid syntax"
        | _ => Err "invalid syntax"
        end
      else r ← unescapeHex rest; Ok (String c r)
  end.

(** ** [setMountPoint] and [NewCgroupManager] *)

Definition setMountPoint (c : cgroupManager) : cgroupManager :=
  let set (mountPoint' root' : string) : cgroupManager :=
    {| fs := fs c; mode := mode c; root := root'; slice := slice c;
       scope := scope c; activeController := activeController c;
       mountPoint := mountPoint'; manager := manager c; idRegex := idRegex c;
       isChild := isChild c; ignoreProc := ignoreProc c |} in
  if String.eqb (manager c) slurm then
    match mode c with
    | Unified => set (filepath_Join [root c; slice c; scope c]) (root c)
    | _ => set (filepath_Join [root c; activeController c; manager c])
               (filepath_Join [root c; activeController c])
    end
  else if String.eqb (manager c) libvirt then
    match mode c with
    | Unified => set (filepath_Join [root c; slice c]) (root c)
    | _ => set (filepath_Join [root c; activeController c; slice c])
               (filepath_Join [root c; activeController c])
    end
  else set (root c) (root c).

(** [NewCgroupManager]; [forceCgroupsVersion] and [activeController'] are the
    values of the command-line flags, [hostMode] is [cgroups.Mode()], and
    [procfs] is the FS opened on the procfs path (a failure to open it is the
    caller's [procfs] outcome). *)
Definition NewCgroupManager (name : string) (h : host) (procfs : outcome FS)
    (forceCgroupsVersion activeController' : string) (hostMode : CGMode)
  : outcome cgroupManager :=
  fs' ← procfs;
  let unified :=
    (String.eqb forceCgroupsVersion "" && bool_decide (hostMode = Unified))
    || String.eqb forceCgroupsVersion "v2" in
  let mode' := if String.eqb forceCgroupsVersion "v1" then Legacy else hostMode in
  if String.eqb name slurm then
    Ok (setMountPoint
          (if unified
           then {| fs := fs'; mode := Unified; root := cgroupfsPath h;
                   slice := "system.slice"; scope := "slurmstepd.scope";
                   activeController := ""; mountPoint := ""; manager := slurm;
                   idRegex := slurmCgroupPathRegex;
                   isChild := fun p => strings_Contains p "/step_";
                   ignoreProc := regexp.MatchString slurmIgnoreProcsRegex |}
           else {| fs := fs'; mode := mode'; root := cgroupfsPath h;
                   slice := slurm; scope := "";
                   activeController := activeController'; mountPoint := "";
                   manager := slurm;
                   idRegex := slurmCgroupPathRegex;
                   isChild := fun p => strings_Contains p "/step_";
                   ignoreProc := regexp.MatchString slurmIgnoreProcsRegex |}))
  else if String.eqb name libvirt then
    let isChild' := fun p =>
      strings_Contains p "/libvirt" || strings_Contains p "/emulator"
      || strings_Contains p "/vcpu" in
    Ok (setMountPoint
          (if unified
           then {| fs := fs'; mode := Unified; root := cgroupfsPath h;
                   slice := "machine.slice"; scope := "";
                   activeController := ""; mountPoint := ""; manager := libvirt;
                   idRegex := libvirtCgroupPathRegex;
                   isChild := isChild'; ignoreProc := fun _ => false |}
           else {| fs := fs'; mode := mode'; root := cgroupfsPath h;
                   slice := "machine.slice"; scope := "";
                   activeController := activeController'; mountPoint := "";
                   manager := libvirt;
                   idRegex := libvirtCgroupPathRegex;
                   isChild := isChild'; ignoreProc := fun _ => false |}))
  else Err "unknown resource manager".

(** ** [discover] *)

(** The three accumulators of [discover]: the [cgroups] slice and the maps
    [cgroupProcs] and [cgroupChildren]. *)
Record walkState : Type := {
  cgroups : list cgroup;
  cgroupProcs : gmap string (list Proc);
  cgroupChildren : gmap string (list cgroupPath)
}.

(** [m[k] = append(m[k], x)] *)
Definition appendAt {A : Type} (k : string) (x : A) (m : gmap string (list A))
  : gmap string (list A) :=
  <[k := default [] (m !! k) ++ [x]]> m.

(** The processes of [p/cgroup.procs]: every line that parses as a PID whose
    process procfs still resolves. *)
Definition readProcs (c : cgroupManager) (h : host) (p id : string)
    (cgroupProcs : gmap string (list Proc)) : gmap string (list Proc) :=
  match os_ReadFile h (filepath_Join [p; "cgroup.procs"]) with
  | Ok data =>
      foldl (fun procs line =>
               match strconv_Atoi line with
               | Ok pid =>
                   match fs_Proc (fs c) pid with
                   | Ok proc => appendAt id proc procs
                   | _ => procs
                   end
               | _ => procs
               end)
            cgroupProcs (scanLines data)
  | _ => cgroupProcs
  end.

(** The function [discover] hands to [filepath.WalkDir]; [Ok] is a nil
    return, [Err] an error return. *)
Definition visit (c : cgroupManager) (h : host) (st : walkState) (e : walkEntry)
  : outcome walkState :=
  match wErr e with
  | Some err => Err err
  | None =>
      let p := wPath e in
      if negb (wIsDir e) then Ok st
      else
        match filepath_Rel h (root c) p with
        | Ok rel =>
            match unescapeString h p with
            | Ok sanitizedPath =>
                match regexp.FindStringSubmatch (idRegex c) sanitizedPath with
                | _ :: m1 :: _ =>
                    let id := strings_TrimSpace m1 in
                    if String.eqb id "" then Ok st
                    else
                      let procs := readProcs c h p id (cgroupProcs st) in
                      let here := {| abs := sanitizedPath; rel := rel |} in
                      if isChild c p then
                        Ok {| cgroups := cgroups st;
                              cgroupProcs := procs;
                              cgroupChildren := appendAt id here (cgroupChildren st) |}
                      else
                        let cgrp := {| cg_id := id; cg_uuid := id; cg_procs := [];
                                       cg_path := here; cg_children := [] |} in
                        Ok {| cgroups := cgroups st ++ [cgrp];
                              cgroupProcs := procs;
                              cgroupChildren := appendAt id here (cgroupChildren st) |}
                | _ => Ok st
                end
            | _ => Ok st
            end
        | _ => Ok st
        end
  end.

(** [filepath.WalkDir]: call [fn] on each entry in turn and stop at the
    first error it returns. *)
Fixpoint WalkDir (fn : walkState -> walkEntry -> outcome walkState)
    (entries : list walkEntry) (st : walkState) : outcome walkState :=
  match entries with
  | [] => Ok st
  | e :: entries' => st' ← fn st e; WalkDir fn entries' st'
  end.

(** The merge loop after the walk. *)
Definition merge (st : walkState) (g : cgroup) : cgroup :=
  {| cg_id := cg_id g; cg_uuid := cg_uuid g;
     cg_procs := match cgroupProcs st !! cg_id g with
                 | Some procs => procs
                 | None => cg_procs g
                 end;
     cg_path := cg_path g;
     cg_children := match cgroupChildren st !! cg_id g with
                    | Some children => children
                    | None => cg_children g
                    end |}.

(** [discover]: [Ok cgroups] is [(cgroups, nil)], [Err e] is [(nil, e)]. *)
Definition discover (c : cgroupManager) (h : host) : outcome (list cgroup) :=
  st ← WalkDir (visit c h) (walk h (mountPoint c))
        {| cgroups := []; cgroupProcs := ∅; cgroupChildren := ∅ |};
  Ok (merge st <$> cgroups st).

(** ** Metrics *)

Record cgMetric : Type := {
  path : string;
  cpuUser : float64;
  cpuSystem : float64;
  cpuTotal : float64;
  cpus : Z;
  cpuPressure : float64;
  memoryRSS : float64;
  memoryCache : float64;
  memoryUsed : float64;
  memoryTotal : float64;
  memoryFailCount : float64;
  memswUsed : float64;
  memswTotal : float64;
  memswFailCount : float64;
  memoryPressure : float64;
  blkioReadBytes : gmap string float64;
  blkioWriteBytes : gmap string float64;
  blkioReadReqs : gmap string float64;
  blkioWriteReqs : gmap string float64;
  blkioPressure : float64;
  rdmaHCAHandles : gmap string float64;
  rdmaHCAObjects : gmap string float64;
  uuid : string;
  err : bool
}.

(** The metric a collector makes for a discovered unit: the struct literal
    with [path] and [uuid], every other field at its zero value. *)
Definition newMetric (path' uuid' : string) : cgMetric :=
  {| path := path'; cpuUser := 0%float; cpuSystem := 0%float;
     cpuTotal := 0%float; cpus := 0; cpuPressure := 0%float;
     memoryRSS := 0%float; memoryCache := 0%float; memoryUsed := 0%float;
     memoryTotal := 0%float; memoryFailCount := 0%float;
     memswUsed := 0%float; memswTotal := 0%float;
     memswFailCount := 0%float; memoryPressure := 0%float;
     blkioReadBytes := ∅; blkioWriteBytes := ∅; blkioReadReqs := ∅;
     blkioWriteReqs := ∅; blkioPressure := 0%float;
     rdmaHCAHandles := ∅; rdmaHCAObjects := ∅; uuid := uuid'; err := false |}.

(** [metric.err = true] *)
Definition setErr (m : cgMetric) : cgMetric :=
  {| path := path m; cpuUser := cpuUser m; cpuSystem := cpuSystem m;
     cpuTotal := cpuTotal m; cpus := cpus m; cpuPressure := cpuPressure m;
     memoryRSS := memoryRSS m; memoryCache := memoryCache m;
     memoryUsed := memoryUsed m; memoryTotal := memoryTotal m;
     memoryFailCount := memoryFailCount m; memswUsed := memswUsed m;
     memswTotal := memswTotal m; memswFailCount := memswFailCount m;
     memoryPressure := memoryPressure m;
     blkioReadBytes := blkioReadBytes m; blkioWriteBytes := blkioWriteBytes m;
     blkioReadReqs := blkioReadReqs m; blkioWriteReqs := blkioWriteReqs m;
     blkioPressure := blkioPressure m;
     rdmaHCAHandles := rdmaHCAHandles m; rdmaHCAObjects := rdmaHCAObjects m;
     uuid := uuid m; err := true |}.

Record cgroupOpts : Type := {
  collectSwapMemStats : bool;
  collectBlockIOStats : bool;
  collectPSIStats : bool
}.

(** The descriptors of [cgroupCollector], by field name. *)
Inductive Desc : Type :=
| numCgs | cgCPUUser | cgCPUSystem | cgCPUs | cgCPUPressure
| cgMemoryRSS | cgMemoryCache | cgMemoryUsed | cgMemoryTotal | cgMemoryFailCount
| cgMemswUsed | cgMemswTotal | cgMemswFailCount | cgMemoryPressure
| cgBlkioReadBytes | cgBlkioWriteBytes | cgBlkioReadReqs | cgBlkioWriteReqs
| cgBlkioPressure | cgRDMAHCAHandles | cgRDMAHCAObjects | collectError.

#[global] Instance Desc_eq_dec : EqDecision Desc.
Proof. solve_decision. Defined.

(** The metric name each descriptor is built with (after the namespace and
    the [compute] subsystem). *)
Definition descName (d : Desc) : string :=
  match d with
  | numCgs => "units"
  | cgCPUUser => "unit_cpu_user_seconds_total"
  | cgCPUSystem => "unit_cpu_system_seconds_total"
  | cgCPUs => "unit_cpus"
  | cgCPUPressure => "unit_cpu_psi_seconds"
  | cgMemoryRSS => "unit_memory_rss_bytes"
  | cgMemoryCache => "unit_memory_cache_bytes"
  | cgMemoryUsed => "unit_memory_used_bytes"
  | cgMemoryTotal => "unit_memory_total_bytes"
  | cgMemoryFailCount => "unit_memory_fail_count"
  | cgMemswUsed => "unit_memsw_used_bytes"
  | cgMemswTotal => "unit_memsw_total_bytes"
  | cgMemswFailCount => "unit_memsw_fail_count"
  | cgMemoryPressure => "unit_memory_psi_seconds"
  | cgBlkioReadBytes => "unit_blkio_read_total_bytes"
  | cgBlkioWriteBytes => "unit_blkio_write_total_bytes"
  | cgBlkioReadReqs => "unit_blkio_read_total_requests"
  | cgBlkioWriteReqs => "unit_blkio_write_total_requests"
  | cgBlkioPressure => "unit_blkio_psi_seconds"
  | cgRDMAHCAHandles => "unit_rdma_hca_handles"
  | cgRDMAHCAObjects => "unit_rdma_hca_objects"
  | collectError => "collect_error"
  end.

(** The descriptors whose label set ends in [device]. *)
Definition perDevice (d : Desc) : bool :=
  match d with
  | cgBlkioReadBytes | cgBlkioWriteBytes | cgBlkioReadReqs | cgBlkioWriteReqs
  | cgBlkioPressure | cgRDMAHCAHandles | cgRDMAHCAObjects => true
  | _ => false
  end.

Inductive ValueType : Type := CounterValue | GaugeValue.

(** A [prometheus.Metric] made by [MustNewConstMetric]. *)
Record Metric : Type := MustNewConstMetric {
  desc : Desc;
  valueType : ValueType;
  value : float64;
  labelValues : list string
}.

Record cgroupCollector : Type := {
  cgManager : cgroupManager;
  opts : cgroupOpts;
  hostname : string;
  hostMemInfo : gmap string float64;
  blockDevices : gmap string string
}.

(** [c.hostMemInfo[key]]: zero for a missing key. *)
Definition memInfo (c : cgroupCollector) (key : string) : float64 :=
  default 0%float (hostMemInfo c !! key).

(** [c.blockDevices[fmt.Sprintf("%d:%d", major, minor)]] *)
Definition devName (c : cgroupCollector) (major minor : Z) : string :=
  default EmptyString
    (blockDevices c !! (strconv_Itoa major +:+ ":" +:+ strconv_Itoa minor)).

(** ** [parseCPUSet] and [getCPUs] *)

(** The inner loop [for e := start; e <= end; e++] appending
    [strconv.Itoa(e)]. When [end] is the largest [int] the counter wraps
    and the condition never fails: the loop does not end. *)
Definition expand (start end_ : Z) (cpus : list string) : outcome (list string) :=
  if (start <=? end_) && (end_ =? MaxInt64) then Hang
  else Ok (cpus ++ (strconv_Itoa <$> seqZ start (end_ - start + 1))).

(** The bounds one range sets: [start] and [end] are declared outside the
    loop, and a range with more than one dash assigns neither. *)
Definition boundaries (r : string) (start end_ : Z) : outcome (Z * Z) :=
  match strings_Split r "-" with
  | [b0] => start' ← strconv_Atoi b0; Ok (start', start')
  | [b0; b1] => start' ← strconv_Atoi b0; end' ← strconv_Atoi b1; Ok (start', end')
  | _ => Ok (start, end_)
  end.

(** The loop over [ranges], with the variables [start], [end] and [cpus]. *)
Fixpoint parseRanges (ranges : list string) (start end_ : Z) (cpus : list string)
  : outcome (list string) :=
  match ranges with
  | [] => Ok cpus
  | r :: ranges' =>
      se ← boundaries r start end_;
      cpus' ← expand se.1 se.2 cpus;
      parseRanges ranges' se.1 se.2 cpus'
  end.

Definition parseCPUSet (cpuset : string) : outcome (list string) :=
  if String.eqb cpuset "" then Err "empty cpuset file"
  else parseRanges (strings_Split cpuset ",") 0 0 [].

(** The variable [cpusPath] of [getCPUs]. *)
Definition cpusPath (c : cgroupCollector) (h : host) (path' : string) : string :=
  if decide (mode (cgManager c) = Unified)
  then cgroupfsPath h +:+ path' +:+ "/cpuset.cpus.effective"
  else cgroupfsPath h +:+ "/cpuset" +:+ path' +:+ "/cpuset.cpus".

Definition getCPUs (c : cgroupCollector) (h : host) (path' : string)
  : outcome (list string) :=
  if negb (fileExists h (cpusPath c h path'))
  then Err ("cpuset file " +:+ cpusPath c h path' +:+ " not found")
  else
    cpusData ← os_ReadFile h (cpusPath c h path');
    parseCPUSet (trimSuffixLF cpusData).

(** [if cpus, err := c.getCPUs(path); err == nil { metric.cpus = len(cpus) }] *)
Definition countCPUs (c : cgroupCollector) (h : host) (metric : cgMetric)
  : outcome Z :=
  match getCPUs c h (path metric) with
  | Ok cpus' => Ok (Z.of_nat (length cpus'))
  | Err _ => Ok (cpus metric)
  | Hang => Hang
  end.

(** ** [statsV1] and [statsV2] *)

(** The [for ... range] loops that fill one block-IO map from the v1
    entries: an entry is stored when its operation is [op]. (The source
    tests [readOp] first and [writeOp] in the else branch; the two names
    differ, so each map receives exactly the entries of its operation.) *)
Definition blkioV1 (c : cgroupCollector) (op : string)
    (entries : list cgroup1.BlkIOEntry) : gmap string float64 :=
  foldl (fun m stat =>
           if String.eqb (cgroup1.Op stat) op
           then <[devName c (cgroup1.Major stat) (cgroup1.Minor stat)
                    := float64_of_uint64 (cgroup1.Value stat)]> m
           else m)
        ∅ entries.

Definition statsV1 (c : cgroupCollector) (h : host) (metric : cgMetric)
  : outcome cgMetric :=
  match cgroup1_Load h (path metric) with
  | Hang => Hang
  | Err _ => Ok (setErr metric)
  | Ok ctrl =>
  match cgroup1.Stat ctrl with
  | Hang => Hang
  | Err _ | Ok None => Ok (setErr metric)
  | Ok (Some stats) =>
      cpus' ← countCPUs c h metric;
      let usage := cgroup1.CPU stats ≫= cgroup1.cpu_Usage in
      let memory := cgroup1.Memory stats in
      let memUsage := memory ≫= cgroup1.mem_Usage in
      let memSwap := memory ≫= cgroup1.mem_Swap in
      let blkio := cgroup1.Blkio stats in
      let rdma := cgroup1.Rdma stats in
      Ok {|
        path := path metric;
        cpuUser := match usage with
                   | Some u => (float64_of_uint64 (cgroup1.User u) / 1000000000)%float
                   | None => cpuUser metric end;
        cpuSystem := match usage with
                     | Some u => (float64_of_uint64 (cgroup1.Kernel u) / 1000000000)%float
                     | None => cpuSystem metric end;
        cpuTotal := match usage with
                    | Some u => (float64_of_uint64 (cgroup1.Total u) / 1000000000)%float
                    | None => cpuTotal metric end;
        cpus := cpus';
        cpuPressure := cpuPressure metric;
        memoryRSS := match memory with
                     | Some mem => float64_of_uint64 (cgroup1.TotalRSS mem)
                     | None => memoryRSS metric end;
        memoryCache := match memory with
                       | Some mem => float64_of_uint64 (cgroup1.TotalCache mem)
                       | None => memoryCache metric end;
        memoryUsed := match memUsage with
                      | Some u => float64_of_uint64 (cgroup1.Usage u)
                      | None => memoryUsed metric end;
        memoryTotal :=
          match memUsage with
          | Some u =>
              if (cgroup1.Limit u =? MaxUint64) && positive (memInfo c "MemTotal_bytes")
              then memInfo c "MemTotal_bytes"
              else float64_of_uint64 (cgroup1.Limit u)
          | None => memoryTotal metric
          end;
        memoryFailCount := match memUsage with
                           | Some u => float64_of_uint64 (cgroup1.Failcnt u)
                           | None => memoryFailCount metric end;
        memswUsed := match memSwap with
                     | Some sw => float64_of_uint64 (cgroup1.Usage sw)
                     | None => memswUsed metric end;
        memswTotal :=
          match memSwap with
          | Some sw =>
              if cgroup1.Limit sw =? MaxUint64 then
                if positive (memInfo c "SwapTotal_bytes") then memInfo c "SwapTotal_bytes"
                else if positive (memInfo c "MemTotal_bytes") then memInfo c "MemTotal_bytes"
                else float64_of_uint64 (cgroup1.Limit sw)
              else float64_of_uint64 (cgroup1.Limit sw)
          | None => memswTotal metric
          end;
        memswFailCount := match memSwap with
                          | Some sw => float64_of_uint64 (cgroup1.Failcnt sw)
                          | None => memswFailCount metric end;
        memoryPressure := memoryPressure metric;
        blkioReadBytes :=
          match blkio with
          | Some b => blkioV1 c readOp (cgroup1.IoServiceBytesRecursive b)
          | None => blkioReadBytes metric end;
        blkioWriteBytes :=
          match blkio with
          | Some b => blkioV1 c writeOp (cgroup1.IoServiceBytesRecursive b)
          | None => blkioWriteBytes metric end;
        blkioReadReqs :=
          match blkio with
          | Some b => blkioV1 c readOp (cgroup1.IoServicedRecursive b)
          | None => blkioReadReqs metric end;
        blkioWriteReqs :=
          match blkio with
          | Some b => blkioV1 c writeOp (cgroup1.IoServicedRecursive b)
          | None => blkioWriteReqs metric end;
        blkioPressure := blkioPressure metric;
        rdmaHCAHandles :=
          match rdma with
          | Some r =>
              foldl (fun m device =>
                       <[cgroup1.Device device
                           := float64_of_uint64 (cgroup1.HcaHandles device)]> m)
                    ∅ (cgroup1.Current r)
          | None => rdmaHCAHandles metric end;
        rdmaHCAObjects :=
          match rdma with
          | Some r =>
              foldl (fun m device =>
                       <[cgroup1.Device device
                           := float64_of_uint64 (cgroup1.HcaObjects device)]> m)
                    ∅ (cgroup1.Current r)
          | None => rdmaHCAObjects metric end;
        uuid := uuid metric;
        err := err metric
      |}
  end
  end.

(** The loop that fills one block-IO map from the v2 [io.stat] entries. *)
Definition blkioV2 (c : cgroupCollector) (field : cgroup2.IOEntry -> Z)
    (entries : list cgroup2.IOEntry) : gmap string float64 :=
  foldl (fun m stat =>
           <[devName c (cgroup2.Major stat) (cgroup2.Minor stat)
               := float64_of_uint64 (field stat)]> m)
        ∅ entries.

(** [float64(psi.GetFull().GetTotal()) / 1000000.0] *)
Definition pressure (psi : cgroup2.PSIStats) : float64 :=
  (float64_of_uint64 (cgroup2.fullTotal psi) / 1000000)%float.

Definition statsV2 (c : cgroupCollector) (h : host) (metric : cgMetric)
  : outcome cgMetric :=
  match cgroup2_Load h (path metric) with
  | Hang => Hang
  | Err _ => Ok (setErr metric)
  | Ok ctrl =>
  match cgroup2.Stat ctrl with
  | Hang => Hang
  | Err _ | Ok None => Ok (setErr metric)
  | Ok (Some stats) =>
      cpus' ← countCPUs c h metric;
      let cpu := cgroup2.CPU stats in
      let memory := cgroup2.Memory stats in
      let io := cgroup2.Io stats in
      let rdma := cgroup2.Rdma stats in
      Ok {|
        path := path metric;
        cpuUser := match cpu with
                   | Some s => (float64_of_uint64 (cgroup2.UserUsec s) / 1000000)%float
                   | None => cpuUser metric end;
        cpuSystem := match cpu with
                     | Some s => (float64_of_uint64 (cgroup2.SystemUsec s) / 1000000)%float
                     | None => cpuSystem metric end;
        cpuTotal := match cpu with
                    | Some s => (float64_of_uint64 (cgroup2.UsageUsec s) / 1000000)%float
                    | None => cpuTotal metric end;
        cpus := cpus';
        cpuPressure := match cpu ≫= cgroup2.cpu_PSI with
                       | Some psi => pressure psi
                       | None => cpuPressure metric end;
        memoryRSS := match memory with
                     | Some mem => float64_of_uint64 (cgroup2.Anon mem)
                     | None => memoryRSS metric end;
        memoryCache := match memory with
                       | Some mem => float64_of_uint64 (cgroup2.File mem)
                       | None => memoryCache metric end;
        memoryUsed := match memory with
                      | Some mem => float64_of_uint64 (cgroup2.Usage mem)
                      | None => memoryUsed metric end;
        memoryTotal :=
          match memory with
          | Some mem =>
              if (cgroup2.UsageLimit mem =? MaxUint64)
                 && positive (memInfo c "MemTotal_bytes")
              then memInfo c "MemTotal_bytes"
              else float64_of_uint64 (cgroup2.UsageLimit mem)
          | None => memoryTotal metric
          end;
        memoryFailCount := match cgroup2.MemoryEvents_ stats with
                           | Some ev => float64_of_uint64 (cgroup2.Oom ev)
                           | None => memoryFailCount metric end;
        memswUsed := match memory with
                     | Some mem => float64_of_uint64 (cgroup2.SwapUsage mem)
                     | None => memswUsed metric end;
        memswTotal :=
          match memory with
          | Some mem =>
              if cgroup2.SwapLimit mem =? MaxUint64 then
                if positive (memInfo c "SwapTotal_bytes") then memInfo c "SwapTotal_bytes"
                else if positive (memInfo c "MemTotal_bytes") then memInfo c "MemTotal_bytes"
                else float64_of_uint64 (cgroup2.SwapLimit mem)
              else float64_of_uint64 (cgroup2.SwapLimit mem)
          | None => memswTotal metric
          end;
        memswFailCount := memswFailCount metric;
        memoryPressure := match memory ≫= cgroup2.mem_PSI with
                          | Some psi => pressure psi
                          | None => memoryPressure metric end;
        blkioReadBytes := match io with
                          | Some i => blkioV2 c cgroup2.Rbytes (cgroup2.io_Usage i)
                          | None => blkioReadBytes metric end;
        blkioWriteBytes := match io with
                           | Some i => blkioV2 c cgroup2.Wbytes (cgroup2.io_Usage i)
                           | None => blkioWriteBytes metric end;
        blkioReadReqs := match io with
                         | Some i => blkioV2 c cgroup2.Rios (cgroup2.io_Usage i)
                         | None => blkioReadReqs metric end;
        blkioWriteReqs := match io with
                          | Some i => blkioV2 c cgroup2.Wios (cgroup2.io_Usage i)
                          | None => blkioWriteReqs metric end;
        blkioPressure := match io ≫= cgroup2.io_PSI with
                         | Some psi => pressure psi
                         | None => blkioPressure metric end;
        rdmaHCAHandles :=
          match rdma with
          | Some r =>
              foldl (fun m device =>
                       <[cgroup2.Device device
                           := float64_of_uint64 (cgroup2.HcaHandles device)]> m)
                    ∅ (cgroup2.Current r)
          | None => rdmaHCAHandles metric end;
        rdmaHCAObjects :=
          match rdma with
          | Some r =>
              foldl (fun m device =>
                       <[cgroup2.Device device
                           := float64_of_uint64 (cgroup2.HcaObjects device)]> m)
                    ∅ (cgroup2.Current r)
          | None => rdmaHCAObjects metric end;
        uuid := uuid metric;
        err := err metric
      |}
  end
  end.

(** ** [update], [doUpdate] and [Update] *)

Definition update (c : cgroupCollector) (h : host) (m : cgMetric) : outcome cgMetric :=
  if decide (mode (cgManager c) = Unified) then statsV2 c h m else statsV1 c h m.

(** [doUpdate] runs [update] on every element, each in a goroutine of its
    own that writes only its element, and waits for all of them. *)
Fixpoint doUpdate (c : cgroupCollector) (h : host) (metrics : list cgMetric)
  : outcome (list cgMetric) :=
  match metrics with
  | [] => Ok []
  | m :: metrics' =>
      m' ← update c h m; rest ← doUpdate c h metrics'; Ok (m' :: rest)
  end.

(** [if v, ok := values[device]; ok && v > 0 { ch <- ... }] *)
Definition sendDevice (c : cgroupCollector) (m : cgMetric) (d : Desc)
    (values : gmap string float64) (device : string) : list Metric :=
  match values !! device with
  | Some v =>
      if positive v
      then [MustNewConstMetric d GaugeValue v
              [manager (cgManager c); hostname c; uuid m; device]]
      else []
  | None => []
  end.

(** The metrics [Update] sends for one element of [metrics], in order. The
    iteration order of a Go map is unspecified; [map_to_list] fixes one. *)
Definition sendMetrics (c : cgroupCollector) (m : cgMetric) : list Metric :=
  let unit (d : Desc) (vt : ValueType) (v : float64) : Metric :=
    MustNewConstMetric d vt v [manager (cgManager c); hostname c; uuid m] in
  (if err m then [unit collectError GaugeValue 1%float] else [])
  ++ [unit cgCPUUser CounterValue (cpuUser m);
      unit cgCPUSystem CounterValue (cpuSystem m);
      unit cgCPUs GaugeValue (float64_of_int (cpus m));
      unit cgMemoryRSS GaugeValue (memoryRSS m);
      unit cgMemoryCache GaugeValue (memoryCache m);
      unit cgMemoryUsed GaugeValue (memoryUsed m);
      unit cgMemoryTotal GaugeValue (memoryTotal m);
      unit cgMemoryFailCount GaugeValue (memoryFailCount m)]
  ++ (if collectSwapMemStats (opts c)
      then [unit cgMemswUsed GaugeValue (memswUsed m);
            unit cgMemswTotal GaugeValue (memswTotal m);
            unit cgMemswFailCount GaugeValue (memswFailCount m)]
      else [])
  ++ (if collectBlockIOStats (opts c)
      then flat_map (fun device =>
                       sendDevice c m cgBlkioReadBytes (blkioReadBytes m) device
                       ++ sendDevice c m cgBlkioWriteBytes (blkioWriteBytes m) device
                       ++ sendDevice c m cgBlkioReadReqs (blkioReadReqs m) device
                       ++ sendDevice c m cgBlkioWriteReqs (blkioWriteReqs m) device)
                    (map_to_list (blkioReadBytes m)).*1
      else [])
  ++ (if collectPSIStats (opts c)
      then [unit cgCPUPressure GaugeValue (cpuPressure m);
            unit cgMemoryPressure GaugeValue (memoryPressure m)]
      else [])
  ++ flat_map (fun '(device, handles) =>
                 if positive handles
                 then [MustNewConstMetric cgRDMAHCAHandles GaugeValue handles
                         [manager (cgManager c); hostname c; uuid m; device]]
                 else [])
              (map_to_list (rdmaHCAHandles m))
  ++ flat_map (fun '(device, objects) =>
                 if positive objects
                 then [MustNewConstMetric cgRDMAHCAObjects GaugeValue objects
                         [manager (cgManager c); hostname c; uuid m; device]]
                 else [])
              (map_to_list (rdmaHCAHandles m)).

(** [Update]: [Ok sent] is a nil return after sending [sent] on the channel
    (the only return the function has); [Hang] is no return. *)
Definition Update (c : cgroupCollector) (h : host) (metrics : list cgMetric)
  : outcome (list Metric) :=
  metrics' ← doUpdate c h metrics;
  Ok (MustNewConstMetric numCgs GaugeValue
        (float64_of_int (Z.of_nat (length metrics')))
        [manager (cgManager c); hostname c]
      :: flat_map (sendMetrics c) metrics').


(** The variable labels each descriptor is created with in
    [NewCgroupCollector]. *)
Definition variableLabels (d : Desc) : list string :=
  match d with
  | numCgs => ["manager"; "hostname"]
  | cgBlkioReadBytes | cgBlkioWriteBytes | cgBlkioReadReqs | cgBlkioWriteReqs
  | cgBlkioPressure | cgRDMAHCAHandles | cgRDMAHCAObjects =>
      ["manager"; "hostname"; "uuid"; "device"]
  | _ => ["manager"; "hostname"; "uuid"]
  end.

(** ** [parseCgroupSubSysIds] *)

Definition cgroupSubSysCount : Z := 15.

(** [cgroupController]; the fields are [id], [idx], [name] and [active]. *)
Record cgroupController : Type := {
  ctrl_id : Z;
  ctrl_idx : Z;
  ctrl_name : string;
  ctrl_active : bool
}.

(** What a call of [parseCgroupSubSysIds] does: it returns the pair
    [(controllers, err)], where [err] may be non-nil together with the
    controllers read so far, or it panics on an index out of range. *)
Inductive subsysResult : Type :=
| Returned (controllers : list cgroupController) (err : option string)
| Panicked (msg : string).

(** The loop over the lines after the first, with the variables [idx] and
    [cgroupControllers]. The arguments of [fmt.Errorf] and of
    [strconv.ParseUint] index [fields] before the call is made. *)
Fixpoint scanSubSys (lines : list string) (idx : Z)
    (cgroupControllers : list cgroupController) : subsysResult :=
  match lines with
  | [] => Returned cgroupControllers None
  | line :: lines' =>
      let fields := strings_Fields line in
      if cgroupSubSysCount <=? idx then
        match fields with
        | f0 :: _ =>
            Returned cgroupControllers
              (Some ("cgroup default subsystem '" +:+ f0
                     +:+ "' is indexed at idx=" +:+ strconv_Itoa idx
                     +:+ " higher than CGROUP_SUBSYS_COUNT="
                     +:+ strconv_Itoa cgroupSubSysCount))
        | [] => Panicked "runtime error: index out of range [0] with length 0"
        end
      else
        match fields with
        | f0 :: f1 :: _ =>
            scanSubSys lines' (idx + 1)
              match strconv_ParseUint32 f1 with
              | Ok id =>
                  cgroupControllers
                  ++ [{| ctrl_id := id; ctrl_idx := idx; ctrl_name := f0;
                         ctrl_active := true |}]
              | _ => cgroupControllers
              end
        | _ =>
            Panicked ("runtime error: index out of range [1] with length "
                      +:+ strconv_Itoa (Z.of_nat (length fields)))
        end
  end.

(** [parseCgroupSubSysIds]; [procCgroups] is [procFilePath("cgroups")], the
    path of the file under the procfs mount. *)
Definition parseCgroupSubSysIds (h : host) (procCgroups : string) : subsysResult :=
  match files h !! procCgroups with
  | Some (Content data) => scanSubSys (tail (scanLines data)) 0 []
  | Some Unreadable => Returned [] (Some ("open " +:+ procCgroups +:+ ": permission denied"))
  | None => Returned [] (Some ("open " +:+ procCgroups +:+ ": no such file or directory"))
  end.

(** ** [NewCgroupCollector] *)

(** [blockdevice.Info], as far as the collector reads it. *)
Record Diskstats : Type := {
  MajorNumber : Z;
  MinorNumber : Z;
  DeviceName : string
}.

(** [NewCgroupCollector]; it returns no error. [hostname'] is the package's
    [hostname]; [meminfo] is the outcome of opening the [meminfo] file of
    procfs and parsing it with [parseMemInfo], and [diskstats] that of
    [blockdevice.NewFS] followed by [ProcDiskstats] (neither is among the
    sources). The descriptors it creates are the constructors of [Desc]. *)
Definition NewCgroupCollector (cgManager' : cgroupManager) (opts' : cgroupOpts)
    (hostname' : string) (meminfo : outcome (gmap string float64))
    (diskstats : outcome (list Diskstats)) : cgroupCollector :=
  {| cgManager := cgManager';
     opts := opts';
     hostname := hostname';
     hostMemInfo := match meminfo with
                    | Ok memInfo' => memInfo'
                    | _ => ∅
                    end;
     blockDevices :=
       match diskstats with
       | Ok stats =>
           foldl (fun m s =>
                    <[strconv_Itoa (MajorNumber s) +:+ ":" +:+ strconv_Itoa (MinorNumber s)
                        := DeviceName s]> m)
                 ∅ stats
       | _ => ∅
       end |}.

End collector.


(** * Specification-side definitions and example systems *)

(** ** For the load balancer *)

Module lbspec.
Import serverpool frontend.

Definition Hour : Z := 3600 * 1000000000.

Definition Day : Z := 24 * Hour.

(** The window [Serve] hands to the manager. *)
Definition queryWindow (r : Request) : Z :=
  match contextQueryParams r with
  | None => 0
  | Some queryParams => queryPeriod queryParams
  end.

Definition tier_a : Server := mkServer "http://tsdb-a:9090" true true (30 * Day) 5.

Definition tier_b : Server := mkServer "http://tsdb-b:9090" true true (30 * Day) 2.

Definition pool_tie : resourceBased :=
  {| backends := {[ "prod" := [tier_a; tier_b] ]} |}.

(** A third backend of the same retention and without connections, whose
    health check fails while [Target] runs: alive at the first test, dead at
    the second. *)
Definition tier_c : Server := mkServer "http://tsdb-c:9090" true false (30 * Day) 0.

Definition pool_three : resourceBased :=
  {| backends := {[ "prod" := [tier_a; tier_b; tier_c] ]} |}.

Definition hot : Server := mkServer "http://tsdb-hot:9090" true true (6 * Hour) 0.

Definition cold_down : Server := mkServer "http://tsdb-cold:9090" false false (30 * Day) 0.

Definition pool_none : resourceBased :=
  {| backends := {[ "prod" := [hot; cold_down] ]} |}.

Definition cold : Server := mkServer "http://tsdb-cold:9090" true true (30 * Day) 0.

Definition pool_tiers : resourceBased :=
  {| backends := {[ "prod" := [hot; cold] ]} |}.

(** The hot tier going down while [Target] runs: its health check marks it
    dead between the two loops. The cold tier stays alive. *)
Definition hot_failing : Server :=
  mkServer "http://tsdb-hot:9090" true false (6 * Hour) 0.

Definition pool_failing : resourceBased :=
  {| backends := {[ "prod" := [hot_failing; cold] ]} |}.

Definition request12h : Request :=
  {| contextQueryParams := Some {| uuids := []; queryPeriod := 12 * Hour |} |}.

Definition requestNoParams : Request := {| contextQueryParams := None |}.

End lbspec.


(** ** For the collector *)

Module cgspec.
Import golib collector.

(** The spec's reading of a cpuset entry: an integer [n] or an inclusive
    range [lo-hi]. *)
Definition cpuRange (r : string) : option (Z * Z) :=
  match strings_Split r "-" with
  | [n] => match strconv_Atoi n with Ok v => Some (v, v) | _ => None end
  | [lo; hi] =>
      match strconv_Atoi lo, strconv_Atoi hi with
      | Ok a, Ok b => Some (a, b)
      | _, _ => None
      end
  | _ => None
  end.

Definition cpusetRanges (s : string) : option (list (Z * Z)) :=
  mapM cpuRange (strings_Split s ",").

Definition expansion (ranges : list (Z * Z)) : list Z :=
  ranges ≫= (fun r => seqZ r.1 (r.2 - r.1 + 1)).





(** The samples every unit gets: CPU and memory. *)
Definition unitSamples (c : cgroupCollector) (m : cgMetric) : list Metric :=
  let labels := [manager (cgManager c); hostname c; uuid m] in
  [MustNewConstMetric cgCPUUser CounterValue (cpuUser m) labels;
   MustNewConstMetric cgCPUSystem CounterValue (cpuSystem m) labels;
   MustNewConstMetric cgCPUs GaugeValue (float64_of_int (cpus m)) labels;
   MustNewConstMetric cgMemoryRSS GaugeValue (memoryRSS m) labels;
   MustNewConstMetric cgMemoryCache GaugeValue (memoryCache m) labels;
   MustNewConstMetric cgMemoryUsed GaugeValue (memoryUsed m) labels;
   MustNewConstMetric cgMemoryTotal GaugeValue (memoryTotal m) labels;
   MustNewConstMetric cgMemoryFailCount GaugeValue (memoryFailCount m) labels].

(** The map whose entries [Update] turns into the samples of a per-device
    descriptor: it ranges over [rdmaHCAHandles] for both RDMA descriptors. *)
Definition deviceValues (m : cgMetric) (d : Desc) : gmap string float64 :=
  match d with
  | cgBlkioReadBytes => blkioReadBytes m
  | cgBlkioWriteBytes => blkioWriteBytes m
  | cgBlkioReadReqs => blkioReadReqs m
  | cgBlkioWriteReqs => blkioWriteReqs m
  | cgRDMAHCAHandles | cgRDMAHCAObjects => rdmaHCAHandles m
  | _ => ∅
  end.

(** The value expected in [memoryTotal] for a memory limit: the host's
    [MemTotal] stands in for the all-ones limit when it is known. *)
Definition expectedMemoryTotal (c : cgroupCollector) (limit : Z) : float64 :=
  if decide (limit = MaxUint64) then
    if positive (memInfo c "MemTotal_bytes") then memInfo c "MemTotal_bytes"
    else float64_of_uint64 MaxUint64
  else float64_of_uint64 limit.

(** The value expected in [memswTotal] for a swap limit: [SwapTotal], then
    [MemTotal], stand in for the all-ones limit when known. *)
Definition expectedMemswTotal (c : cgroupCollector) (limit : Z) : float64 :=
  if decide (limit = MaxUint64) then
    if positive (memInfo c "SwapTotal_bytes") then memInfo c "SwapTotal_bytes"
    else if positive (memInfo c "MemTotal_bytes") then memInfo c "MemTotal_bytes"
    else float64_of_uint64 MaxUint64
  else float64_of_uint64 limit.

(** The root unit a walked entry contributes, if any: the entry is a
    directory, its path can be made relative and unescaped, the pattern
    matches with a non-empty trimmed first group, and it is not a child. *)
Definition unitOf (c : cgroupManager) (h : host) (e : walkEntry) : option cgroup :=
  if wIsDir e then
    match filepath_Rel h (root c) (wPath e), unescapeString h (wPath e) with
    | Ok rel, Ok sanitizedPath =>
        match regexp.FindStringSubmatch (idRegex c) sanitizedPath with
        | _ :: m1 :: _ =>
            let id := strings_TrimSpace m1 in
            if String.eqb id "" then None
            else if isChild c (wPath e) then None
            else Some {| cg_id := id; cg_uuid := id; cg_procs := [];
                         cg_path := {| abs := sanitizedPath; rel := rel |};
                         cg_children := [] |}
        | _ => None
        end
    | _, _ => None
    end
  else None.

Definition unitID (c : cgroupManager) (h : host) (e : walkEntry) : option string :=
  cg_id <$> unitOf c h e.

(** The walk reports no error for the entry. *)
Definition noWalkError (e : walkEntry) : Prop := wErr e = None.

(** Two records of the same unit: same [id], [uuid] and [path]. *)
Definition sameUnit (g u : cgroup) : Prop :=
  cg_id g = cg_id u /\ cg_uuid g = cg_uuid u /\ cg_path g = cg_path u.

(** *** Example systems *)

(** [filepath.Rel] for a target at or below the base path. *)
Definition relUnder (basepath targpath : string) : outcome string :=
  if String.eqb basepath targpath then Ok "."
  else if String.prefix (basepath +:+ "/") targpath
       then Ok (regexp.drop (String.length basepath + 1) targpath)
       else Err "Rel: can't make path relative".

Definition dir (p : string) : walkEntry :=
  {| wPath := p; wIsDir := true; wErr := None |}.

Definition regular (p : string) : walkEntry :=
  {| wPath := p; wIsDir := false; wErr := None |}.

Definition vanished (p : string) : walkEntry :=
  {| wPath := p; wIsDir := true;
     wErr := Some ("open " +:+ p +:+ ": no such file or directory") |}.

(** A file of the given lines, each ended by a newline. *)
Definition lines (l : list string) : string :=
  foldr (fun x acc => x +:+ String LF acc) "" l.

Definition procfs : FS := {| fs_Proc := fun pid => Ok {| PID := pid |} |}.

Definition node (files' : gmap string file) (walk' : list walkEntry)
    (load1 : outcome cgroup1.Cgroup) (load2 : outcome cgroup2.Manager) : host :=
  {| cgroupfsPath := "/sys/fs/cgroup";
     files := files';
     walk := fun _ => walk';
     filepath_Rel := relUnder;
     unescapeString := unescapeHex;
     cgroup1_Load := fun _ => load1;
     cgroup2_Load := fun _ => load2 |}.

(** *** Slurm on cgroups v2 *)

Definition slurmUnified : cgroupManager :=
  {| fs := procfs; mode := Unified; root := "/sys/fs/cgroup";
     slice := "system.slice"; scope := "slurmstepd.scope";
     activeController := "";
     mountPoint := "/sys/fs/cgroup/system.slice/slurmstepd.scope";
     manager := slurm; idRegex := slurmCgroupPathRegex;
     isChild := fun p => strings_Contains p "/step_";
     ignoreProc := regexp.MatchString slurmIgnoreProcsRegex |}.

Definition scopeDir : string := "/sys/fs/cgroup/system.slice/slurmstepd.scope".

Definition job42Stats : cgroup2.Metrics :=
  {| cgroup2.CPU := Some {| cgroup2.UsageUsec := 5000000; cgroup2.UserUsec := 3000000;
                            cgroup2.SystemUsec := 2000000; cgroup2.cpu_PSI := None |};
     cgroup2.Memory := Some {| cgroup2.Anon := 524288; cgroup2.File := 0;
                               cgroup2.Usage := 1048576;
                               cgroup2.UsageLimit := MaxUint64;
                               cgroup2.SwapUsage := 0;
                               cgroup2.SwapLimit := MaxUint64;
                               cgroup2.mem_PSI := None |};
     cgroup2.MemoryEvents_ := None;
     cgroup2.Io := Some {| cgroup2.io_Usage :=
                             [ {| cgroup2.Major := 8; cgroup2.Minor := 0;
                                  cgroup2.Rbytes := 4096; cgroup2.Wbytes := 0;
                                  cgroup2.Rios := 1; cgroup2.Wios := 0 |} ];
                           cgroup2.io_PSI := None |};
     cgroup2.Rdma := Some {| cgroup2.Current :=
                               [ {| cgroup2.Device := "mlx5_0";
                                    cgroup2.HcaHandles := 2;
                                    cgroup2.HcaObjects := 7 |} ] |} |}.

Definition job42Files (cpuset : string) : gmap string file :=
  {[ scopeDir +:+ "/job_42/cgroup.procs" := Content (lines ["101"; "102"]);
     scopeDir +:+ "/job_42/cpuset.cpus.effective" := Content (lines [cpuset]) ]}.

Definition job42Walk : list walkEntry :=
  [dir scopeDir; dir (scopeDir +:+ "/job_42");
   regular (scopeDir +:+ "/job_42/cgroup.procs");
   dir (scopeDir +:+ "/job_42/step_0")].

Definition job42Host (cpuset : string) : host :=
  node (job42Files cpuset) job42Walk (Err "cgroups v1 is not mounted")
       (Ok {| cgroup2.Stat := Ok (Some job42Stats) |}).

Definition job42Metric : cgMetric :=
  newMetric "/system.slice/slurmstepd.scope/job_42" "42".

Definition collectorOf (m : cgroupManager) (memInfo' : gmap string float64)
  : cgroupCollector :=
  {| cgManager := m;
     opts := {| collectSwapMemStats := true; collectBlockIOStats := true;
                collectPSIStats := false |};
     hostname := "node1"; hostMemInfo := memInfo';
     blockDevices := {[ "8:0" := "sda" ]} |}.

(** A host memory map as [/proc/meminfo] gives it on a node with 64 GiB of
    memory and no swap. *)
Definition memInfo64G : gmap string float64 :=
  {[ "MemTotal_bytes" := float64_of_uint64 68719476736;
     "SwapTotal_bytes" := 0%float ]}.

(** A unit whose cgroup cannot be loaded (it was removed after discovery). *)
Definition removedHost : host :=
  node ∅ job42Walk (Err "cgroups v1 is not mounted") (Err "cgroup deleted").

(** A unit whose cgroup loads, with no controller section in its stats and
    no cpuset file. *)
Definition bareStats : cgroup2.Metrics :=
  {| cgroup2.CPU := None; cgroup2.Memory := None; cgroup2.MemoryEvents_ := None;
     cgroup2.Io := None; cgroup2.Rdma := None |}.

Definition bareHost : host :=
  node ∅ job42Walk (Err "cgroups v1 is not mounted")
       (Ok {| cgroup2.Stat := Ok (Some bareStats) |}).

(** Three jobs, the second of which ends while the walk runs: [WalkDir]
    has its entry from reading the parent, calls the function on it, fails
    to read the directory itself and calls the function again with the
    error. *)
Definition vanishingWalk : list walkEntry :=
  [dir scopeDir; dir (scopeDir +:+ "/job_1"); dir (scopeDir +:+ "/job_2");
   vanished (scopeDir +:+ "/job_2"); dir (scopeDir +:+ "/job_3")].

Definition vanishingHost : host :=
  node ∅ vanishingWalk (Err "cgroups v1 is not mounted") (Err "not read").

(** *** libvirt on cgroups v1 *)

Definition libvirtLegacy : cgroupManager :=
  {| fs := procfs; mode := Legacy; root := "/sys/fs/cgroup/cpuacct";
     slice := "machine.slice"; scope := ""; activeController := "cpuacct";
     mountPoint := "/sys/fs/cgroup/cpuacct/machine.slice";
     manager := libvirt; idRegex := libvirtCgroupPathRegex;
     isChild := fun p =>
       strings_Contains p "/libvirt" || strings_Contains p "/emulator"
       || strings_Contains p "/vcpu";
     ignoreProc := fun _ => false |}.

Definition sliceDir : string := "/sys/fs/cgroup/cpuacct/machine.slice".
Definition vmA : string := sliceDir +:+ "/machine-qemu\x2d1\x2dinstance\x2d0000000a.scope".
Definition vmB : string := sliceDir +:+ "/machine-qemu\x2d2\x2dinstance\x2d0000000b.scope".

(** Two virtual machines with their emulator and vcpu cgroups. *)
Definition twoVMsHost : host :=
  node ∅ [dir sliceDir; dir vmA; dir (vmA +:+ "/emulator"); dir (vmA +:+ "/vcpu0");
          dir vmB; dir (vmB +:+ "/emulator"); dir (vmB +:+ "/vcpu0")]
       (Err "not read") (Err "cgroups v2 is not mounted").

(** A virtual machine with an I/O thread, for which libvirt makes a cgroup
    [iothread1] beside [emulator] and [vcpu0]. *)
Definition iothreadHost : host :=
  node ∅ [dir sliceDir; dir vmA; dir (vmA +:+ "/emulator");
          dir (vmA +:+ "/iothread1"); dir (vmA +:+ "/vcpu0")]
       (Err "not read") (Err "cgroups v2 is not mounted").


(** The ID and the path [discover] reads from a walked entry, whether the
    directory is the root of a unit or one of its children. *)
Definition cgroupOf (c : cgroupManager) (h : host) (e : walkEntry)
  : option (string * cgroupPath) :=
  if wIsDir e then
    match filepath_Rel h (root c) (wPath e), unescapeString h (wPath e) with
    | Ok rel, Ok sanitizedPath =>
        match regexp.FindStringSubmatch (idRegex c) sanitizedPath with
        | _ :: m1 :: _ =>
            let id := strings_TrimSpace m1 in
            if String.eqb id "" then None
            else Some (id, {| abs := sanitizedPath; rel := rel |})
        | _ => None
        end
    | _, _ => None
    end
  else None.

(** The paths of the walked directories whose ID is [id], in walk order. *)
Definition pathsOf (c : cgroupManager) (h : host) (id : string)
    (entries : list walkEntry) : list cgroupPath :=
  omap (fun e => match cgroupOf c h e with
                 | Some (id', p) => if String.eqb id' id then Some p else None
                 | None => None
                 end) entries.

(** The processes that the file [cgroup.procs] of directory [p] lists and
    that procfs resolves, in file order. *)
Definition procsIn (c : cgroupManager) (h : host) (p : string) : list Proc :=
  match os_ReadFile h (filepath_Join [p; "cgroup.procs"]) with
  | Ok data =>
      omap (fun line => match strconv_Atoi line with
                        | Ok pid => match fs_Proc (fs c) pid with
                                    | Ok proc => Some proc
                                    | _ => None
                                    end
                        | _ => None
                        end) (scanLines data)
  | _ => []
  end.

(** The processes of the walked directories whose ID is [id], in walk
    order. *)
Definition procsOf (c : cgroupManager) (h : host) (id : string)
    (entries : list walkEntry) : list Proc :=
  entries ≫= (fun e => match cgroupOf c h e with
                       | Some (id', _) =>
                           if String.eqb id' id then procsIn c h (wPath e) else []
                       | None => []
                       end).

(** The value a map filled entry by entry holds for a key: that of the last
    entry satisfying [P] (the entry is stored, under that key), converted as
    the code converts it. *)
Definition lastEntry {A : Type} (P : A -> Prop) `{!forall a, Decision (P a)}
    (val : A -> Z) (entries : list A) : option float64 :=
  (fun e => float64_of_uint64 (val e)) <$> last (filter P entries).

(** A virtual machine on cgroups v1: block-IO entries for [sda] (8:0) and
    for two devices that the collector's [blockDevices] does not list. *)
Definition vmBlkio : cgroup1.BlkIOStat :=
  {| cgroup1.IoServiceBytesRecursive :=
       [ {| cgroup1.Op := "Read"; cgroup1.Major := 8; cgroup1.Minor := 0;
            cgroup1.Value := 4096 |};
         {| cgroup1.Op := "Write"; cgroup1.Major := 8; cgroup1.Minor := 0;
            cgroup1.Value := 512 |};
         {| cgroup1.Op := "Sync"; cgroup1.Major := 8; cgroup1.Minor := 0;
            cgroup1.Value := 4608 |};
         {| cgroup1.Op := "Total"; cgroup1.Major := 8; cgroup1.Minor := 0;
            cgroup1.Value := 4608 |};
         {| cgroup1.Op := "Read"; cgroup1.Major := 253; cgroup1.Minor := 0;
            cgroup1.Value := 100 |};
         {| cgroup1.Op := "Read"; cgroup1.Major := 253; cgroup1.Minor := 1;
            cgroup1.Value := 200 |} ];
     cgroup1.IoServicedRecursive :=
       [ {| cgroup1.Op := "Read"; cgroup1.Major := 8; cgroup1.Minor := 0;
            cgroup1.Value := 1 |};
         {| cgroup1.Op := "Write"; cgroup1.Major := 8; cgroup1.Minor := 0;
            cgroup1.Value := 1 |} ] |}.

Definition vmStats : cgroup1.Metrics :=
  {| cgroup1.CPU := Some {| cgroup1.cpu_Usage :=
                              Some {| cgroup1.User := 2000000000;
                                      cgroup1.Kernel := 1000000000;
                                      cgroup1.Total := 3000000000 |} |};
     cgroup1.Memory := None;
     cgroup1.Blkio := Some vmBlkio;
     cgroup1.Rdma := None |}.

Definition vmHost : host :=
  node ∅ [dir sliceDir; dir vmA]
       (Ok {| cgroup1.Stat := Ok (Some vmStats) |}) (Err "cgroups v2 is not mounted").

Definition vmMetric : cgMetric :=
  newMetric "/machine.slice/machine-qemu-1-instance-0000000a.scope" "instance-0000000a".

(** Whether the loop of [Update] over the metrics can send a sample of the
    descriptor under the given options. *)
Definition enabled (o : cgroupOpts) (d : Desc) : bool :=
  match d with
  | numCgs | cgBlkioPressure => false
  | cgMemswUsed | cgMemswTotal | cgMemswFailCount => collectSwapMemStats o
  | cgBlkioReadBytes | cgBlkioWriteBytes | cgBlkioReadReqs | cgBlkioWriteReqs =>
      collectBlockIOStats o
  | cgCPUPressure | cgMemoryPressure => collectPSIStats o
  | _ => true
  end.

(** When [Update] sends the sample of value [v] of a per-device descriptor
    for device [dev] of metric [m]. *)
Definition deviceSampleSent (c : cgroupCollector) (m : cgMetric) (d : Desc)
    (dev : string) (v : float64) : Prop :=
  positive v = true /\
  match d with
  | cgBlkioReadBytes | cgBlkioWriteBytes | cgBlkioReadReqs | cgBlkioWriteReqs =>
      collectBlockIOStats (opts c) = true /\
      is_Some (blkioReadBytes m !! dev) /\
      deviceValues m d !! dev = Some v
  | cgRDMAHCAHandles | cgRDMAHCAObjects => rdmaHCAHandles m !! dev = Some v
  | _ => False
  end.

(** The swap and the pressure samples of a unit. *)
Definition swapSamples (c : cgroupCollector) (m : cgMetric) : list Metric :=
  let labels := [manager (cgManager c); hostname c; uuid m] in
  [MustNewConstMetric cgMemswUsed GaugeValue (memswUsed m) labels;
   MustNewConstMetric cgMemswTotal GaugeValue (memswTotal m) labels;
   MustNewConstMetric cgMemswFailCount GaugeValue (memswFailCount m) labels].

Definition pressureSamples (c : cgroupCollector) (m : cgMetric) : list Metric :=
  let labels := [manager (cgManager c); hostname c; uuid m] in
  [MustNewConstMetric cgCPUPressure GaugeValue (cpuPressure m) labels;
   MustNewConstMetric cgMemoryPressure GaugeValue (memoryPressure m) labels].

(** The controller a line of [/proc/cgroups] stands for at index [idx]: its
    first field is the name and its second the hierarchy ID. *)
Definition controllerOf (idx : Z) (line : string) : option cgroupController :=
  match strings_Fields line with
  | f0 :: f1 :: _ =>
      match strconv_ParseUint32 f1 with
      | Ok id => Some {| ctrl_id := id; ctrl_idx := idx; ctrl_name := f0;
                         ctrl_active := true |}
      | _ => None
      end
  | _ => None
  end.

(** The controllers of the lines that lie below index [cgroupSubSysCount],
    the first line having index [idx]. *)
Fixpoint controllersFrom (idx : Z) (lines : list string) : list cgroupController :=
  match lines with
  | [] => []
  | line :: lines' =>
      if cgroupSubSysCount <=? idx then []
      else option_list (controllerOf idx line) ++ controllersFrom (idx + 1) lines'
  end.

(** The lines of a [/proc/cgroups] after its header. *)
Definition subsysLines (data : string) : list string := tail (scanLines data).

(** A [/proc/cgroups] as the kernel writes it. *)
Definition procCgroupsFile : string :=
  lines ["#subsys_name	hierarchy	num_cgroups	enabled";
         "cpuset	8	1	1";
         "cpu	3	62	1";
         "cpuacct	3	62	1";
         "blkio	6	62	1";
         "memory	2	100	1"].

Definition procHost (data : string) : host :=
  node {[ "/proc/cgroups" := Content data ]} [] (Err "not read") (Err "not read").

(** The error [parseCgroupSubSysIds] returns at a line whose index reaches
    [cgroupSubSysCount], [name] being the line's first field. *)
Definition subsysIndexError (name : string) : string :=
  "cgroup default subsystem '" +:+ name +:+ "' is indexed at idx="
  +:+ strconv_Itoa cgroupSubSysCount +:+ " higher than CGROUP_SUBSYS_COUNT="
  +:+ strconv_Itoa cgroupSubSysCount.

(** The line has the two fields the loop indexes. *)
Definition twoFields (line : string) : Prop :=
  (2 <= length (strings_Fields line))%nat.

(** A [/proc/cgroups] with sixteen controllers, and one with a blank line
    after the first controller. *)
Definition procCgroupsSixteen : string :=
  lines ("#subsys_name hierarchy num_cgroups enabled"
         :: ((fun i => "ctrl" +:+ strconv_Itoa i +:+ " " +:+ strconv_Itoa i +:+ " 1 1")
             <$> seqZ 1 16)).

(** Fifteen controllers followed by a blank line and one more controller. *)
Definition procCgroupsFifteenBlank : string :=
  lines ("#subsys_name hierarchy num_cgroups enabled"
         :: ((fun i => "ctrl" +:+ strconv_Itoa i +:+ " " +:+ strconv_Itoa i +:+ " 1 1")
             <$> seqZ 1 15) ++ [""; "ctrl16 16 1 1"]).

Definition procCgroupsBlank : string :=
  lines ["#subsys_name hierarchy num_cgroups enabled"; "cpuset 8 1 1"; "";
         "cpu 3 62 1"].

(** The list format of the kernel's cpuset files: a CPU number [n], or a
    range [lo-hi], separated by commas. *)
Definition formatRange (r : Z * Z) : string :=
  if r.1 =? r.2 then strconv_Itoa r.1
  else strconv_Itoa r.1 +:+ "-" +:+ strconv_Itoa r.2.

Definition formatCPUSet (ranges : list (Z * Z)) : string :=
  String.concat "," (formatRange <$> ranges).

(** No character of [s] is [sep]. *)
Fixpoint lacks (sep : ascii) (s : string) : bool :=
  match s with
  | EmptyString => true
  | String c s' => negb (Ascii.eqb c sep) && lacks sep s'
  end.

(** The disks of a node, as [/proc/diskstats] lists them. *)
Definition nodeDisks : list Diskstats :=
  [ {| MajorNumber := 8; MinorNumber := 0; DeviceName := "sda" |};
    {| MajorNumber := 8; MinorNumber := 1; DeviceName := "sda1" |};
    {| MajorNumber := 259; MinorNumber := 0; DeviceName := "nvme0n1" |} ].

(** Every character of [s] is in the class [cls]. *)
Fixpoint allb (cls : ascii -> bool) (s : string) : bool :=
  match s with
  | EmptyString => true
  | String c s' => cls c && allb cls s'
  end.

(** What a match of [re] at the front of [s] is: the text left over and the
    capture groups after it, for an input of length [whole] and the groups
    [caps] before it. *)
Fixpoint matchOf (re : regexp.Regexp) (whole : nat) (s : string)
    (caps : gmap nat string) (s' : string) (caps' : gmap nat string) : Prop :=
  match re with
  | regexp.Lit l => s = l +:+ s' /\ caps' = caps
  | regexp.Class cls min _ =>
      caps' = caps /\
      exists t, s = t +:+ s' /\ allb cls t = true /\ (min <= String.length t)%nat
  | regexp.Cat r1 r2 =>
      exists s1 caps1, matchOf r1 whole s caps s1 caps1 /\
                       matchOf r2 whole s1 caps1 s' caps'
  | regexp.Alt r1 r2 =>
      matchOf r1 whole s caps s' caps' \/ matchOf r2 whole s caps s' caps'
  | regexp.Capture n r =>
      exists caps1,
        matchOf r whole s caps s' caps1 /\
        caps' = <[n := regexp.take (String.length s - String.length s') s]> caps1
  | regexp.BeginText => String.length s = whole /\ s' = s /\ caps' = caps
  | regexp.EndText => s = EmptyString /\ s' = s /\ caps' = caps
  end.

End cgspec.


(** * Properties of the load balancer *)

Module lb.
Import serverpool frontend lbspec.

Lemma collect_foldl d bs acc :
  foldl (collect d) acc bs
  = (acc.1 ++ filter (eligible d) bs,
     acc.2 ++ (RetentionPeriod <$> filter (eligible d) bs)).
Proof.
  revert acc. induction bs as [|b bs IH]; intros [tb rp]; simpl.
  - by rewrite !app_nil_r.
  - rewrite IH. unfold collect, eligible. rewrite filter_cons.
    destruct (IsAlive b); simpl; [|done].
    destruct (d <? RetentionPeriod b); simpl; [|done].
    by rewrite <- !app_assoc.
Qed.

Lemma zip_with_retention (E : list Server) :
  zip E (RetentionPeriod <$> E) = (fun b => (b, RetentionPeriod b)) <$> E.
Proof. induction E as [|b E IH]; simpl; [done|]. f_equal. exact IH. Qed.

Lemma foldl_min_le (l : list Z) (x : Z) :
  foldl Z.min x l <= x /\ forall y, y ∈ l -> foldl Z.min x l <= y.
Proof.
  revert x. induction l as [|a l IH]; intros x; simpl.
  - split; [lia|]. intros y Hy. by apply elem_of_nil in Hy.
  - destruct (IH (Z.min x a)) as [H1 H2]. split; [lia|].
    intros y Hy. apply elem_of_cons in Hy as [->|Hy]; [lia|auto].
Qed.

Lemma foldl_min_elem (l : list Z) (x : Z) :
  foldl Z.min x l = x \/ foldl Z.min x l ∈ l.
Proof.
  revert x. induction l as [|a l IH]; intros x; simpl; [by left|].
  destruct (IH (Z.min x a)) as [H|H].
  - rewrite H. destruct (Z.min_spec x a) as [[_ ->]|[_ ->]]; [by left|].
    right. apply elem_of_cons. by left.
  - right. apply elem_of_cons. by right.
Qed.

Lemma slices_Min_spec (l : list Z) :
  l <> [] -> slices_Min l ∈ l /\ forall y, y ∈ l -> slices_Min l <= y.
Proof.
  destruct l as [|x l]; [done|]. intros _. simpl. split.
  - destruct (foldl_min_elem l x) as [->|H]; apply elem_of_cons; auto.
  - intros y Hy. destruct (foldl_min_le l x) as [H1 H2].
    apply elem_of_cons in Hy as [->|Hy]; auto.
Qed.

(** The state of the second loop after scanning the eligible backends [E]:
    the first backend with the fewest connections among those that answer
    the second liveness test and have retention [minR], when one of them has
    fewer than [MaxInt32] connections. *)
Lemma pick_scan (minR : Z) (E : list Server) :
  let r := foldl (pick minR) (None, MaxInt32)
                 ((fun b => (b, RetentionPeriod b)) <$> E) in
  (r = (None, MaxInt32) /\
   forall b, b ∈ E -> IsAliveAgain b = true -> RetentionPeriod b = minR ->
             MaxInt32 <= ActiveConnections b)
  \/
  (exists l1 b l2,
      E = l1 ++ b :: l2 /\ r = (Some b, ActiveConnections b) /\
      IsAliveAgain b = true /\
      RetentionPeriod b = minR /\ ActiveConnections b < MaxInt32 /\
      (forall e, e ∈ l1 -> IsAliveAgain e = true -> RetentionPeriod e = minR ->
                 ActiveConnections b < ActiveConnections e) /\
      (forall e, e ∈ l2 -> IsAliveAgain e = true -> RetentionPeriod e = minR ->
                 ActiveConnections b <= ActiveConnections e)).
Proof.
  induction E as [|x E IH] using rev_ind; simpl.
  - left. split; [done|]. intros b Hb. by apply elem_of_nil in Hb.
  - rewrite fmap_app, foldl_app. simpl.
    destruct IH as [[Hr Hall]|(l1 & b & l2 & -> & Hr & Hb2 & Hb & Hlt & H1 & H2)].
    + rewrite Hr. unfold pick; simpl.
      destruct (IsAliveAgain x) eqn:Hx; simpl.
      * destruct (Z.eqb_spec (RetentionPeriod x) minR) as [Heq|Hne].
        -- destruct (Z.gtb_spec MaxInt32 (ActiveConnections x)) as [Hgt|Hle].
           ++ right. exists E, x, []. repeat split; auto.
              ** intros e He Hae Hre. specialize (Hall e He Hae Hre). lia.
              ** intros e He. by apply elem_of_nil in He.
           ++ left. split; [done|]. intros b Hb Hab Hrb.
              apply elem_of_app in Hb as [Hb|Hb]; [auto|].
              apply list_elem_of_singleton in Hb as ->. lia.
        -- left. split; [done|]. intros b Hb Hab Hrb.
           apply elem_of_app in Hb as [Hb|Hb]; [auto|].
           apply list_elem_of_singleton in Hb as ->. done.
      * left. split; [done|]. intros b Hb Hab Hrb.
        apply elem_of_app in Hb as [Hb|Hb]; [auto|].
        apply list_elem_of_singleton in Hb as ->. congruence.
    + rewrite Hr. unfold pick; simpl.
      destruct (IsAliveAgain x) eqn:Hx; simpl.
      * destruct (Z.eqb_spec (RetentionPeriod x) minR) as [Heq|Hne].
        -- destruct (Z.gtb_spec (ActiveConnections b) (ActiveConnections x)) as [Hgt|Hle].
           ++ right. exists (l1 ++ b :: l2), x, []. repeat split; auto; try lia.
              ** intros e He Hae Hre. apply elem_of_app in He as [He|He].
                 --- specialize (H1 e He Hae Hre). lia.
                 --- apply elem_of_cons in He as [->|He]; [lia|].
                     specialize (H2 e He Hae Hre). lia.
              ** intros e He. by apply elem_of_nil in He.
           ++ right. exists l1, b, (l2 ++ [x]). repeat split; auto.
              ** by rewrite <- app_assoc.
              ** intros e He Hae Hre. apply elem_of_app in He as [He|He]; [auto|].
                 apply list_elem_of_singleton in He as ->. lia.
        -- right. exists l1, b, (l2 ++ [x]). repeat split; auto.
           ++ by rewrite <- app_assoc.
           ++ intros e He Hae Hre. apply elem_of_app in He as [He|He]; [auto|].
              apply list_elem_of_singleton in He as ->. done.
      * right. exists l1, b, (l2 ++ [x]). repeat split; auto.
        ++ by rewrite <- app_assoc.
        ++ intros e He Hae Hre. apply elem_of_app in He as [He|He]; [auto|].
           apply list_elem_of_singleton in He as ->. congruence.
Qed.

Lemma filter_split (P : Server -> bool) (bs l1 l2 : list Server) (b : Server) :
  filter P bs = l1 ++ b :: l2 ->
  exists k1 k2, bs = k1 ++ b :: k2 /\ filter P k1 = l1 /\ filter P k2 = l2.
Proof.
  revert l1. induction bs as [|x bs IH]; intros l1 H.
  - destruct l1; discriminate.
  - rewrite filter_cons in H. destruct (decide (P x)) as [Hx|Hx].
    + destruct l1 as [|y l1]; simpl in H.
      * injection H as -> Hf. exists [], bs. by rewrite filter_nil.
      * injection H as -> Hf. destruct (IH _ Hf) as (k1 & k2 & -> & H1 & H2).
        exists (y :: k1), k2. rewrite filter_cons, decide_True by done.
        by rewrite H1.
    + destruct (IH _ H) as (k1 & k2 & -> & H1 & H2).
      exists (x :: k1), k2. rewrite filter_cons, decide_False by done. done.
Qed.

(** An alive backend is eligible when the window is below its retention. *)
Lemma eligible_spec (d : Z) (b : Server) :
  eligible d b <-> IsAlive b = true /\ d < RetentionPeriod b.
Proof.
  unfold eligible. rewrite andb_True, Is_true_true, Is_true_true.
  by rewrite Z.ltb_lt.
Qed.

Lemma Serve_window (lb : loadBalancer) (r : Request) :
  Serve lb r =
    match manager_Target (manager lb) (queryWindow r) with
    | Some target => Proxied target r
    | None => HttpError "Service not available" 503
    end.
Proof. reflexivity. Qed.

Lemma filter_ext_elem (P Q : Server -> bool) (l : list Server) :
  (forall x, x ∈ l -> P x = Q x) -> filter P l = filter Q l.
Proof.
  induction l as [|x l IH]; intros H; [done|].
  rewrite !filter_cons, IH.
  - rewrite (H x) by (apply elem_of_cons; by left). done.
  - intros y Hy. apply H, elem_of_cons. by right.
Qed.

(** ** [Target] *)

Section target_facts.
Context (s : resourceBased) (id : string) (d : Z).

Lemma Target_unfold (bs : list Server) :
  backends s !! id = Some bs ->
  Target s id d =
    match filter (eligible d) bs with
    | [] => None
    | [b] => Some b
    | E => (foldl (pick (slices_Min (RetentionPeriod <$> E))) (None, MaxInt32)
                  ((fun b => (b, RetentionPeriod b)) <$> E)).1
    end.
Proof.
  intros Hbs. unfold Target. rewrite Hbs, collect_foldl. simpl.
  destruct (filter (eligible d) bs) as [|b1 [|b2 E]] eqn:HE; try done.
  by rewrite zip_with_retention.
Qed.

(** The least retention over the eligible backends, as [slices.Min] gives
    it. *)
Lemma slices_Min_eligible (bs : list Server) (c : Server) :
  c ∈ filter (eligible d) bs ->
  (forall e, e ∈ filter (eligible d) bs -> RetentionPeriod c <= RetentionPeriod e) ->
  RetentionPeriod c = slices_Min (RetentionPeriod <$> filter (eligible d) bs).
Proof.
  intros Hc Hmin.
  destruct (slices_Min_spec (RetentionPeriod <$> filter (eligible d) bs)) as [Hin Hle].
  { intros HE. apply fmap_nil_inv in HE. rewrite HE in Hc. by apply elem_of_nil in Hc. }
  apply list_elem_of_fmap in Hin as (m & Hm & HmE).
  specialize (Hmin m HmE).
  specialize (Hle (RetentionPeriod c) (list_elem_of_fmap_2 _ _ _ Hc)). lia.
Qed.

(** The backend chosen among the eligible ones, whenever the second loop
    can choose: with several eligible backends, one of least retention has
    to answer the second liveness test with fewer than [MaxInt32]
    connections. *)
Lemma Target_choice (bs : list Server) :
  backends s !! id = Some bs ->
  (length (filter (eligible d) bs) = 1%nat \/
   exists c, c ∈ filter (eligible d) bs /\ IsAliveAgain c = true /\
             (forall e, e ∈ filter (eligible d) bs ->
                        RetentionPeriod c <= RetentionPeriod e) /\
             ActiveConnections c < MaxInt32) ->
  exists l1 b l2,
    bs = l1 ++ b :: l2 /\ Target s id d = Some b /\ eligible d b /\
    (length (filter (eligible d) bs) = 1%nat \/ IsAliveAgain b = true) /\
    (forall e, e ∈ bs -> eligible d e -> RetentionPeriod b <= RetentionPeriod e) /\
    (forall e, e ∈ l1 -> eligible d e -> IsAliveAgain e = true ->
               RetentionPeriod e = RetentionPeriod b ->
               ActiveConnections b < ActiveConnections e) /\
    (forall e, e ∈ l2 -> eligible d e -> IsAliveAgain e = true ->
               RetentionPeriod e = RetentionPeriod b ->
               ActiveConnections b <= ActiveConnections e).
Proof.
  intros Hbs Hsel. rewrite (Target_unfold _ Hbs).
  destruct (filter (eligible d) bs) as [|b1 [|b2 E]] eqn:HE.
  - destruct Hsel as [Hlen|(c & Hc & _)]; [done|]. by apply elem_of_nil in Hc.
  - destruct (filter_split (eligible d) bs [] [] b1 HE) as (k1 & k2 & -> & Hk1 & Hk2).
    assert (Hb1 : eligible d b1).
    { assert (H : b1 ∈ filter (eligible d) (k1 ++ b1 :: k2))
        by (rewrite HE; apply elem_of_cons; by left).
      by apply list_elem_of_filter in H as [H _]. }
    exists k1, b1, k2. repeat split; auto.
    + intros e He Hel.
      assert (H : e ∈ filter (eligible d) (k1 ++ b1 :: k2))
        by (by apply list_elem_of_filter).
      rewrite HE in H. apply list_elem_of_singleton in H as ->. lia.
    + intros e He Hel _ _.
      assert (H : e ∈ filter (eligible d) k1) by (by apply list_elem_of_filter).
      rewrite Hk1 in H. by apply elem_of_nil in H.
    + intros e He Hel _ _.
      assert (H : e ∈ filter (eligible d) k2) by (by apply list_elem_of_filter).
      rewrite Hk2 in H. by apply elem_of_nil in H.
  - destruct Hsel as [Hlen|(c & Hc & Hc2 & Hmin & Hconn)]; [done|].
    rewrite <- HE in Hc, Hmin.
    pose proof (slices_Min_eligible bs c Hc Hmin) as Hcmin.
    destruct (slices_Min_spec (RetentionPeriod <$> filter (eligible d) bs))
      as [_ Hle].
    { by rewrite HE. }
    rewrite HE in Hc, Hcmin, Hle.
    cbv beta iota zeta. set (E' := b1 :: b2 :: E) in *.
    set (minR := slices_Min (RetentionPeriod <$> E')) in *.
    destruct (pick_scan minR E')
      as [[_ Hsat]|(l1 & b & l2 & HEq & Hr & Hb2 & Hb & Hlt & H1 & H2)].
    { specialize (Hsat c Hc Hc2 Hcmin). lia. }
    rewrite Hr. simpl. rewrite HEq in HE.
    destruct (filter_split (eligible d) bs l1 l2 b HE) as (k1 & k2 & -> & Hk1 & Hk2).
    assert (Hbel : eligible d b).
    { assert (H : b ∈ filter (eligible d) (k1 ++ b :: k2))
        by (rewrite HE; apply elem_of_app; right; apply elem_of_cons; by left).
      by apply list_elem_of_filter in H as [H _]. }
    exists k1, b, k2. repeat split; auto.
    + intros e He Hel. rewrite Hb. apply Hle. apply list_elem_of_fmap_2.
      rewrite HEq, <- HE. by apply list_elem_of_filter.
    + intros e He Hel Hae Hre. apply H1; [|done|lia]. rewrite <- Hk1.
      by apply list_elem_of_filter.
    + intros e He Hel Hae Hre. apply H2; [|done|lia]. rewrite <- Hk2.
      by apply list_elem_of_filter.
Qed.

(** Whatever [Target] returns is a registered, eligible backend. *)
Lemma Target_sound (t : Server) :
  Target s id d = Some t ->
  exists bs, backends s !! id = Some bs /\ t ∈ bs /\ eligible d t.
Proof.
  intros Ht. destruct (backends s !! id) as [bs|] eqn:Hbs.
  2:{ unfold Target in Ht. by rewrite Hbs in Ht. }
  exists bs. split; [done|]. rewrite (Target_unfold _ Hbs) in Ht.
  apply and_comm, (list_elem_of_filter (eligible d)).
  destruct (filter (eligible d) bs) as [|b1 [|b2 E]] eqn:HE; [done| |].
  - injection Ht as ->. apply elem_of_cons. by left.
  - cbv beta iota zeta in Ht. set (E' := b1 :: b2 :: E) in *.
    destruct (pick_scan (slices_Min (RetentionPeriod <$> E')) E')
      as [[Hr _]|(l1 & b & l2 & HEq & Hr & _)]; rewrite Hr in Ht; [done|].
    injection Ht as ->. rewrite HEq. apply elem_of_app. right.
    apply elem_of_cons. by left.
Qed.

(** No eligible backend: [Target] returns nil. *)
Lemma Target_none :
  (backends s !! id = None \/
   exists bs, backends s !! id = Some bs /\
              forall b, b ∈ bs -> ~ (IsAlive b = true /\ d < RetentionPeriod b)) ->
  Target s id d = None.
Proof.
  intros [Hnone|(bs & Hbs & Hall)].
  - unfold Target. by rewrite Hnone.
  - rewrite (Target_unfold _ Hbs).
    assert (HE : filter (eligible d) bs = []).
    { apply elem_of_nil_inv. intros x Hx.
      apply list_elem_of_filter in Hx as [Hel Hx].
      apply (Hall x Hx). by apply eligible_spec. }
    by rewrite HE.
Qed.

(** Several eligible backends, none of those of least retention answering
    the second liveness test with fewer than [MaxInt32] connections: the
    second loop keeps no target and [Target] returns nil. *)
Lemma Target_no_candidate (bs : list Server) :
  backends s !! id = Some bs ->
  (2 <= length (filter (eligible d) bs))%nat ->
  (forall c, c ∈ bs -> eligible d c ->
             (forall e, e ∈ bs -> eligible d e ->
                        RetentionPeriod c <= RetentionPeriod e) ->
             IsAliveAgain c = false \/ MaxInt32 <= ActiveConnections c) ->
  Target s id d = None.
Proof.
  intros Hbs Hlen Hsat. rewrite (Target_unfold _ Hbs).
  destruct (filter (eligible d) bs) as [|b1 [|b2 E]] eqn:HE;
    [simpl in Hlen; lia|simpl in Hlen; lia|].
  cbv beta iota zeta. set (E' := b1 :: b2 :: E) in *.
  destruct (slices_Min_spec (RetentionPeriod <$> E')) as [_ Hle]; [done|].
  destruct (pick_scan (slices_Min (RetentionPeriod <$> E')) E')
    as [[-> _]|(l1 & b & l2 & HEq & _ & Hb2 & Hb & Hlt & _)]; [done|].
  assert (HbE : b ∈ filter (eligible d) bs).
  { rewrite HE, HEq. apply elem_of_app. right. apply elem_of_cons. by left. }
  apply list_elem_of_filter in HbE as [Hbel Hbin].
  destruct (Hsat b Hbin Hbel) as [Hdead|Hfull]; [|congruence|lia].
  intros e He Hel. rewrite Hb. apply Hle.
  apply list_elem_of_fmap_2. rewrite <- HE. by apply list_elem_of_filter.
Qed.


(** C3. If the cluster ID is absent from the pool, or no backend registered
    for it is both alive and of retention strictly greater than the window
    [d], then [Target] returns nil, and [Serve] answers every request of
    window [d] with HTTP 503 instead of forwarding it. *)
Theorem Target_none_serves_503 :
  (backends s !! id = None \/
   exists bs, backends s !! id = Some bs /\
              forall b, b ∈ bs -> ~ (IsAlive b = true /\ d < RetentionPeriod b)) ->
  Target s id d = None /\
  forall r, queryWindow r = d ->
            Serve (clusterBalancer s id) r = HttpError "Service not available" 503.
Proof.
  intros H. pose proof (Target_none H) as Hn. split; [done|].
  intros r Hr. rewrite Serve_window. simpl. by rewrite Hr, Hn.
Qed.

End target_facts.



Lemma Target_none_serves_503_witness :
  Target pool_none "prod" (12 * Hour) = None /\
  forall r, queryWindow r = 12 * Hour ->
            Serve (clusterBalancer pool_none "prod") r
            = HttpError "Service not available" 503.
Proof.
  apply (Target_none_serves_503 pool_none "prod" (12 * Hour)).
  right. exists [hot; cold_down]. split; [reflexivity|].
  intros b Hb [Hal Hd]. apply elem_of_cons in Hb as [->|Hb].
  - vm_compute in Hd. discriminate.
  - apply list_elem_of_singleton in Hb as ->. discriminate.
Defined.

(** C9 (amended). A request without query parameters in its context is
    served with window zero. With positive retention periods, the eligible
    backends of the cluster are then exactly the alive ones; and, active
    connections being fewer than [MaxInt32], provided that either exactly one
    backend is alive, or some alive backend of least retention is still alive
    when the second loop of [Target] tests it again, the request is handed to
    an alive backend of least retention. *)
Theorem Serve_without_query_params
    (s : resourceBased) (id : string) (r : Request) (bs : list Server) :
  contextQueryParams r = None ->
  backends s !! id = Some bs ->
  (forall b, b ∈ bs -> 0 < RetentionPeriod b) ->
  (forall b, b ∈ bs -> ActiveConnections b < MaxInt32) ->
  queryWindow r = 0 /\
  (forall b, b ∈ bs -> (eligible 0 b <-> IsAlive b = true)) /\
  ((length (filter IsAlive bs) = 1%nat \/
    exists c, c ∈ bs /\ IsAlive c = true /\ IsAliveAgain c = true /\
              (forall e, e ∈ bs -> IsAlive e = true ->
                         RetentionPeriod c <= RetentionPeriod e)) ->
   exists b, b ∈ bs /\ IsAlive b = true /\
             (forall e, e ∈ bs -> IsAlive e = true ->
                        RetentionPeriod b <= RetentionPeriod e) /\
             Serve (clusterBalancer s id) r = Proxied b r).
Proof.
  intros Hctx Hbs Hpos Hconn.
  assert (Hw : queryWindow r = 0) by (unfold queryWindow; by rewrite Hctx).
  assert (Hel : forall b, b ∈ bs -> (eligible 0 b <-> IsAlive b = true)).
  { intros b Hb. rewrite eligible_spec. specialize (Hpos b Hb). tauto. }
  split; [done|]. split; [done|]. intros Hsel.
  assert (Hf : filter (eligible 0) bs = filter IsAlive bs).
  { apply filter_ext_elem. intros x Hx. specialize (Hpos x Hx).
    unfold eligible. destruct (Z.ltb_spec 0 (RetentionPeriod x)); [|lia].
    apply andb_true_r. }
  destruct (Target_choice s id 0 bs Hbs) as (l1 & b & l2 & Hsplit & Ht & Hb & _ & Hmin & _).
  { rewrite Hf. destruct Hsel as [Hlen|(c & Hc & Hal & Hal2 & Hmin)]; [by left|right].
    exists c. split; [|split; [done|split; [|by apply Hconn]]].
    - apply list_elem_of_filter. split; [by apply Is_true_true|done].
    - intros e He. apply list_elem_of_filter in He as [Hae He].
      apply Hmin; [done|]. by apply Is_true_true. }
  assert (Hin : b ∈ bs).
  { rewrite Hsplit. apply elem_of_app. right. apply elem_of_cons. by left. }
  exists b. split; [done|]. split; [by apply Hel|]. split.
  - intros e He Hae. apply Hmin; [done|]. by apply Hel.
  - rewrite Serve_window. simpl. by rewrite Hw, Ht.
Qed.

Lemma Serve_without_query_params_witness :
  queryWindow requestNoParams = 0 /\
  (forall b, b ∈ [hot; cold] -> (eligible 0 b <-> IsAlive b = true)) /\
  exists b, b ∈ [hot; cold] /\ IsAlive b = true /\
            (forall e, e ∈ [hot; cold] -> IsAlive e = true ->
                       RetentionPeriod b <= RetentionPeriod e) /\
            Serve (clusterBalancer pool_tiers "prod") requestNoParams
            = Proxied b requestNoParams.
Proof.
  destruct (Serve_without_query_params pool_tiers "prod" requestNoParams
              [hot; cold]) as (Hw & Hel & Hsel).
  - reflexivity.
  - reflexivity.
  - intros b Hb. apply elem_of_cons in Hb as [->|Hb]; [by vm_compute|].
    apply list_elem_of_singleton in Hb as ->. by vm_compute.
  - intros b Hb. apply elem_of_cons in Hb as [->|Hb]; [by vm_compute|].
    apply list_elem_of_singleton in Hb as ->. by vm_compute.
  - split; [exact Hw|]. split; [exact Hel|]. apply Hsel.
    right. exists hot. split; [|split; [|split]].
    + apply elem_of_cons; by left.
    + reflexivity.
    + reflexivity.
    + intros e He _. apply elem_of_cons in He as [->|He]; [by vm_compute|].
      apply list_elem_of_singleton in He as ->. by vm_compute.
Defined.

Lemma Serve_without_query_params_counterexample :
  contextQueryParams requestNoParams = None /\
  backends pool_failing !! "prod" = Some [hot_failing; cold] /\
  IsAlive hot_failing = true /\
  IsAlive cold = true /\ IsAliveAgain cold = true /\
  0 < RetentionPeriod hot_failing /\
  RetentionPeriod hot_failing < RetentionPeriod cold /\
  ActiveConnections hot_failing = 0 /\ ActiveConnections cold = 0 /\
  Serve (clusterBalancer pool_failing "prod") requestNoParams
  = HttpError "Service not available" 503.
Proof. repeat split. Qed.

(** ** The router on the example pools *)

(** A hot and a cold tier, both alive: a window the hot tier covers goes to
    it, a longer one to the cold tier, and so does a window exactly equal to
    the hot tier's retention. *)
Example Target_shortest_sufficient_retention :
  Target pool_tiers "prod" Hour = Some hot /\
  Target pool_tiers "prod" (12 * Hour) = Some cold /\
  Target pool_tiers "prod" (6 * Hour) = Some cold.
Proof. repeat split. Qed.

Example Target_unknown_cluster : Target pool_tiers "test" Hour = None.
Proof. reflexivity. Qed.

Example Add_registers_last :
  backends (Add pool_tiers "prod" tier_a) !! "prod" = Some [hot; cold; tier_a] /\
  Size (Add pool_tiers "prod" tier_a) "prod" = 3%nat.
Proof. split; reflexivity. Qed.


(** ** What [Target] returns, and when it returns nothing *)

(** The eligible backends when [Target] returns one: a single one, or
    several with one of least retention that answers the second liveness
    test under the starting bound. *)
Lemma Target_Some_choice (s : resourceBased) (id : string) (d : Z)
    (bs : list Server) (t : Server) :
  backends s !! id = Some bs ->
  Target s id d = Some t ->
  length (filter (eligible d) bs) = 1%nat \/
  exists c, c ∈ filter (eligible d) bs /\ IsAliveAgain c = true /\
            (forall e, e ∈ filter (eligible d) bs ->
                       RetentionPeriod c <= RetentionPeriod e) /\
            ActiveConnections c < MaxInt32.
Proof.
  intros Hbs Ht. rewrite (Target_unfold s id d _ Hbs) in Ht.
  destruct (filter (eligible d) bs) as [|b1 [|b2 E]] eqn:HE; [done|by left|right].
  cbv beta iota zeta in Ht. set (E' := b1 :: b2 :: E) in *.
  destruct (slices_Min_spec (RetentionPeriod <$> E')) as [_ Hle]; [done|].
  destruct (pick_scan (slices_Min (RetentionPeriod <$> E')) E')
    as [[Hr _]|(l1 & b & l2 & HEq & _ & Hb2 & Hb & Hlt & _)]; [by rewrite Hr in Ht|].
  exists b. split; [|split; [done|split; [|done]]].
  - rewrite HEq. apply elem_of_app. right. apply elem_of_cons. by left.
  - intros e He. rewrite Hb. apply Hle. by apply list_elem_of_fmap_2.
Qed.

(** Whatever [Target] returns is the right choice. *)
Lemma Target_Some_inv (s : resourceBased) (id : string) (d : Z) (t : Server) :
  Target s id d = Some t ->
  exists bs l1 l2,
    backends s !! id = Some bs /\ bs = l1 ++ t :: l2 /\ eligible d t /\
    (length (filter (eligible d) bs) = 1%nat \/ IsAliveAgain t = true) /\
    (forall e, e ∈ bs -> eligible d e -> RetentionPeriod t <= RetentionPeriod e) /\
    (forall e, e ∈ l1 -> eligible d e -> IsAliveAgain e = true ->
               RetentionPeriod e = RetentionPeriod t ->
               ActiveConnections t < ActiveConnections e) /\
    (forall e, e ∈ l2 -> eligible d e -> IsAliveAgain e = true ->
               RetentionPeriod e = RetentionPeriod t ->
               ActiveConnections t <= ActiveConnections e).
Proof.
  intros Ht. destruct (backends s !! id) as [bs|] eqn:Hbs.
  2:{ unfold Target in Ht. by rewrite Hbs in Ht. }
  destruct (Target_choice s id d bs Hbs (Target_Some_choice s id d bs t Hbs Ht))
    as (l1 & b & l2 & Hsplit & Hb & Hrest).
  rewrite Ht in Hb. injection Hb as <-. exists bs, l1, l2. done.
Qed.

(** X1. Whenever [Target] returns a backend, it is registered for the
    cluster, alive at the first test, of retention strictly above the window
    and of the least retention among the cluster's eligible backends; unless
    it is the only eligible backend it is also alive at the second test, and
    it has the fewest active connections among the eligible backends of its
    retention that are alive at the second test (strictly fewer than those
    registered before it): the router never picks a longer-retention backend
    than needed, nor a busier one of the same retention when a less busy one
    is still alive. *)
Theorem Target_returns_best_eligible
    (s : resourceBased) (id : string) (d : Z) (t : Server) :
  Target s id d = Some t ->
  exists bs l1 l2,
    backends s !! id = Some bs /\ bs = l1 ++ t :: l2 /\
    IsAlive t = true /\ d < RetentionPeriod t /\
    (length (filter (eligible d) bs) = 1%nat \/ IsAliveAgain t = true) /\
    (forall e, e ∈ bs -> IsAlive e = true -> d < RetentionPeriod e ->
               RetentionPeriod t <= RetentionPeriod e) /\
    (forall e, e ∈ l1 -> IsAlive e = true -> IsAliveAgain e = true ->
               RetentionPeriod e = RetentionPeriod t ->
               ActiveConnections t < ActiveConnections e) /\
    (forall e, e ∈ l2 -> IsAlive e = true -> IsAliveAgain e = true ->
               RetentionPeriod e = RetentionPeriod t ->
               ActiveConnections t <= ActiveConnections e).
Proof.
  intros Ht.
  destruct (Target_Some_inv s id d t Ht)
    as (bs & l1 & l2 & Hbs & Hsplit & Hel & Hagain & Hmin & H1 & H2).
  apply eligible_spec in Hel as [Hal Hd].
  exists bs, l1, l2. repeat split; try done.
  - intros e He Hae Hde. apply Hmin; [done|]. by apply eligible_spec.
  - intros e He Hae Hae2 Hre. apply H1; [done| |done|done].
    apply eligible_spec. split; [done|lia].
  - intros e He Hae Hae2 Hre. apply H2; [done| |done|done].
    apply eligible_spec. split; [done|lia].
Qed.

Lemma Target_returns_best_eligible_witness :
  exists bs l1 l2,
    backends pool_three !! "prod" = Some bs /\ bs = l1 ++ tier_b :: l2 /\
    IsAlive tier_b = true /\ Day < RetentionPeriod tier_b /\
    (length (filter (eligible Day) bs) = 1%nat \/ IsAliveAgain tier_b = true) /\
    (forall e, e ∈ bs -> IsAlive e = true -> Day < RetentionPeriod e ->
               RetentionPeriod tier_b <= RetentionPeriod e) /\
    (forall e, e ∈ l1 -> IsAlive e = true -> IsAliveAgain e = true ->
               RetentionPeriod e = RetentionPeriod tier_b ->
               ActiveConnections tier_b < ActiveConnections e) /\
    (forall e, e ∈ l2 -> IsAlive e = true -> IsAliveAgain e = true ->
               RetentionPeriod e = RetentionPeriod tier_b ->
               ActiveConnections tier_b <= ActiveConnections e).
Proof. apply (Target_returns_best_eligible pool_three "prod" Day tier_b). reflexivity. Defined.

(** X2. [Target] returns nil in exactly these cases: the cluster ID is
    unknown; no backend of the cluster is eligible (alive at the first test,
    with retention above the window); or at least two are eligible and every
    eligible backend of least retention fails the second liveness test or
    has [MaxInt32] active connections or more. In the last case it returns
    nil whether or not an eligible backend of longer retention is still
    alive. *)
Theorem Target_nil_iff (s : resourceBased) (id : string) (d : Z) :
  Target s id d = None <->
  backends s !! id = None \/
  exists bs, backends s !! id = Some bs /\
    ((forall b, b ∈ bs -> ~ (IsAlive b = true /\ d < RetentionPeriod b)) \/
     ((2 <= length (filter (eligible d) bs))%nat /\
      forall c, c ∈ bs -> eligible d c ->
                (forall e, e ∈ bs -> eligible d e ->
                           RetentionPeriod c <= RetentionPeriod e) ->
                IsAliveAgain c = false \/ MaxInt32 <= ActiveConnections c)).
Proof.
  split.
  - intros Hn. destruct (backends s !! id) as [bs|] eqn:Hbs; [right|by left].
    exists bs. split; [done|].
    pose proof Hn as Hn'. rewrite (Target_unfold s id d _ Hbs) in Hn'.
    destruct (filter (eligible d) bs) as [|b1 [|b2 E]] eqn:HE; [left|done|right].
    + intros b Hb Hel%eligible_spec.
      assert (H : b ∈ filter (eligible d) bs) by (by apply list_elem_of_filter).
      rewrite HE in H. by apply elem_of_nil in H.
    + split; [simpl; lia|]. intros c Hc Hel Hmin.
      destruct (IsAliveAgain c) eqn:Hc2; [right|by left].
      destruct (Z.le_gt_cases MaxInt32 (ActiveConnections c)) as [|Hlt]; [done|].
      destruct (Target_choice s id d bs Hbs) as (_ & b & _ & _ & Hb & _).
      { right. exists c. rewrite HE. rewrite <- HE. split; [by apply list_elem_of_filter|].
        split; [done|]. split; [|lia]. intros e [? ?]%list_elem_of_filter. auto. }
      congruence.
  - intros [Hnone|(bs & Hbs & [Hall|[Hlen Hsat]])].
    + apply Target_none. by left.
    + apply Target_none. right. eauto.
    + by apply (Target_no_candidate s id d bs).
Qed.

(** X3. A longer window never routes to a backend of shorter retention: if
    [Target] returns [b] for window [d] and [b'] for a window [d' >= d] of the
    same cluster, then [b'] retains at least as long as [b]. *)
Theorem Target_window_monotone
    (s : resourceBased) (id : string) (d d' : Z) (b b' : Server) :
  d <= d' ->
  Target s id d = Some b ->
  Target s id d' = Some b' ->
  RetentionPeriod b <= RetentionPeriod b'.
Proof.
  intros Hd Hb Hb'.
  destruct (Target_Some_inv s id d b Hb) as (bs & _ & _ & Hbs & _ & _ & _ & Hmin & _).
  destruct (Target_Some_inv s id d' b' Hb')
    as (bs' & l1 & l2 & Hbs' & Hsplit & Hel & _).
  rewrite Hbs in Hbs'. injection Hbs' as <-.
  apply eligible_spec in Hel as [Hal Hlt]. apply Hmin.
  - rewrite Hsplit. apply elem_of_app. right. apply elem_of_cons. by left.
  - apply eligible_spec. split; [done|lia].
Qed.

Lemma Target_window_monotone_witness :
  RetentionPeriod hot <= RetentionPeriod cold.
Proof.
  apply (Target_window_monotone pool_tiers "prod" Hour (12 * Hour) hot cold).
  - by vm_compute.
  - reflexivity.
  - reflexivity.
Defined.

(** ** [Add], [Size] and [Backends] *)

Lemma Add_lookup (s : resourceBased) (id : string) (b : Server) :
  backends (Add s id b) !! id = Some (default [] (backends s !! id) ++ [b]).
Proof. unfold Add. simpl. by rewrite lookup_insert_eq. Qed.

Lemma Add_lookup_ne (s : resourceBased) (id id' : string) (b : Server) :
  id <> id' -> backends (Add s id b) !! id' = backends s !! id'.
Proof. intros Hne. unfold Add. simpl. by rewrite lookup_insert_ne. Qed.

(** X4. Registering the backends [bs] one after the other with [Add] under
    one cluster ID appends them, in that order, after the backends the
    cluster already had; [Size] grows by their number, every backend
    registered earlier keeps its index, and no other cluster changes. *)
Theorem Add_appends_in_order
    (s : resourceBased) (id : string) (bs : list Server) :
  let s' := foldl (fun s b => Add s id b) s bs in
  default [] (backends s' !! id) = default [] (backends s !! id) ++ bs /\
  Size s' id = (Size s id + length bs)%nat /\
  (forall i b, default [] (backends s !! id) !! i = Some b ->
               default [] (backends s' !! id) !! i = Some b) /\
  (forall id', id <> id' -> backends s' !! id' = backends s !! id').
Proof.
  simpl.
  assert (H : default [] (backends (foldl (fun s b => Add s id b) s bs) !! id)
              = default [] (backends s !! id) ++ bs /\
              forall id', id <> id' ->
                backends (foldl (fun s b => Add s id b) s bs) !! id'
                = backends s !! id').
  { revert s. induction bs as [|b bs IH]; intros s; simpl.
    - by rewrite app_nil_r.
    - destruct (IH (Add s id b)) as [-> Hother]. split.
      + rewrite Add_lookup. simpl. by rewrite <- app_assoc.
      + intros id' Hne. rewrite (Hother id' Hne). by apply Add_lookup_ne. }
  destruct H as [Heq Hother]. split; [done|]. split; [|split; [|done]].
  - unfold Size. by rewrite Heq, length_app.
  - intros i b Hi. rewrite Heq. by apply lookup_app_l_Some.
Qed.

(** X5. [Add] and [Target]: registering a backend leaves the routing of
    every other cluster as it was; registering one that is not eligible for
    a window (dead, or of retention at most the window) leaves the routing of
    its own cluster for that window as it was; and registering an eligible one
    in a cluster that had none makes it the target. *)
Theorem Add_then_Target
    (s : resourceBased) (id : string) (b : Server) (d : Z) :
  (forall id', id <> id' -> Target (Add s id b) id' d = Target s id' d) /\
  (eligible d b = false -> Target (Add s id b) id d = Target s id d) /\
  (eligible d b = true ->
   (forall e, e ∈ default [] (backends s !! id) -> eligible d e = false) ->
   Target (Add s id b) id d = Some b).
Proof.
  split; [|split].
  - intros id' Hne. unfold Target. by rewrite (Add_lookup_ne s id id' b Hne).
  - intros Hel. rewrite (Target_unfold (Add s id b) id d _ (Add_lookup s id b)).
    rewrite filter_app, filter_cons, decide_False, filter_nil, app_nil_r;
      [|rewrite Hel; by intros []].
    destruct (backends s !! id) as [bs|] eqn:Hbs.
    + by rewrite (Target_unfold s id d _ Hbs).
    + simpl. unfold Target. by rewrite Hbs.
  - intros Hel Hnone.
    rewrite (Target_unfold (Add s id b) id d _ (Add_lookup s id b)).
    rewrite filter_app, filter_cons, decide_True, filter_nil;
      [|by rewrite Hel].
    assert (HE : filter (eligible d) (default [] (backends s !! id)) = []).
    { apply elem_of_nil_inv. intros x [Hx Hin]%list_elem_of_filter.
      rewrite (Hnone x Hin) in Hx. done. }
    by rewrite HE.
Qed.

(** X6. [Serve] over the resource-based strategy forwards a request only to
    a backend registered for the cluster that is alive and whose retention is
    strictly above the request's window, and forwards the request unchanged;
    every request it does not forward is answered with status 503 and the
    text [Service not available]. *)
Theorem Serve_forwards_to_eligible_or_503
    (s : resourceBased) (id : string) (r : Request) :
  (forall t r', Serve (clusterBalancer s id) r = Proxied t r' ->
     r' = r /\ Target s id (queryWindow r) = Some t /\
     exists bs, backends s !! id = Some bs /\ t ∈ bs /\
                IsAlive t = true /\ queryWindow r < RetentionPeriod t) /\
  (forall msg code, Serve (clusterBalancer s id) r = HttpError msg code ->
     msg = "Service not available" /\ code = 503 /\
     Target s id (queryWindow r) = None).
Proof.
  rewrite Serve_window. simpl.
  destruct (Target s id (queryWindow r)) as [t0|] eqn:Ht; split; try done.
  - intros t r' [= <- <-]. split; [done|]. split; [done|].
    destruct (Target_sound s id _ t0 Ht) as (bs & Hbs & Hin & Hel).
    apply eligible_spec in Hel as [? ?]. eauto.
  - by intros msg code [= <- <-].
Qed.

End lb.


(** * Properties of the collector *)

Module cg.
Import golib collector cgspec.

Lemma boundaries_cpuRange (r : string) (lo hi start end_ : Z) :
  cpuRange r = Some (lo, hi) -> boundaries r start end_ = Ok (lo, hi).
Proof.
  unfold cpuRange, boundaries.
  destruct (strings_Split r "-") as [|b0 [|b1 [|b2 bs]]]; try done.
  - destruct (strconv_Atoi b0); try done. by intros [= <- <-].
  - destruct (strconv_Atoi b0); try done.
    destruct (strconv_Atoi b1); try done. by intros [= <- <-].
Qed.

Lemma parseRanges_expansion (rs : list string) (ranges : list (Z * Z))
    (start end_ : Z) (cpus : list string) :
  mapM cpuRange rs = Some ranges ->
  Forall (fun r => r.2 < MaxInt64) ranges ->
  parseRanges rs start end_ cpus = Ok (cpus ++ (strconv_Itoa <$> expansion ranges)).
Proof.
  revert ranges start end_ cpus.
  induction rs as [|r rs IH]; intros ranges start end_ cpus Hm Hb.
  - injection Hm as <-. simpl. by rewrite app_nil_r.
  - simpl in Hm. destruct (cpuRange r) as [[lo hi]|] eqn:Hr; [|done].
    simpl in Hm. destruct (mapM cpuRange rs) as [ranges'|] eqn:Hrs; [|done].
    injection Hm as <-. apply Forall_cons in Hb as [Hhi Hb]. simpl in Hhi.
    cbn [parseRanges]. rewrite (boundaries_cpuRange _ _ _ _ _ Hr). simpl.
    unfold expand. replace (hi =? MaxInt64) with false by (symmetry; apply Z.eqb_neq; lia).
    rewrite andb_false_r. simpl. rewrite (IH ranges') by done.
    unfold expansion. simpl. by rewrite fmap_app, app_assoc.
Qed.

Lemma getCPUs_expansion (c : cgroupCollector) (h : host) (p data : string)
    (ranges : list (Z * Z)) :
  files h !! cpusPath c h p = Some (Content data) ->
  trimSuffixLF data <> "" ->
  cpusetRanges (trimSuffixLF data) = Some ranges ->
  Forall (fun r => r.2 < MaxInt64) ranges ->
  getCPUs c h p = Ok (strconv_Itoa <$> expansion ranges).
Proof.
  intros Hf Hne Hr Hb. unfold getCPUs, fileExists, os_ReadFile. rewrite Hf.
  rewrite bool_decide_true by eauto. simpl. unfold parseCPUSet.
  destruct (String.eqb_spec (trimSuffixLF data) "") as [?|_]; [done|].
  by rewrite (parseRanges_expansion _ ranges).
Qed.





Lemma unitSamples_sent (c : cgroupCollector) (m : cgMetric) (s : Metric) :
  s ∈ unitSamples c m -> s ∈ sendMetrics c m.
Proof.
  intros Hs. unfold sendMetrics. apply elem_of_app. right.
  apply elem_of_app. by left.
Qed.

Lemma collectError_sent (c : cgroupCollector) (m : cgMetric) :
  err m = true ->
  MustNewConstMetric collectError GaugeValue 1%float
    [manager (cgManager c); hostname c; uuid m] ∈ sendMetrics c m.
Proof.
  intros He. unfold sendMetrics. rewrite He. apply elem_of_app. left.
  by apply list_elem_of_singleton.
Qed.

Lemma sendDevice_elem (c : cgroupCollector) (m : cgMetric) (d : Desc)
    (values : gmap string float64) (device : string) (s : Metric) :
  s ∈ sendDevice c m d values device ->
  s = MustNewConstMetric d GaugeValue (value s)
        [manager (cgManager c); hostname c; uuid m; device] /\
  values !! device = Some (value s) /\ positive (value s) = true.
Proof.
  unfold sendDevice. destruct (values !! device) as [v|]; [|by intros ?%elem_of_nil].
  destruct (positive v) eqn:Hp; [|by intros ?%elem_of_nil].
  intros ->%list_elem_of_singleton. done.
Qed.

Ltac fixed_samples H :=
  repeat (apply elem_of_cons in H as [->|H]; [discriminate|]);
  by apply elem_of_nil in H.

Lemma sendMetrics_device_sample (c : cgroupCollector) (m : cgMetric) (s : Metric) :
  s ∈ sendMetrics c m -> perDevice (desc s) = true ->
  positive (value s) = true /\
  exists device,
    deviceValues m (desc s) !! device = Some (value s) /\
    labelValues s = [manager (cgManager c); hostname c; uuid m; device].
Proof.
  unfold sendMetrics. intros Hs Hd.
  repeat (apply elem_of_app in Hs as [Hs|Hs]).
  - destruct (err m); fixed_samples Hs.
  - fixed_samples Hs.
  - destruct (collectSwapMemStats (opts c)); fixed_samples Hs.
  - destruct (collectBlockIOStats (opts c)); [|by apply elem_of_nil in Hs].
    apply list_elem_of_In, in_flat_map in Hs as (device & _ & Hs).
    apply list_elem_of_In in Hs.
    repeat (apply elem_of_app in Hs as [Hs|Hs]);
      apply sendDevice_elem in Hs as (Heq & Hv & Hp);
      (split; [done|]); exists device; rewrite Heq; simpl; by rewrite Heq in Hv.
  - destruct (collectPSIStats (opts c)); fixed_samples Hs.
  - apply list_elem_of_In, in_flat_map in Hs as ([device handles] & Hin & Hs).
    apply list_elem_of_In in Hs, Hin. apply elem_of_map_to_list in Hin.
    destruct (positive handles) eqn:Hp; [|by apply elem_of_nil in Hs].
    apply list_elem_of_singleton in Hs as ->. simpl. eauto.
  - apply list_elem_of_In, in_flat_map in Hs as ([device objects] & Hin & Hs).
    apply list_elem_of_In in Hs, Hin. apply elem_of_map_to_list in Hin.
    destruct (positive objects) eqn:Hp; [|by apply elem_of_nil in Hs].
    apply list_elem_of_singleton in Hs as ->. simpl. eauto.
Qed.

Lemma Update_Ok (c : cgroupCollector) (h : host) (ms : list cgMetric)
    (sent : list Metric) :
  Update c h ms = Ok sent <->
  exists ms', doUpdate c h ms = Ok ms' /\
    sent = MustNewConstMetric numCgs GaugeValue
             (float64_of_int (Z.of_nat (length ms')))
             [manager (cgManager c); hostname c]
           :: flat_map (sendMetrics c) ms'.
Proof.
  unfold Update. destruct (doUpdate c h ms) as [ms'|e|]; simpl.
  - split; [intros [= <-]; eauto|]. by intros (? & [= <-] & ->).
  - split; [done|]. by intros (? & ? & _).
  - split; [done|]. by intros (? & ? & _).
Qed.

(** C10. Every per-device sample that [Update] sends (block-IO bytes and
    requests, RDMA handles and objects) has a strictly positive value, which
    is an entry of the map the descriptor is read from, so a device whose
    entry is zero gets no sample; the CPU and memory samples of a unit are
    sent whatever their values. *)
Theorem per_device_samples_positive_unit_samples_always
    (c : cgroupCollector) (h : host) (ms : list cgMetric) :
  (forall m s, s ∈ sendMetrics c m -> perDevice (desc s) = true ->
     positive (value s) = true /\
     exists device,
       deviceValues m (desc s) !! device = Some (value s) /\
       labelValues s = [manager (cgManager c); hostname c; uuid m; device]) /\
  (forall sent, Update c h ms = Ok sent ->
     forall s, s ∈ sent -> perDevice (desc s) = true -> positive (value s) = true) /\
  (forall ms', doUpdate c h ms = Ok ms' ->
     exists sent, Update c h ms = Ok sent /\
       forall m s, m ∈ ms' -> s ∈ unitSamples c m -> s ∈ sent).
Proof.
  split; [apply sendMetrics_device_sample|]. split.
  - intros sent (ms' & _ & ->)%Update_Ok s Hs Hd.
    apply elem_of_cons in Hs as [->|Hs]; [discriminate|].
    apply list_elem_of_In, in_flat_map in Hs as (m & _ & Hs).
    apply list_elem_of_In in Hs. by apply (sendMetrics_device_sample c m).
  - intros ms' Hdo. eexists. split; [apply Update_Ok; eauto|].
    intros m s Hm Hs. apply elem_of_cons. right.
    apply list_elem_of_In, in_flat_map. exists m.
    split; apply list_elem_of_In; [done|]. by apply unitSamples_sent.
Qed.

Lemma countCPUs_returns (c : cgroupCollector) (h : host) (m : cgMetric) :
  getCPUs c h (path m) <> Hang -> exists n, countCPUs c h m = Ok n.
Proof.
  unfold countCPUs. destruct (getCPUs c h (path m)); [eauto|eauto|done].
Qed.

(** C4 (amended). In both cgroup modes, a memory limit equal to
    [MaxUint64] yields [memoryTotal = MemTotal] of the host when that is
    positive, and the limit itself otherwise; a swap limit equal to
    [MaxUint64] yields [memswTotal = SwapTotal] if positive, else [MemTotal]
    if positive, else the limit itself; any other limit is converted as it
    is. *)
Theorem limit_sentinel_substitution (c : cgroupCollector) (h : host) (m : cgMetric) :
  getCPUs c h (path m) <> Hang ->
  (forall ctrl stats mem,
     cgroup2_Load h (path m) = Ok ctrl ->
     cgroup2.Stat ctrl = Ok (Some stats) ->
     cgroup2.Memory stats = Some mem ->
     exists m', statsV2 c h m = Ok m' /\
       memoryTotal m' = expectedMemoryTotal c (cgroup2.UsageLimit mem) /\
       memswTotal m' = expectedMemswTotal c (cgroup2.SwapLimit mem)) /\
  (forall ctrl stats mem,
     cgroup1_Load h (path m) = Ok ctrl ->
     cgroup1.Stat ctrl = Ok (Some stats) ->
     cgroup1.Memory stats = Some mem ->
     exists m', statsV1 c h m = Ok m' /\
       (forall u, cgroup1.mem_Usage mem = Some u ->
                  memoryTotal m' = expectedMemoryTotal c (cgroup1.Limit u)) /\
       (forall sw, cgroup1.mem_Swap mem = Some sw ->
                   memswTotal m' = expectedMemswTotal c (cgroup1.Limit sw))).
Proof.
  intros Hh. destruct (countCPUs_returns c h m Hh) as [n Hn]. split.
  - intros ctrl stats mem Hl Hs Hm. unfold statsV2. rewrite Hl, Hs, Hn. simpl.
    eexists. split; [reflexivity|]. simpl. rewrite Hm.
    unfold expectedMemoryTotal, expectedMemswTotal. split.
    + destruct (Z.eqb_spec (cgroup2.UsageLimit mem) MaxUint64) as [->|?];
        [rewrite decide_True by done|rewrite decide_False by done]; simpl; [|done].
      by destruct (positive _).
    + destruct (Z.eqb_spec (cgroup2.SwapLimit mem) MaxUint64) as [->|?];
        [rewrite decide_True by done|rewrite decide_False by done]; done.
  - intros ctrl stats mem Hl Hs Hm. unfold statsV1. rewrite Hl, Hs, Hn. simpl.
    eexists. split; [reflexivity|]. simpl. rewrite Hm. simpl.
    unfold expectedMemoryTotal, expectedMemswTotal. split.
    + intros u ->.
      destruct (Z.eqb_spec (cgroup1.Limit u) MaxUint64) as [->|?];
        [rewrite decide_True by done|rewrite decide_False by done]; simpl; [|done].
      by destruct (positive _).
    + intros sw ->.
      destruct (Z.eqb_spec (cgroup1.Limit sw) MaxUint64) as [->|?];
        [rewrite decide_True by done|rewrite decide_False by done]; done.
Qed.

Lemma update_no_error (c : cgroupCollector) (h : host) (m : cgMetric) (e : string) :
  update c h m <> Err e.
Proof.
  unfold update, statsV1, statsV2, countCPUs.
  destruct (decide _) as [_|_].
  - destruct (cgroup2_Load h (path m)) as [ctrl|?|]; [|done|done].
    destruct (cgroup2.Stat ctrl) as [[stats|]|?|]; try done.
    by destruct (getCPUs c h (path m)).
  - destruct (cgroup1_Load h (path m)) as [ctrl|?|]; [|done|done].
    destruct (cgroup1.Stat ctrl) as [[stats|]|?|]; try done.
    by destruct (getCPUs c h (path m)).
Qed.

Lemma doUpdate_returns (c : cgroupCollector) (h : host) (ms : list cgMetric) :
  Forall (fun m => update c h m <> Hang) ms ->
  exists ms', doUpdate c h ms = Ok ms' /\
              Forall2 (fun m m' => update c h m = Ok m') ms ms'.
Proof.
  induction ms as [|m ms IH]; intros Hall.
  - exists []. by split.
  - apply Forall_cons in Hall as [Hm Hall].
    destruct (IH Hall) as (ms' & Hdo & Hf2).
    destruct (update c h m) as [m'|e|] eqn:Hu; [|by destruct (update_no_error c h m e)|done].
    exists (m' :: ms'). simpl. rewrite Hu, Hdo. split; [done|]. by constructor.
Qed.

Lemma doUpdate_no_error (c : cgroupCollector) (h : host) (ms : list cgMetric)
    (e : string) :
  doUpdate c h ms <> Err e.
Proof.
  induction ms as [|m ms IH]; [done|]. simpl.
  destruct (update c h m) as [m'|e'|] eqn:Hu; simpl;
    [|by destruct (update_no_error c h m e')|done].
  by destruct (doUpdate c h ms).
Qed.

(** Splits a conjunction of frame conditions and closes each one with the
    absent section it assumes. *)
Ltac frame_solve :=
  repeat match goal with
         | |- _ /\ _ => split
         | |- _ -> _ => intro
         | |- forall _, _ => intro
         end;
  simpl in *;
  repeat match goal with
         | H : _ = None |- _ => rewrite H
         end;
  try done.

(** C2 (amended). Neither [update] nor [Update] returns an error. When the
    cgroup cannot be loaded, or its stats cannot be read or are nil, [update]
    sets [err] and changes no other field, so that a fresh metric keeps every
    other field at zero. Once the stats are read, [err] stays as it was: a
    failing cpuset read leaves [cpus] untouched, and every section absent from
    the stats (CPU, memory, memory events, block IO, RDMA, and within them
    the usage, swap and pressure parts) leaves the fields it would fill
    untouched; the cpuset read fails when the file is missing, unreadable or
    malformed. Whenever the reads return, [Update] sends the CPU and memory
    samples of every unit, and the [collectError] sample with value 1 for
    every unit whose [err] is set. *)
Theorem stats_read_flags_load_failures (c : cgroupCollector) (h : host) :
  (forall m e, update c h m <> Err e) /\
  (forall ms e, Update c h ms <> Err e) /\
  (forall m, mode (cgManager c) = Unified ->
     (forall e, cgroup2_Load h (path m) = Err e -> update c h m = Ok (setErr m)) /\
     (forall ctrl, cgroup2_Load h (path m) = Ok ctrl ->
        (forall e, cgroup2.Stat ctrl = Err e -> update c h m = Ok (setErr m)) /\
        (cgroup2.Stat ctrl = Ok None -> update c h m = Ok (setErr m)) /\
        (forall stats m', cgroup2.Stat ctrl = Ok (Some stats) ->
           update c h m = Ok m' ->
           err m' = err m /\
           (forall e, getCPUs c h (path m) = Err e -> cpus m' = cpus m) /\
           (cgroup2.CPU stats = None ->
            cpuUser m' = cpuUser m /\ cpuSystem m' = cpuSystem m /\
            cpuTotal m' = cpuTotal m) /\
           (cgroup2.CPU stats ≫= cgroup2.cpu_PSI = None ->
            cpuPressure m' = cpuPressure m) /\
           (cgroup2.Memory stats = None ->
            memoryUsed m' = memoryUsed m /\ memoryTotal m' = memoryTotal m /\
            memoryRSS m' = memoryRSS m /\ memoryCache m' = memoryCache m /\
            memswUsed m' = memswUsed m /\ memswTotal m' = memswTotal m) /\
           (cgroup2.Memory stats ≫= cgroup2.mem_PSI = None ->
            memoryPressure m' = memoryPressure m) /\
           (cgroup2.MemoryEvents_ stats = None ->
            memoryFailCount m' = memoryFailCount m) /\
           memswFailCount m' = memswFailCount m /\
           (cgroup2.Io stats = None ->
            blkioReadBytes m' = blkioReadBytes m /\
            blkioWriteBytes m' = blkioWriteBytes m /\
            blkioReadReqs m' = blkioReadReqs m /\
            blkioWriteReqs m' = blkioWriteReqs m) /\
           (cgroup2.Io stats ≫= cgroup2.io_PSI = None ->
            blkioPressure m' = blkioPressure m) /\
           (cgroup2.Rdma stats = None ->
            rdmaHCAHandles m' = rdmaHCAHandles m /\
            rdmaHCAObjects m' = rdmaHCAObjects m)))) /\
  (forall m, mode (cgManager c) <> Unified ->
     (forall e, cgroup1_Load h (path m) = Err e -> update c h m = Ok (setErr m)) /\
     (forall ctrl, cgroup1_Load h (path m) = Ok ctrl ->
        (forall e, cgroup1.Stat ctrl = Err e -> update c h m = Ok (setErr m)) /\
        (cgroup1.Stat ctrl = Ok None -> update c h m = Ok (setErr m)) /\
        (forall stats m', cgroup1.Stat ctrl = Ok (Some stats) ->
           update c h m = Ok m' ->
           err m' = err m /\
           (forall e, getCPUs c h (path m) = Err e -> cpus m' = cpus m) /\
           (cgroup1.CPU stats ≫= cgroup1.cpu_Usage = None ->
            cpuUser m' = cpuUser m /\ cpuSystem m' = cpuSystem m /\
            cpuTotal m' = cpuTotal m) /\
           (cgroup1.Memory stats = None ->
            memoryRSS m' = memoryRSS m /\ memoryCache m' = memoryCache m) /\
           (cgroup1.Memory stats ≫= cgroup1.mem_Usage = None ->
            memoryUsed m' = memoryUsed m /\ memoryTotal m' = memoryTotal m /\
            memoryFailCount m' = memoryFailCount m) /\
           (cgroup1.Memory stats ≫= cgroup1.mem_Swap = None ->
            memswUsed m' = memswUsed m /\ memswTotal m' = memswTotal m /\
            memswFailCount m' = memswFailCount m) /\
           (cpuPressure m' = cpuPressure m /\
            memoryPressure m' = memoryPressure m /\
            blkioPressure m' = blkioPressure m) /\
           (cgroup1.Blkio stats = None ->
            blkioReadBytes m' = blkioReadBytes m /\
            blkioWriteBytes m' = blkioWriteBytes m /\
            blkioReadReqs m' = blkioReadReqs m /\
            blkioWriteReqs m' = blkioWriteReqs m) /\
           (cgroup1.Rdma stats = None ->
            rdmaHCAHandles m' = rdmaHCAHandles m /\
            rdmaHCAObjects m' = rdmaHCAObjects m)))) /\
  (forall p,
     files h !! cpusPath c h p = None \/
     files h !! cpusPath c h p = Some Unreadable \/
     (exists data e, files h !! cpusPath c h p = Some (Content data) /\
                     parseCPUSet (trimSuffixLF data) = Err e) ->
     exists e, getCPUs c h p = Err e) /\
  (forall p u,
     setErr (newMetric p u) =
       {| path := p; cpuUser := 0%float; cpuSystem := 0%float;
          cpuTotal := 0%float; cpus := 0; cpuPressure := 0%float;
          memoryRSS := 0%float; memoryCache := 0%float; memoryUsed := 0%float;
          memoryTotal := 0%float; memoryFailCount := 0%float;
          memswUsed := 0%float; memswTotal := 0%float;
          memswFailCount := 0%float; memoryPressure := 0%float;
          blkioReadBytes := ∅; blkioWriteBytes := ∅; blkioReadReqs := ∅;
          blkioWriteReqs := ∅; blkioPressure := 0%float;
          rdmaHCAHandles := ∅; rdmaHCAObjects := ∅; uuid := u; err := true |}) /\
  (forall ms, Forall (fun m => update c h m <> Hang) ms ->
     exists ms' sent,
       Forall2 (fun m m' => update c h m = Ok m') ms ms' /\
       Update c h ms = Ok sent /\
       forall m', m' ∈ ms' ->
         (forall s, s ∈ unitSamples c m' -> s ∈ sent) /\
         (err m' = true ->
          MustNewConstMetric collectError GaugeValue 1%float
            [manager (cgManager c); hostname c; uuid m'] ∈ sent)).
Proof.
  split; [apply update_no_error|]. split.
  { intros ms e. unfold Update.
    destruct (doUpdate c h ms) as [ms'|e'|] eqn:Hdo; simpl; [done| |done].
    by destruct (doUpdate_no_error c h ms e'). }
  split.
  { intros m Hmode. split.
    - intros e He. unfold update, statsV2. rewrite decide_True by done.
      by rewrite He.
    - intros ctrl Hl. split; [|split].
      + intros e He. unfold update, statsV2. rewrite decide_True by done.
        by rewrite Hl, He.
      + intros He. unfold update, statsV2. rewrite decide_True by done.
        by rewrite Hl, He.
      + intros stats m' Hs. unfold update. rewrite decide_True by done.
        unfold statsV2, countCPUs. rewrite Hl, Hs.
        destruct (getCPUs c h (path m)) as [l|e'|]; simpl; [| |done];
          intros [= <-]; cbn [err cpus cpuUser cpuSystem cpuTotal cpuPressure
            memoryRSS memoryCache memoryUsed memoryTotal memoryFailCount
            memswUsed memswTotal memswFailCount memoryPressure
            blkioReadBytes blkioWriteBytes blkioReadReqs blkioWriteReqs
            blkioPressure rdmaHCAHandles rdmaHCAObjects];
          frame_solve. }
  split.
  { intros m Hmode. split.
    - intros e He. unfold update, statsV1. rewrite decide_False by done.
      by rewrite He.
    - intros ctrl Hl. split; [|split].
      + intros e He. unfold update, statsV1. rewrite decide_False by done.
        by rewrite Hl, He.
      + intros He. unfold update, statsV1. rewrite decide_False by done.
        by rewrite Hl, He.
      + intros stats m' Hs. unfold update. rewrite decide_False by done.
        unfold statsV1, countCPUs. rewrite Hl, Hs.
        destruct (getCPUs c h (path m)) as [l|e'|]; simpl; [| |done];
          intros [= <-]; cbn [err cpus cpuUser cpuSystem cpuTotal cpuPressure
            memoryRSS memoryCache memoryUsed memoryTotal memoryFailCount
            memswUsed memswTotal memswFailCount memoryPressure
            blkioReadBytes blkioWriteBytes blkioReadReqs blkioWriteReqs
            blkioPressure rdmaHCAHandles rdmaHCAObjects];
          frame_solve. }
  split.
  { intros p. unfold getCPUs, fileExists, os_ReadFile.
    intros [->|[->|(data & e & -> & Hp)]]; simpl; eauto. }
  split; [done|].
  intros ms Hall. destruct (doUpdate_returns c h ms Hall) as (ms' & Hdo & Hf2).
  exists ms'. eexists. split; [done|]. split; [apply Update_Ok; eauto|].
  intros m' Hm'.
  assert (Hsub : forall s, s ∈ sendMetrics c m' ->
            s ∈ MustNewConstMetric numCgs GaugeValue
                  (float64_of_int (Z.of_nat (length ms')))
                  [manager (cgManager c); hostname c]
                :: flat_map (sendMetrics c) ms').
  { intros s Hs. apply elem_of_cons. right. apply list_elem_of_In, in_flat_map.
    exists m'. by split; apply list_elem_of_In. }
  split.
  - intros s Hs. by apply Hsub, unitSamples_sent.
  - intros He. by apply Hsub, collectError_sent.
Qed.

(** ** [discover] *)

Section discover_facts.
Context (c : cgroupManager) (h : host).

(** On an entry without error the callback returns nil, and adds to
    [cgroups] exactly what [unitOf] says the entry contributes. *)
Lemma visit_no_error (st : walkState) (e : walkEntry) :
  wErr e = None ->
  exists st', visit c h st e = Ok st' /\
              cgroups st' = cgroups st ++ option_list (unitOf c h e).
Proof.
  intros He. unfold visit, unitOf. rewrite He.
  destruct (wIsDir e); simpl; [|by eexists; rewrite app_nil_r].
  destruct (filepath_Rel h (root c) (wPath e)) as [rel| |];
    try (by eexists; rewrite app_nil_r).
  destruct (unescapeString h (wPath e)) as [sp| |];
    try (by eexists; rewrite app_nil_r).
  destruct (regexp.FindStringSubmatch (idRegex c) sp) as [|whole [|m1 rest]];
    try (by eexists; rewrite app_nil_r).
  destruct (String.eqb _ _); [by eexists; rewrite app_nil_r|].
  destruct (isChild c (wPath e)); eexists; split; try reflexivity; simpl.
  by rewrite app_nil_r.
Qed.

Lemma visit_error (st : walkState) (e : walkEntry) (err : string) :
  wErr e = Some err -> visit c h st e = Err err.
Proof. intros He. unfold visit. by rewrite He. Qed.

(** The walk either meets no error and ends with the units of its entries
    appended, or stops at its first entry with an error. *)
Lemma WalkDir_cases (entries : list walkEntry) (st : walkState) :
  (Forall noWalkError entries /\
   exists st', WalkDir (visit c h) entries st = Ok st' /\
               cgroups st' = cgroups st ++ omap (unitOf c h) entries)
  \/
  (exists l1 e l2 err,
     entries = l1 ++ e :: l2 /\ Forall noWalkError l1 /\
     wErr e = Some err /\ WalkDir (visit c h) entries st = Err err).
Proof.
  revert st. induction entries as [|e entries IH]; intros st.
  - left. split; [constructor|]. exists st. simpl. by rewrite app_nil_r.
  - destruct (wErr e) as [err|] eqn:He.
    + right. exists [], e, entries, err. repeat split; [constructor|done|].
      simpl. by rewrite (visit_error _ _ _ He).
    + destruct (visit_no_error st e He) as (st1 & Hv & Hc).
      destruct (IH st1)
        as [[Hall (st' & Hw & Hcs)]|(l1 & e' & l2 & err & -> & Hl1 & He' & Hw)].
      * left. split; [by constructor|]. exists st'. simpl. rewrite Hv. simpl.
        split; [done|]. rewrite Hcs, Hc, <- app_assoc. f_equal.
        by destruct (unitOf c h e).
      * right. exists (e :: l1), e', l2, err. repeat split; [by constructor|done|].
        simpl. by rewrite Hv.
Qed.

(** The merge loop changes neither [id], [uuid] nor [path]. *)
Lemma merge_sameUnit (st : walkState) (l : list cgroup) :
  Forall2 sameUnit (merge st <$> l) l.
Proof. induction l as [|g l IH]; constructor; [done|exact IH]. Qed.

Lemma merge_id (st : walkState) (l : list cgroup) :
  cg_id <$> (merge st <$> l) = cg_id <$> l.
Proof. rewrite <- list_fmap_compose. by apply list_fmap_ext. Qed.

Lemma unitOf_Some (e : walkEntry) (g : cgroup) :
  unitOf c h e = Some g ->
  wIsDir e = true /\ isChild c (wPath e) = false /\
  cg_uuid g = cg_id g /\ cg_id g <> "" /\
  unescapeString h (wPath e) = Ok (abs (cg_path g)) /\
  exists whole m1 rest,
    regexp.FindStringSubmatch (idRegex c) (abs (cg_path g)) = whole :: m1 :: rest /\
    cg_id g = strings_TrimSpace m1.
Proof.
  unfold unitOf. destruct (wIsDir e); [|done].
  destruct (filepath_Rel h (root c) (wPath e)) as [rel| |]; try done.
  destruct (unescapeString h (wPath e)) as [sp| |]; try done.
  destruct (regexp.FindStringSubmatch (idRegex c) sp) as [|whole [|m1 rest]] eqn:Hf;
    try done.
  destruct (String.eqb_spec (strings_TrimSpace m1) "") as [|Hne]; [done|].
  destruct (isChild c (wPath e)); [done|]. intros [= <-]. simpl.
  repeat split; try done. eauto.
Qed.

Lemma unitID_omap (l : list walkEntry) :
  cg_id <$> omap (unitOf c h) l = omap (unitID c h) l.
Proof.
  induction l as [|e l IH]; [done|]. simpl. unfold unitID at 1.
  destruct (unitOf c h e); simpl; [f_equal|]; exact IH.
Qed.

(** What a pass that returns has returned. *)
Lemma discover_Ok_inv (cgs : list cgroup) :
  discover c h = Ok cgs ->
  Forall noWalkError (walk h (mountPoint c)) /\
  exists st, cgs = merge st <$> omap (unitOf c h) (walk h (mountPoint c)).
Proof.
  unfold discover.
  destruct (WalkDir_cases (walk h (mountPoint c))
              {| cgroups := []; cgroupProcs := ∅; cgroupChildren := ∅ |})
    as [[Hall (st' & -> & Hcs)]|(l1 & e & l2 & err & _ & _ & _ & ->)]; [|done].
  simpl. intros [= <-]. split; [done|]. exists st'. by rewrite Hcs.
Qed.

(** A pass without walk error returns. *)
Lemma discover_returns :
  Forall noWalkError (walk h (mountPoint c)) ->
  exists cgs, discover c h = Ok cgs.
Proof.
  intros Hall. unfold discover.
  destruct (WalkDir_cases (walk h (mountPoint c))
              {| cgroups := []; cgroupProcs := ∅; cgroupChildren := ∅ |})
    as [[_ (st' & -> & _)]|(l1 & e & l2 & err & Hw & _ & He & _)]; [by eexists|].
  rewrite Hw in Hall. apply Forall_app in Hall as [_ Hall].
  apply Forall_cons in Hall as [Hnone _]. unfold noWalkError in Hnone. congruence.
Qed.

(** C5 (amended). An error that the walk reports for an entry (a directory
    that vanished, for one) aborts the pass: [discover] returns that error
    and no units, whatever the entries before and after it would contribute.
    When no entry reports an error the pass completes, with one unit for
    every entry that [unitID] gives an ID. *)
Theorem discover_aborts_on_walk_error :
  (forall l1 e l2 err,
     walk h (mountPoint c) = l1 ++ e :: l2 ->
     Forall noWalkError l1 ->
     wErr e = Some err ->
     discover c h = Err err) /\
  (Forall noWalkError (walk h (mountPoint c)) ->
   exists cgs, discover c h = Ok cgs /\
               cg_id <$> cgs = omap (unitID c h) (walk h (mountPoint c))).
Proof.
  split.
  - intros l1 e l2 err Hw Hl1 He. unfold discover. rewrite Hw. clear Hw.
    generalize {| cgroups := []; cgroupProcs := ∅; cgroupChildren := ∅ |}.
    induction Hl1 as [|e1 l1 He1 Hl1 IH]; intros st; simpl.
    + by rewrite (visit_error _ _ _ He).
    + destruct (visit_no_error st e1 He1) as (st1 & -> & _). simpl. apply IH.
  - intros Hall. destruct (discover_returns Hall) as [cgs Hd].
    exists cgs. split; [done|].
    apply discover_Ok_inv in Hd as (_ & st & ->).
    by rewrite merge_id, unitID_omap.
Qed.

(** The roots of a pass. A pass whose walk reports no error returns; the
    returned roots are, in order, one for each walked directory that
    [isChild] does not take for a child and whose unescaped path matches
    [idRegex] with a non-empty trimmed first group ([unitOf]): nothing
    compares the ID of a root with those already returned. Every returned
    root has [uuid = id], the trimmed first group of [idRegex] on its
    unescaped path; an entry whose unescaped path does not match, or whose ID
    is empty, contributes no unit. *)
Lemma discover_units_by_id :
  (Forall noWalkError (walk h (mountPoint c)) ->
   exists cgs, discover c h = Ok cgs) /\
  (forall cgs, discover c h = Ok cgs ->
     Forall2 sameUnit cgs (omap (unitOf c h) (walk h (mountPoint c))) /\
     cg_id <$> cgs = omap (unitID c h) (walk h (mountPoint c)) /\
     (forall g, g ∈ cgs ->
        cg_uuid g = cg_id g /\ cg_id g <> "" /\
        exists e whole m1 rest,
          e ∈ walk h (mountPoint c) /\ wIsDir e = true /\
          isChild c (wPath e) = false /\
          unescapeString h (wPath e) = Ok (abs (cg_path g)) /\
          regexp.FindStringSubmatch (idRegex c) (abs (cg_path g))
            = whole :: m1 :: rest /\
          cg_id g = strings_TrimSpace m1)) /\
  (forall e sp,
     unescapeString h (wPath e) = Ok sp ->
     (length (regexp.FindStringSubmatch (idRegex c) sp) <= 1)%nat \/
     (exists whole m1 rest,
        regexp.FindStringSubmatch (idRegex c) sp = whole :: m1 :: rest /\
        strings_TrimSpace m1 = "") ->
     unitOf c h e = None).
Proof.
  split; [apply discover_returns|]. split.
  - intros cgs (Hall & st & ->)%discover_Ok_inv.
    assert (Hids : cg_id <$> (merge st <$> omap (unitOf c h) (walk h (mountPoint c)))
                   = omap (unitID c h) (walk h (mountPoint c))).
    { by rewrite merge_id, unitID_omap. }
    split; [apply merge_sameUnit|].
    split; [done|].
    intros g (g0 & -> & Hg0)%list_elem_of_fmap.
    apply list_elem_of_omap in Hg0 as (e & He & Hu).
    destruct (unitOf_Some _ _ Hu)
      as (Hd & Hc & Huu & Hne & Hun & whole & m1 & rest & Hf & Hid).
    simpl. repeat split; try done. exists e, whole, m1, rest. done.
  - intros e sp Hun Hcase. unfold unitOf. rewrite Hun.
    destruct (wIsDir e); [|done].
    destruct (filepath_Rel h (root c) (wPath e)); try done.
    destruct Hcase as [Hlen|(whole & m1 & rest & -> & Hid)].
    + destruct (regexp.FindStringSubmatch (idRegex c) sp) as [|? [|? ?]]; try done.
      simpl in Hlen. lia.
    + by rewrite Hid.
Qed.

End discover_facts.

(** ** The example systems *)

(** The ID patterns on the paths the source documents for them. *)
Example slurmCgroupPathRegex_paths :
  regexp.FindStringSubmatch slurmCgroupPathRegex "/cpuacct/slurm/uid_1000/job_211"
  = ["/cpuacct/slurm/uid_1000/job_211"; "211"] /\
  regexp.FindStringSubmatch slurmCgroupPathRegex
    "/system.slice/slurmstepd.scope/job_211/step_extern/user/task_0"
  = ["/system.slice/slurmstepd.scope/job_211/step_extern/user/task_0"; "211"] /\
  regexp.FindStringSubmatch slurmCgroupPathRegex "/system.slice/slurmstepd.scope"
  = [].
Proof. repeat split. Qed.

Example libvirtCgroupPathRegex_paths :
  (p ← unescapeHex "/machine.slice/machine-qemu\x2d2\x2dinstance\x2d00000001.scope/libvirt";
   Ok (regexp.FindStringSubmatch libvirtCgroupPathRegex p))
  = Ok ["/machine.slice/machine-qemu-2-instance-00000001.scope/libvirt";
        "instance-00000001"] /\
  regexp.FindStringSubmatch libvirtCgroupPathRegex "/machine.slice" = [].
Proof. repeat split. Qed.

Example slurmIgnoreProcsRegex_cmdlines :
  regexp.MatchString slurmIgnoreProcsRegex "slurmstepd: [211.batch]" = true /\
  regexp.MatchString slurmIgnoreProcsRegex "sleep 100000000" = true /\
  regexp.MatchString slurmIgnoreProcsRegex "/bin/bash /var/spool/slurm/slurm_script" = true /\
  regexp.MatchString slurmIgnoreProcsRegex "python train.py" = false.
Proof. repeat split. Qed.

Example parseCPUSet_ranges :
  parseCPUSet "0-3,7,9-11" = Ok ["0"; "1"; "2"; "3"; "7"; "9"; "10"; "11"] /\
  parseCPUSet "" = Err "empty cpuset file" /\
  parseCPUSet "0-3,x" = Err "invalid syntax" /\
  parseCPUSet "3-1" = Ok [] /\
  parseCPUSet "0-1,1-2-3" = Ok ["0"; "1"; "0"; "1"] /\
  parseCPUSet "0-9223372036854775807" = Hang.
Proof. repeat split. Qed.

Example NewCgroupManager_slurm_v2 :
  NewCgroupManager slurm (job42Host "0-3") (Ok procfs) "v2" "cpuacct" Legacy
  = Ok slurmUnified.
Proof. reflexivity. Qed.

Example NewCgroupManager_libvirt_v1 :
  NewCgroupManager libvirt iothreadHost (Ok procfs) "v1" "cpuacct" Unified
  = Ok libvirtLegacy.
Proof. reflexivity. Qed.

Example discover_slurm_one_job :
  discover slurmUnified (job42Host "0-3")
  = Ok [ {| cg_id := "42"; cg_uuid := "42";
            cg_procs := [ {| PID := 101 |}; {| PID := 102 |} ];
            cg_path := {| abs := scopeDir +:+ "/job_42";
                          rel := "system.slice/slurmstepd.scope/job_42" |};
            cg_children :=
              [ {| abs := scopeDir +:+ "/job_42";
                   rel := "system.slice/slurmstepd.scope/job_42" |};
                {| abs := scopeDir +:+ "/job_42/step_0";
                   rel := "system.slice/slurmstepd.scope/job_42/step_0" |} ] |} ].
Proof. vm_compute. reflexivity. Qed.

Example update_slurm_one_job :
  exists m', update (collectorOf slurmUnified ∅) (job42Host "0-3") job42Metric = Ok m' /\
             cpuTotal m' = 5%float /\ memoryUsed m' = 1048576%float /\ cpus m' = 4.
Proof. eexists. split; [vm_compute; reflexivity|]. by vm_compute. Qed.


Lemma limit_sentinel_substitution_witness :
  exists m', statsV2 (collectorOf slurmUnified memInfo64G) (job42Host "0-3") job42Metric
             = Ok m' /\
             memoryTotal m' = float64_of_uint64 68719476736 /\
             memswTotal m' = float64_of_uint64 68719476736.
Proof.
  destruct (limit_sentinel_substitution
              (collectorOf slurmUnified memInfo64G) (job42Host "0-3") job42Metric)
    as [Hv2 _].
  - discriminate.
  - destruct (Hv2 {| cgroup2.Stat := Ok (Some job42Stats) |} job42Stats
                {| cgroup2.Anon := 524288; cgroup2.File := 0; cgroup2.Usage := 1048576;
                   cgroup2.UsageLimit := MaxUint64; cgroup2.SwapUsage := 0;
                   cgroup2.SwapLimit := MaxUint64; cgroup2.mem_PSI := None |}
                eq_refl eq_refl eq_refl) as (m' & Hm' & Hmem & Hsw).
    exists m'. split; [exact Hm'|]. split; [exact Hmem|exact Hsw].
Defined.

Lemma limit_sentinel_without_meminfo_counterexample :
  exists m', update (collectorOf slurmUnified ∅) (job42Host "0-3") job42Metric = Ok m' /\
             memInfo (collectorOf slurmUnified ∅) "MemTotal_bytes" = 0%float /\
             memoryTotal m' = float64_of_uint64 MaxUint64 /\
             memoryTotal m' <> memInfo (collectorOf slurmUnified ∅) "MemTotal_bytes".
Proof.
  eexists. split; [vm_compute; reflexivity|]. split; [reflexivity|].
  split; [by vm_compute|].
  intros H. apply (f_equal positive) in H. vm_compute in H. discriminate.
Qed.

Lemma stats_read_flags_load_failures_witness :
  update (collectorOf slurmUnified ∅) removedHost job42Metric = Ok (setErr job42Metric) /\
  exists ms' sent,
    Forall2 (fun m m' => update (collectorOf slurmUnified ∅) removedHost m = Ok m')
            [job42Metric] ms' /\
    Update (collectorOf slurmUnified ∅) removedHost [job42Metric] = Ok sent /\
    forall m', m' ∈ ms' ->
      (forall s, s ∈ unitSamples (collectorOf slurmUnified ∅) m' -> s ∈ sent) /\
      (err m' = true ->
       MustNewConstMetric collectError GaugeValue 1%float
         [manager slurmUnified; "node1"; uuid m'] ∈ sent).
Proof.
  destruct (stats_read_flags_load_failures (collectorOf slurmUnified ∅) removedHost)
    as (_ & _ & Hv2 & _ & _ & _ & Hsent).
  split.
  - destruct (Hv2 job42Metric eq_refl) as [Hload _].
    apply (Hload "cgroup deleted"). reflexivity.
  - apply Hsent. repeat constructor. discriminate.
Defined.

Lemma missing_cpuset_not_flagged_counterexample :
  getCPUs (collectorOf slurmUnified ∅) bareHost (path job42Metric)
  = Err ("cpuset file " +:+ scopeDir +:+ "/job_42/cpuset.cpus.effective"
         +:+ " not found") /\
  exists m' sent,
    update (collectorOf slurmUnified ∅) bareHost job42Metric = Ok m' /\
    err m' = false /\
    Update (collectorOf slurmUnified ∅) bareHost [job42Metric] = Ok sent /\
    Forall (fun s => desc s <> collectError) sent.
Proof.
  split; [reflexivity|]. do 2 eexists.
  split; [vm_compute; reflexivity|]. split; [reflexivity|].
  split; [vm_compute; reflexivity|]. repeat constructor; discriminate.
Qed.

Lemma discover_aborts_on_walk_error_witness :
  discover slurmUnified vanishingHost
  = Err ("open " +:+ scopeDir +:+ "/job_2: no such file or directory") /\
  exists cgs, discover slurmUnified (job42Host "0-3") = Ok cgs /\ cg_id <$> cgs = ["42"].
Proof.
  split.
  - apply (proj1 (discover_aborts_on_walk_error slurmUnified vanishingHost)
             [dir scopeDir; dir (scopeDir +:+ "/job_1"); dir (scopeDir +:+ "/job_2")]
             (vanished (scopeDir +:+ "/job_2"))
             [dir (scopeDir +:+ "/job_3")]).
    + reflexivity.
    + repeat constructor.
    + reflexivity.
  - destruct (proj2 (discover_aborts_on_walk_error slurmUnified (job42Host "0-3")))
      as (cgs & Hd & Hids).
    + repeat constructor.
    + exists cgs. split; [exact Hd|]. rewrite Hids. reflexivity.
Defined.

Lemma vanished_directory_aborts_counterexample :
  walk vanishingHost (mountPoint slurmUnified)
  = [dir scopeDir; dir (scopeDir +:+ "/job_1"); dir (scopeDir +:+ "/job_2");
     vanished (scopeDir +:+ "/job_2"); dir (scopeDir +:+ "/job_3")] /\
  omap (unitID slurmUnified vanishingHost)
       [dir scopeDir; dir (scopeDir +:+ "/job_1"); dir (scopeDir +:+ "/job_3")]
  = ["1"; "3"] /\
  discover slurmUnified vanishingHost
  = Err ("open " +:+ scopeDir +:+ "/job_2: no such file or directory").
Proof. repeat split. Qed.

Example discover_libvirt_two_machines :
  exists cgs, discover libvirtLegacy twoVMsHost = Ok cgs /\
              cg_id <$> cgs = ["instance-0000000a"; "instance-0000000b"].
Proof. eexists. split; [vm_compute; reflexivity|]. reflexivity. Qed.

(** C7 (the code on a libvirt host with cgroups v1 and one virtual machine
    with an I/O thread, whose scope holds the cgroups [emulator], [iothread1]
    and [vcpu0]). [isChild] recognises [emulator] and [vcpu0] as children and
    misses [iothread1], so [discover] returns the cgroup [iothread1] as a
    second root with the ID of the virtual machine: the ID appears twice
    among the returned roots. *)
Theorem discover_iothread_cgroup_is_second_root :
  NewCgroupManager libvirt iothreadHost (Ok procfs) "v1" "cpuacct" Unified
  = Ok libvirtLegacy /\
  isChild libvirtLegacy (vmA +:+ "/emulator") = true /\
  isChild libvirtLegacy (vmA +:+ "/vcpu0") = true /\
  isChild libvirtLegacy (vmA +:+ "/iothread1") = false /\
  exists cgs,
    discover libvirtLegacy iothreadHost = Ok cgs /\
    cg_id <$> cgs = ["instance-0000000a"; "instance-0000000a"] /\
    abs ∘ cg_path <$> cgs
    = ["/sys/fs/cgroup/cpuacct/machine.slice/machine-qemu-1-instance-0000000a.scope";
       "/sys/fs/cgroup/cpuacct/machine.slice/machine-qemu-1-instance-0000000a.scope/iothread1"] /\
    ~ NoDup (cg_id <$> cgs).
Proof.
  split; [reflexivity|]. split; [reflexivity|]. split; [reflexivity|].
  split; [reflexivity|]. eexists. split; [vm_compute; reflexivity|].
  split; [reflexivity|]. split; [reflexivity|].
  intros Hnd. apply NoDup_cons in Hnd as [Hnotin _]. apply Hnotin.
  by apply list_elem_of_singleton.
Qed.

Lemma per_device_samples_positive_unit_samples_always_witness :
  exists sent,
    Update (collectorOf slurmUnified ∅) (job42Host "0-3") [job42Metric] = Ok sent /\
    (forall s, s ∈ sent -> perDevice (desc s) = true -> positive (value s) = true) /\
    MustNewConstMetric cgBlkioReadBytes GaugeValue 4096%float
      ["slurm"; "node1"; "42"; "sda"] ∈ sent /\
    Forall (fun s => desc s <> cgBlkioWriteBytes) sent.
Proof.
  eexists. split; [vm_compute; reflexivity|]. split; [|split].
  - apply (proj1 (proj2 (per_device_samples_positive_unit_samples_always
                           (collectorOf slurmUnified ∅) (job42Host "0-3")
                           [job42Metric]))).
    vm_compute. reflexivity.
  - repeat (first [by apply list_elem_of_here | apply list_elem_of_further]).
  - repeat constructor; discriminate.
Defined.

(** C6 (the code on one unit with RDMA device [mlx5_0], 2 handles and 7
    objects). [update] stores 2 in [rdmaHCAHandles] and 7 in
    [rdmaHCAObjects], and [Update] sends 2 as the value of the
    [cgRDMAHCAObjects] sample: the second RDMA loop ranges over
    [rdmaHCAHandles] again, so both families report the handle count. *)
Theorem Update_sends_handles_as_objects :
  exists m' sent,
    update (collectorOf slurmUnified ∅) (job42Host "0-3") job42Metric = Ok m' /\
    rdmaHCAHandles m' !! "mlx5_0" = Some 2%float /\
    rdmaHCAObjects m' !! "mlx5_0" = Some 7%float /\
    Update (collectorOf slurmUnified ∅) (job42Host "0-3") [job42Metric] = Ok sent /\
    MustNewConstMetric cgRDMAHCAObjects GaugeValue 2%float
      ["slurm"; "node1"; "42"; "mlx5_0"] ∈ sent /\
    Forall (fun s => desc s = cgRDMAHCAObjects -> value s = 2%float) sent.
Proof.
  do 2 eexists. split; [vm_compute; reflexivity|].
  split; [by vm_compute|]. split; [by vm_compute|].
  split; [vm_compute; reflexivity|]. split.
  - repeat (first [by apply list_elem_of_here | apply list_elem_of_further]).
  - repeat constructor; intros; try discriminate; reflexivity.
Qed.


(** ** [discover]: the children and the processes of a unit *)

Lemma appendAt_lookup {A : Type} (k k' : string) (x : A) (m : gmap string (list A)) :
  default [] (appendAt k x m !! k')
  = default [] (m !! k') ++ (if String.eqb k k' then [x] else []).
Proof.
  unfold appendAt. destruct (String.eqb_spec k k') as [->|Hne].
  - by rewrite lookup_insert_eq.
  - rewrite lookup_insert_ne by done. by rewrite app_nil_r.
Qed.

Section discover_maps.
Context (c : cgroupManager) (h : host).

Lemma readProcs_lookup (p id id' : string) (m : gmap string (list Proc)) :
  default [] (readProcs c h p id m !! id')
  = default [] (m !! id') ++ (if String.eqb id id' then procsIn c h p else []).
Proof.
  unfold readProcs, procsIn.
  destruct (os_ReadFile h (filepath_Join [p; "cgroup.procs"])) as [data| |];
    try (by destruct (String.eqb id id'); rewrite app_nil_r).
  revert m. induction (scanLines data) as [|line ls IH]; intros m; simpl.
  - by destruct (String.eqb id id'); rewrite app_nil_r.
  - destruct (strconv_Atoi line) as [pid| |]; try apply IH.
    destruct (fs_Proc (fs c) pid) as [proc| |]; try apply IH.
    rewrite IH, appendAt_lookup.
    destruct (String.eqb id id'); simpl; by rewrite <- app_assoc.
Qed.

(** What one call of the walk function adds to the two maps. *)
Lemma visit_maps (st st' : walkState) (e : walkEntry) :
  visit c h st e = Ok st' ->
  forall id,
    default [] (cgroupChildren st' !! id)
    = default [] (cgroupChildren st !! id) ++ pathsOf c h id [e] /\
    default [] (cgroupProcs st' !! id)
    = default [] (cgroupProcs st !! id) ++ procsOf c h id [e].
Proof.
  unfold visit, pathsOf, procsOf, cgroupOf. simpl.
  destruct (wErr e); [done|].
  destruct (wIsDir e); simpl; [|by intros [= <-] id; rewrite !app_nil_r].
  destruct (filepath_Rel h (root c) (wPath e)) as [rel| |];
    try (by intros [= <-] id; rewrite !app_nil_r).
  destruct (unescapeString h (wPath e)) as [sp| |];
    try (by intros [= <-] id; rewrite !app_nil_r).
  destruct (regexp.FindStringSubmatch (idRegex c) sp) as [|whole [|m1 rest]];
    try (by intros [= <-] id; rewrite !app_nil_r).
  destruct (String.eqb (strings_TrimSpace m1) "");
    [by intros [= <-] id; rewrite !app_nil_r|].
  destruct (isChild c (wPath e)); intros [= <-] id; simpl;
    rewrite appendAt_lookup, readProcs_lookup;
    destruct (String.eqb (strings_TrimSpace m1) id); simpl;
    by rewrite ?app_nil_r.
Qed.

Lemma pathsOf_cons (id : string) (e : walkEntry) (l : list walkEntry) :
  pathsOf c h id (e :: l) = pathsOf c h id [e] ++ pathsOf c h id l.
Proof.
  unfold pathsOf. simpl. destruct (cgroupOf c h e) as [[id' p]|]; [|done].
  by destruct (String.eqb id' id).
Qed.

Lemma procsOf_cons (id : string) (e : walkEntry) (l : list walkEntry) :
  procsOf c h id (e :: l) = procsOf c h id [e] ++ procsOf c h id l.
Proof. unfold procsOf. simpl. by rewrite app_nil_r. Qed.

(** What a walk that returns has put in the two maps. *)
Lemma WalkDir_maps (entries : list walkEntry) (st st' : walkState) :
  WalkDir (visit c h) entries st = Ok st' ->
  forall id,
    default [] (cgroupChildren st' !! id)
    = default [] (cgroupChildren st !! id) ++ pathsOf c h id entries /\
    default [] (cgroupProcs st' !! id)
    = default [] (cgroupProcs st !! id) ++ procsOf c h id entries.
Proof.
  revert st. induction entries as [|e entries IH]; intros st; cbn [WalkDir].
  - intros [= <-] id. simpl. by rewrite !app_nil_r.
  - destruct (visit c h st e) as [st1| |] eqn:Hv; cbn [mbind outcome_bind];
      [|done|done].
    intros Hw id. destruct (IH st1 Hw id) as [-> ->].
    destruct (visit_maps st st1 e Hv id) as [-> ->].
    rewrite (pathsOf_cons id e entries), (procsOf_cons id e entries), <- !app_assoc.
    by split.
Qed.

Lemma unitOf_cgroupOf (e : walkEntry) (g : cgroup) :
  unitOf c h e = Some g ->
  cgroupOf c h e = Some (cg_id g, cg_path g) /\ cg_procs g = [] /\ cg_children g = [].
Proof.
  unfold unitOf, cgroupOf. destruct (wIsDir e); [|done].
  destruct (filepath_Rel h (root c) (wPath e)) as [rel| |]; try done.
  destruct (unescapeString h (wPath e)) as [sp| |]; try done.
  destruct (regexp.FindStringSubmatch (idRegex c) sp) as [|whole [|m1 rest]];
    try done.
  destruct (String.eqb (strings_TrimSpace m1) ""); [done|].
  destruct (isChild c (wPath e)); [done|]. by intros [= <-].
Qed.

Lemma pathsOf_elem (id : string) (entries : list walkEntry) (p : cgroupPath) :
  p ∈ pathsOf c h id entries <->
  exists e, e ∈ entries /\ cgroupOf c h e = Some (id, p).
Proof.
  unfold pathsOf. rewrite list_elem_of_omap. split.
  - intros (e & He & Hp). exists e. split; [done|].
    destruct (cgroupOf c h e) as [[id' p']|]; [|done].
    destruct (String.eqb_spec id' id) as [->|]; [|done]. by injection Hp as ->.
  - intros (e & He & Hc). exists e. split; [done|]. rewrite Hc.
    by rewrite String.eqb_refl.
Qed.

(** A pass that returns: the walk state it merged, and what each returned
    root was given from it. *)
Lemma discover_merged (cgs : list cgroup) (g : cgroup) :
  discover c h = Ok cgs -> g ∈ cgs ->
  (exists e, e ∈ walk h (mountPoint c) /\
             cgroupOf c h e = Some (cg_id g, cg_path g)) /\
  cg_children g = pathsOf c h (cg_id g) (walk h (mountPoint c)) /\
  cg_procs g = procsOf c h (cg_id g) (walk h (mountPoint c)).
Proof.
  unfold discover.
  destruct (WalkDir_cases c h (walk h (mountPoint c))
              {| cgroups := []; cgroupProcs := ∅; cgroupChildren := ∅ |})
    as [[_ (st & Hw & Hcs)]|(l1 & e & l2 & err & _ & _ & _ & Hw)];
    rewrite Hw; simpl; [|done].
  intros [= <-] (g0 & -> & Hg0)%list_elem_of_fmap.
  rewrite Hcs in Hg0. simpl in Hg0.
  apply list_elem_of_omap in Hg0 as (e & He & Hu).
  destruct (unitOf_cgroupOf e g0 Hu) as (Hc & Hp0 & Hc0).
  destruct (WalkDir_maps _ _ _ Hw (cg_id g0)) as [Hch Hpr].
  simpl in Hch, Hpr. rewrite lookup_empty in Hch. rewrite lookup_empty in Hpr.
  simpl in Hch, Hpr.
  assert (Hin : cg_path g0 ∈ pathsOf c h (cg_id g0) (walk h (mountPoint c))).
  { apply pathsOf_elem. eauto. }
  split; [eauto|]. unfold merge; simpl. split.
  - destruct (cgroupChildren st !! cg_id g0) as [l|]; simpl in Hch; [done|].
    rewrite <- Hch in Hin. by apply elem_of_nil in Hin.
  - destruct (cgroupProcs st !! cg_id g0) as [l|]; simpl in Hpr; [done|].
    by rewrite Hp0.
Qed.

End discover_maps.

(** X7. Every root unit that [discover] returns has as [children] the paths
    of all walked directories whose ID is the unit's, roots and children
    alike and in walk order: its own path is among them, and every child
    path is the unescaped path of a walked directory on which [idRegex]
    gives the unit's ID. *)
Theorem discover_children_share_id
    (c : cgroupManager) (h : host) (cgs : list cgroup) (g : cgroup) :
  discover c h = Ok cgs -> g ∈ cgs ->
  cg_children g = pathsOf c h (cg_id g) (walk h (mountPoint c)) /\
  cg_path g ∈ cg_children g /\
  (forall p, p ∈ cg_children g ->
     exists e whole m1 rest,
       e ∈ walk h (mountPoint c) /\ wIsDir e = true /\
       unescapeString h (wPath e) = Ok (abs p) /\
       filepath_Rel h (root c) (wPath e) = Ok (rel p) /\
       regexp.FindStringSubmatch (idRegex c) (abs p) = whole :: m1 :: rest /\
       strings_TrimSpace m1 = cg_id g).
Proof.
  intros Hd Hg.
  destruct (discover_merged c h cgs g Hd Hg) as ((e0 & He0 & Hc0) & Hch & _).
  split; [done|]. rewrite Hch. split.
  - apply pathsOf_elem. eauto.
  - intros p (e & He & Hc)%pathsOf_elem. revert Hc. unfold cgroupOf.
    destruct (wIsDir e) eqn:Hdir; [|done].
    destruct (filepath_Rel h (root c) (wPath e)) as [rel'| |] eqn:Hrel; try done.
    destruct (unescapeString h (wPath e)) as [sp| |] eqn:Hun; try done.
    destruct (regexp.FindStringSubmatch (idRegex c) sp) as [|whole [|m1 rest]] eqn:Hf;
      try done.
    destruct (String.eqb (strings_TrimSpace m1) ""); [done|].
    intros [= Hid <-]. simpl. exists e, whole, m1, rest. by repeat split.
Qed.

Lemma discover_children_share_id_witness :
  exists g,
    discover slurmUnified (job42Host "0-3") = Ok [g] /\
    cg_children g
    = [ {| abs := scopeDir +:+ "/job_42";
           rel := "system.slice/slurmstepd.scope/job_42" |};
        {| abs := scopeDir +:+ "/job_42/step_0";
           rel := "system.slice/slurmstepd.scope/job_42/step_0" |} ] /\
    cg_path g ∈ cg_children g.
Proof.
  eexists. split; [vm_compute; reflexivity|].
  match goal with
  | |- cg_children ?g = _ /\ _ =>
      destruct (discover_children_share_id slurmUnified (job42Host "0-3") [g] g)
        as (Hch & Hin & _)
  end.
  - vm_compute. reflexivity.
  - apply list_elem_of_here.
  - split; [rewrite Hch; vm_compute; reflexivity|exact Hin].
Defined.

(** X8. The [procs] of every root unit that [discover] returns are the
    processes listed in the [cgroup.procs] files of all walked directories
    whose ID is the unit's (the root's and its children's), in walk order: a
    line that is not an integer, and a PID that procfs no longer resolves,
    are left out, and every process kept was resolved by procfs from a line
    of such a file. *)
Theorem discover_procs_of_unit
    (c : cgroupManager) (h : host) (cgs : list cgroup) (g : cgroup) :
  discover c h = Ok cgs -> g ∈ cgs ->
  cg_procs g = procsOf c h (cg_id g) (walk h (mountPoint c)) /\
  (forall proc, proc ∈ cg_procs g ->
     exists e p data line pid,
       e ∈ walk h (mountPoint c) /\ cgroupOf c h e = Some (cg_id g, p) /\
       os_ReadFile h (filepath_Join [wPath e; "cgroup.procs"]) = Ok data /\
       line ∈ scanLines data /\ strconv_Atoi line = Ok pid /\
       fs_Proc (fs c) pid = Ok proc).
Proof.
  intros Hd Hg.
  destruct (discover_merged c h cgs g Hd Hg) as (_ & _ & Hpr).
  split; [done|]. rewrite Hpr. intros proc Hp.
  unfold procsOf in Hp. apply list_elem_of_bind in Hp as (e & Hp & He).
  destruct (cgroupOf c h e) as [[id' p]|] eqn:Hc; [|by apply elem_of_nil in Hp].
  destruct (String.eqb_spec id' (cg_id g)) as [->|]; [|by apply elem_of_nil in Hp].
  unfold procsIn in Hp.
  destruct (os_ReadFile h (filepath_Join [wPath e; "cgroup.procs"])) as [data| |] eqn:Hf;
    try (by apply elem_of_nil in Hp).
  apply list_elem_of_omap in Hp as (line & Hl & Hp).
  destruct (strconv_Atoi line) as [pid| |] eqn:Ha; try done.
  destruct (fs_Proc (fs c) pid) as [proc'| |] eqn:Hfs; try done.
  injection Hp as <-. exists e, p, data, line, pid. by repeat split.
Qed.

Lemma discover_procs_of_unit_witness :
  exists g,
    discover slurmUnified (job42Host "0-3") = Ok [g] /\
    cg_procs g = [ {| PID := 101 |}; {| PID := 102 |} ].
Proof.
  eexists. split; [vm_compute; reflexivity|].
  match goal with
  | |- cg_procs ?g = _ =>
      destruct (discover_procs_of_unit slurmUnified (job42Host "0-3") [g] g)
        as (Hpr & _)
  end.
  - vm_compute. reflexivity.
  - apply list_elem_of_here.
  - rewrite Hpr. vm_compute. reflexivity.
Defined.

(** ** The per-device maps that [statsV1] and [statsV2] fill *)

Lemma foldl_insert_last {A : Type} (key : A -> string) (val : A -> Z)
    (keep : A -> bool) (step : gmap string float64 -> A -> gmap string float64) :
  (forall m a, step m a
               = if keep a then <[key a := float64_of_uint64 (val a)]> m else m) ->
  forall (entries : list A) (m : gmap string float64) (k : string),
    foldl step m entries !! k
    = match lastEntry (fun e => keep e = true /\ key e = k) val entries with
      | Some v => Some v
      | None => m !! k
      end.
Proof.
  intros Hstep entries. unfold lastEntry.
  induction entries as [|a entries IH]; intros m k; [done|].
  cbn [foldl]. rewrite IH, filter_cons, Hstep.
  destruct (decide (keep a = true /\ key a = k)) as [[Hk <-]|Hn].
  - rewrite Hk. destruct (filter _ entries) as [|b l] eqn:Hf; simpl.
    + by rewrite lookup_insert_eq.
    + destruct (last (b :: l)) eqn:Hl; [done|]. by apply last_None in Hl.
  - destruct (last (filter _ entries)); simpl; [done|].
    destruct (keep a) eqn:Hk; [|done].
    rewrite lookup_insert_ne; [done|]. intros Heq. by apply Hn.
Qed.

Lemma foldl_insert_dom {A : Type} (key : A -> string)
    (step : gmap string float64 -> A -> gmap string float64) :
  (forall m a, exists v, step m a = <[key a := v]> m) ->
  forall (entries : list A) (m : gmap string float64),
    dom (foldl step m entries) = dom m ∪ list_to_set (key <$> entries).
Proof.
  intros Hstep entries. induction entries as [|a entries IH]; intros m; simpl.
  - by rewrite (right_id_L ∅ (∪)).
  - rewrite IH. destruct (Hstep m a) as [v ->]. rewrite dom_insert_L.
    by rewrite (comm_L (∪) {[key a]} (dom m)), <- (assoc_L (∪)).
Qed.

Lemma lastEntry_ext {A : Type} (P Q : A -> Prop) `{!forall a, Decision (P a)}
    `{!forall a, Decision (Q a)} (val : A -> Z) (entries : list A) :
  (forall a, P a <-> Q a) -> lastEntry P val entries = lastEntry Q val entries.
Proof.
  intros HPQ. unfold lastEntry. f_equal. f_equal.
  induction entries as [|a entries IH]; [done|].
  rewrite !filter_cons, IH.
  destruct (decide (P a)) as [Hp|Hp], (decide (Q a)) as [Hq|Hq]; try done.
  - by apply HPQ in Hp.
  - by apply HPQ in Hq.
Qed.

Lemma blkioV1_lookup (c : cgroupCollector) (op dev : string)
    (entries : list cgroup1.BlkIOEntry) :
  blkioV1 c op entries !! dev
  = lastEntry (fun e => cgroup1.Op e = op /\
                        devName c (cgroup1.Major e) (cgroup1.Minor e) = dev)
              cgroup1.Value entries.
Proof.
  unfold blkioV1.
  rewrite (foldl_insert_last
             (fun e => devName c (cgroup1.Major e) (cgroup1.Minor e))
             cgroup1.Value (fun e => String.eqb (cgroup1.Op e) op)) by done.
  rewrite lookup_empty.
  rewrite (lastEntry_ext _ (fun e => cgroup1.Op e = op /\
                        devName c (cgroup1.Major e) (cgroup1.Minor e) = dev)).
  - by destruct (lastEntry _ _ _).
  - intros a. by rewrite String.eqb_eq.
Qed.

Lemma blkioV2_lookup (c : cgroupCollector) (field : cgroup2.IOEntry -> Z)
    (dev : string) (entries : list cgroup2.IOEntry) :
  blkioV2 c field entries !! dev
  = lastEntry (fun e => devName c (cgroup2.Major e) (cgroup2.Minor e) = dev)
              field entries.
Proof.
  unfold blkioV2.
  rewrite (foldl_insert_last
             (fun e => devName c (cgroup2.Major e) (cgroup2.Minor e))
             field (fun _ => true)) by done.
  rewrite lookup_empty.
  rewrite (lastEntry_ext _ (fun e => devName c (cgroup2.Major e) (cgroup2.Minor e) = dev)).
  - by destruct (lastEntry _ _ _).
  - intros a. tauto.
Qed.

Lemma blkioV2_dom (c : cgroupCollector) (field : cgroup2.IOEntry -> Z)
    (entries : list cgroup2.IOEntry) :
  dom (blkioV2 c field entries)
  = list_to_set ((fun e => devName c (cgroup2.Major e) (cgroup2.Minor e)) <$> entries).
Proof.
  unfold blkioV2. rewrite (foldl_insert_dom
    (fun e => devName c (cgroup2.Major e) (cgroup2.Minor e))) by eauto.
  by rewrite dom_empty_L, (left_id_L ∅ (∪)).
Qed.

(** X11. On cgroups v1, once the stats of a cgroup with a block-IO section
    are read, each of the four block-IO maps holds, for a device name, the
    value of the last entry of its list ([io_service_bytes] for bytes,
    [io_serviced] for requests) that has the map's operation ([Read] or
    [Write]) and resolves to that device name: entries of any other
    operation are ignored, and of several entries for one device the last
    one is kept, not their sum. *)
Theorem statsV1_blkio_last_entry_per_device
    (c : cgroupCollector) (h : host) (m m' : cgMetric)
    (ctrl : cgroup1.Cgroup) (stats : cgroup1.Metrics) (b : cgroup1.BlkIOStat)
    (dev : string) :
  cgroup1_Load h (path m) = Ok ctrl ->
  cgroup1.Stat ctrl = Ok (Some stats) ->
  cgroup1.Blkio stats = Some b ->
  statsV1 c h m = Ok m' ->
  let named (op : string) (e : cgroup1.BlkIOEntry) : Prop :=
    cgroup1.Op e = op /\ devName c (cgroup1.Major e) (cgroup1.Minor e) = dev in
  blkioReadBytes m' !! dev
  = lastEntry (named readOp) cgroup1.Value (cgroup1.IoServiceBytesRecursive b) /\
  blkioWriteBytes m' !! dev
  = lastEntry (named writeOp) cgroup1.Value (cgroup1.IoServiceBytesRecursive b) /\
  blkioReadReqs m' !! dev
  = lastEntry (named readOp) cgroup1.Value (cgroup1.IoServicedRecursive b) /\
  blkioWriteReqs m' !! dev
  = lastEntry (named writeOp) cgroup1.Value (cgroup1.IoServicedRecursive b).
Proof.
  intros Hl Hs Hb. unfold statsV1. rewrite Hl, Hs.
  destruct (countCPUs c h m) as [n| |]; simpl; [|done|done].
  intros [= <-]. simpl. rewrite Hb. by rewrite !blkioV1_lookup.
Qed.

Lemma statsV1_blkio_last_entry_per_device_witness :
  exists m',
    statsV1 (collectorOf libvirtLegacy ∅) vmHost vmMetric = Ok m' /\
    blkioReadBytes m' !! "sda" = Some 4096%float /\
    blkioWriteBytes m' !! "sda" = Some 512%float /\
    blkioReadBytes m' !! "" = Some 200%float /\
    blkioWriteBytes m' !! "" = None.
Proof.
  assert (Hs : exists m', statsV1 (collectorOf libvirtLegacy ∅) vmHost vmMetric = Ok m')
    by (eexists; vm_compute; reflexivity).
  destruct Hs as [m' Hs]. exists m'. split; [exact Hs|].
  pose proof (fun dev =>
    statsV1_blkio_last_entry_per_device (collectorOf libvirtLegacy ∅) vmHost
      vmMetric m' {| cgroup1.Stat := Ok (Some vmStats) |} vmStats vmBlkio dev
      eq_refl eq_refl eq_refl Hs) as H.
  cbv zeta in H.
  destruct (H "sda") as (Hr & Hw & _). destruct (H "") as (Hr0 & Hw0 & _).
  split; [|split; [|split]];
    (etrans; [first [exact Hr|exact Hw|exact Hr0|exact Hw0]|by vm_compute]).
Defined.

Lemma rdma_lookup {A : Type} (Device : A -> string) (val : A -> Z)
    (dev : string) (entries : list A) :
  foldl (fun m device => <[Device device := float64_of_uint64 (val device)]> m)
        (∅ : gmap string float64) entries !! dev
  = lastEntry (fun e => Device e = dev) val entries.
Proof.
  rewrite (foldl_insert_last Device val (fun _ => true)) by done.
  rewrite lookup_empty.
  rewrite (lastEntry_ext _ (fun e => Device e = dev)).
  - by destruct (lastEntry _ _ _).
  - intros a. tauto.
Qed.

Lemma rdma_dom {A : Type} (Device : A -> string) (val : A -> Z) (entries : list A) :
  dom (foldl (fun m device => <[Device device := float64_of_uint64 (val device)]> m)
             (∅ : gmap string float64) entries)
  = list_to_set (Device <$> entries).
Proof.
  rewrite (foldl_insert_dom Device) by eauto.
  by rewrite dom_empty_L, (left_id_L ∅ (∪)).
Qed.

(** X12. On cgroups v2, once the stats of a cgroup with an IO section are
    read, the four block-IO maps have the same keys, the device names of the
    [io.stat] entries, so that the loop of [Update] over the keys of
    [blkioReadBytes] reaches every device; each map holds for a device name
    the field of the last entry that resolves to it. *)
Theorem statsV2_blkio_maps_share_devices
    (c : cgroupCollector) (h : host) (m m' : cgMetric)
    (ctrl : cgroup2.Manager) (stats : cgroup2.Metrics) (io : cgroup2.IOStat) :
  cgroup2_Load h (path m) = Ok ctrl ->
  cgroup2.Stat ctrl = Ok (Some stats) ->
  cgroup2.Io stats = Some io ->
  statsV2 c h m = Ok m' ->
  let device (e : cgroup2.IOEntry) : string :=
    devName c (cgroup2.Major e) (cgroup2.Minor e) in
  dom (blkioReadBytes m') = list_to_set (device <$> cgroup2.io_Usage io) /\
  dom (blkioWriteBytes m') = dom (blkioReadBytes m') /\
  dom (blkioReadReqs m') = dom (blkioReadBytes m') /\
  dom (blkioWriteReqs m') = dom (blkioReadBytes m') /\
  forall dev,
    blkioReadBytes m' !! dev
    = lastEntry (fun e => device e = dev) cgroup2.Rbytes (cgroup2.io_Usage io) /\
    blkioWriteBytes m' !! dev
    = lastEntry (fun e => device e = dev) cgroup2.Wbytes (cgroup2.io_Usage io) /\
    blkioReadReqs m' !! dev
    = lastEntry (fun e => device e = dev) cgroup2.Rios (cgroup2.io_Usage io) /\
    blkioWriteReqs m' !! dev
    = lastEntry (fun e => device e = dev) cgroup2.Wios (cgroup2.io_Usage io).
Proof.
  intros Hl Hs Hio. unfold statsV2. rewrite Hl, Hs.
  destruct (countCPUs c h m) as [n| |]; simpl; [|done|done].
  intros [= <-]. simpl. rewrite Hio. rewrite !blkioV2_dom.
  repeat split; by rewrite blkioV2_lookup.
Qed.

Lemma statsV2_blkio_maps_share_devices_witness :
  exists m',
    statsV2 (collectorOf slurmUnified ∅) (job42Host "0-3") job42Metric = Ok m' /\
    dom (blkioReadBytes m') = {[ "sda" ]} /\
    dom (blkioWriteBytes m') = dom (blkioReadBytes m') /\
    blkioReadBytes m' !! "sda" = Some 4096%float /\
    blkioWriteBytes m' !! "sda" = Some 0%float.
Proof.
  assert (Hs : exists m', statsV2 (collectorOf slurmUnified ∅) (job42Host "0-3")
                                  job42Metric = Ok m')
    by (eexists; vm_compute; reflexivity).
  destruct Hs as [m' Hs]. exists m'. split; [exact Hs|].
  destruct (statsV2_blkio_maps_share_devices (collectorOf slurmUnified ∅)
              (job42Host "0-3") job42Metric m'
              {| cgroup2.Stat := Ok (Some job42Stats) |} job42Stats
              {| cgroup2.io_Usage :=
                   [ {| cgroup2.Major := 8; cgroup2.Minor := 0;
                        cgroup2.Rbytes := 4096; cgroup2.Wbytes := 0;
                        cgroup2.Rios := 1; cgroup2.Wios := 0 |} ];
                 cgroup2.io_PSI := None |}
              eq_refl eq_refl eq_refl Hs)
    as (Hd & Hdw & _ & _ & Hv).
  destruct (Hv "sda") as (Hr & Hw & _).
  split; [|split; [exact Hdw|split]].
  - rewrite Hd. by vm_compute.
  - etrans; [exact Hr|by vm_compute].
  - etrans; [exact Hw|by vm_compute].
Defined.

(** X13. In both cgroup modes, once the stats of a cgroup with an RDMA
    section are read, [rdmaHCAHandles] and [rdmaHCAObjects] have the same
    keys, the device names of the section's entries, and hold for a device
    the handle count and the object count of the last entry with that
    name. *)
Theorem update_rdma_maps_share_devices
    (c : cgroupCollector) (h : host) (m m' : cgMetric) :
  update c h m = Ok m' ->
  (mode (cgManager c) = Unified ->
   forall ctrl stats r,
     cgroup2_Load h (path m) = Ok ctrl -> cgroup2.Stat ctrl = Ok (Some stats) ->
     cgroup2.Rdma stats = Some r ->
     dom (rdmaHCAHandles m') = list_to_set (cgroup2.Device <$> cgroup2.Current r) /\
     dom (rdmaHCAObjects m') = dom (rdmaHCAHandles m') /\
     forall dev,
       rdmaHCAHandles m' !! dev
       = lastEntry (fun e => cgroup2.Device e = dev) cgroup2.HcaHandles
                   (cgroup2.Current r) /\
       rdmaHCAObjects m' !! dev
       = lastEntry (fun e => cgroup2.Device e = dev) cgroup2.HcaObjects
                   (cgroup2.Current r)) /\
  (mode (cgManager c) <> Unified ->
   forall ctrl stats r,
     cgroup1_Load h (path m) = Ok ctrl -> cgroup1.Stat ctrl = Ok (Some stats) ->
     cgroup1.Rdma stats = Some r ->
     dom (rdmaHCAHandles m') = list_to_set (cgroup1.Device <$> cgroup1.Current r) /\
     dom (rdmaHCAObjects m') = dom (rdmaHCAHandles m') /\
     forall dev,
       rdmaHCAHandles m' !! dev
       = lastEntry (fun e => cgroup1.Device e = dev) cgroup1.HcaHandles
                   (cgroup1.Current r) /\
       rdmaHCAObjects m' !! dev
       = lastEntry (fun e => cgroup1.Device e = dev) cgroup1.HcaObjects
                   (cgroup1.Current r)).
Proof.
  intros Hu. split; intros Hmode ctrl stats r Hl Hs Hr; revert Hu; unfold update.
  - rewrite decide_True by done. unfold statsV2. rewrite Hl, Hs.
    destruct (countCPUs c h m) as [n| |]; simpl; [|done|done].
    intros [= <-]. simpl. rewrite Hr.
    rewrite (rdma_dom cgroup2.Device cgroup2.HcaHandles),
            (rdma_dom cgroup2.Device cgroup2.HcaObjects).
    repeat split.
    + apply (rdma_lookup cgroup2.Device cgroup2.HcaHandles).
    + apply (rdma_lookup cgroup2.Device cgroup2.HcaObjects).
  - rewrite decide_False by done. unfold statsV1. rewrite Hl, Hs.
    destruct (countCPUs c h m) as [n| |]; simpl; [|done|done].
    intros [= <-]. simpl. rewrite Hr.
    rewrite (rdma_dom cgroup1.Device cgroup1.HcaHandles),
            (rdma_dom cgroup1.Device cgroup1.HcaObjects).
    repeat split.
    + apply (rdma_lookup cgroup1.Device cgroup1.HcaHandles).
    + apply (rdma_lookup cgroup1.Device cgroup1.HcaObjects).
Qed.

Lemma update_rdma_maps_share_devices_witness :
  exists m',
    update (collectorOf slurmUnified ∅) (job42Host "0-3") job42Metric = Ok m' /\
    dom (rdmaHCAObjects m') = dom (rdmaHCAHandles m') /\
    rdmaHCAHandles m' !! "mlx5_0" = Some 2%float /\
    rdmaHCAObjects m' !! "mlx5_0" = Some 7%float.
Proof.
  assert (Hs : exists m', update (collectorOf slurmUnified ∅) (job42Host "0-3")
                                 job42Metric = Ok m')
    by (eexists; vm_compute; reflexivity).
  destruct Hs as [m' Hs]. exists m'. split; [exact Hs|].
  destruct (proj1 (update_rdma_maps_share_devices (collectorOf slurmUnified ∅)
                     (job42Host "0-3") job42Metric m' Hs)
              eq_refl {| cgroup2.Stat := Ok (Some job42Stats) |} job42Stats
              {| cgroup2.Current :=
                   [ {| cgroup2.Device := "mlx5_0"; cgroup2.HcaHandles := 2;
                        cgroup2.HcaObjects := 7 |} ] |}
              eq_refl eq_refl eq_refl)
    as (_ & Hd & Hv).
  destruct (Hv "mlx5_0") as (Hh & Ho).
  split; [exact Hd|]. split; (etrans; [first [exact Hh|exact Ho]|by vm_compute]).
Defined.

(** ** What [update] leaves alone *)

Lemma update_identity (c : cgroupCollector) (h : host) (m m' : cgMetric) :
  update c h m = Ok m' -> path m' = path m /\ uuid m' = uuid m.
Proof.
  unfold update, statsV1, statsV2. destruct (decide _) as [_|_].
  - destruct (cgroup2_Load h (path m)) as [ctrl|?|]; [|by intros [= <-]|done].
    destruct (cgroup2.Stat ctrl) as [[stats|]|?|]; try (by intros [= <-]).
    destruct (countCPUs c h m) as [n| |]; simpl; [|done|done]. by intros [= <-].
  - destruct (cgroup1_Load h (path m)) as [ctrl|?|]; [|by intros [= <-]|done].
    destruct (cgroup1.Stat ctrl) as [[stats|]|?|]; try (by intros [= <-]).
    destruct (countCPUs c h m) as [n| |]; simpl; [|done|done]. by intros [= <-].
Qed.

Lemma doUpdate_identity (c : cgroupCollector) (h : host) (ms ms' : list cgMetric) :
  doUpdate c h ms = Ok ms' ->
  Forall2 (fun m m' => update c h m = Ok m' /\
                       path m' = path m /\ uuid m' = uuid m) ms ms'.
Proof.
  revert ms'. induction ms as [|m ms IH]; intros ms'; simpl.
  - intros [= <-]. constructor.
  - destruct (update c h m) as [m1| |] eqn:Hu; simpl; [|done|done].
    destruct (doUpdate c h ms) as [rest| |]; simpl; [|done|done].
    intros [= <-]. constructor; [|by apply IH]. split; [done|].
    by apply (update_identity c h).
Qed.

(** X9. [update] never changes the identity of a metric, its [path] and
    [uuid], whether the read succeeds or fails; [doUpdate] therefore returns
    as many metrics as it was given, the i-th one being the i-th input
    updated, with the same [path] and [uuid]. *)
Theorem update_keeps_path_and_uuid (c : cgroupCollector) (h : host) :
  (forall m m', update c h m = Ok m' -> path m' = path m /\ uuid m' = uuid m) /\
  (forall ms ms', doUpdate c h ms = Ok ms' ->
     length ms' = length ms /\
     Forall2 (fun m m' => update c h m = Ok m' /\
                          path m' = path m /\ uuid m' = uuid m) ms ms').
Proof.
  split; [apply update_identity|]. intros ms ms' Hdo.
  pose proof (doUpdate_identity c h ms ms' Hdo) as Hf2.
  split; [|done]. symmetry. by eapply Forall2_length.
Qed.

(** X10. [statsV1] never writes a pressure field: [cpuPressure],
    [memoryPressure] and [blkioPressure] keep the values they had, cgroups
    v1 having no PSI; [statsV2] never writes [memswFailCount], cgroups v2
    having no swap failure count. For a metric made for a discovered unit
    these fields are therefore zero after the read, whatever the cgroup
    holds. *)
Theorem stats_fields_never_written (c : cgroupCollector) (h : host) :
  (forall m m', statsV1 c h m = Ok m' ->
     cpuPressure m' = cpuPressure m /\ memoryPressure m' = memoryPressure m /\
     blkioPressure m' = blkioPressure m) /\
  (forall m m', statsV2 c h m = Ok m' -> memswFailCount m' = memswFailCount m) /\
  (forall p u m', mode (cgManager c) <> Unified ->
     update c h (newMetric p u) = Ok m' ->
     cpuPressure m' = 0%float /\ memoryPressure m' = 0%float /\
     blkioPressure m' = 0%float) /\
  (forall p u m', mode (cgManager c) = Unified ->
     update c h (newMetric p u) = Ok m' -> memswFailCount m' = 0%float).
Proof.
  assert (H1 : forall m m', statsV1 c h m = Ok m' ->
     cpuPressure m' = cpuPressure m /\ memoryPressure m' = memoryPressure m /\
     blkioPressure m' = blkioPressure m).
  { intros m m'. unfold statsV1.
    destruct (cgroup1_Load h (path m)) as [ctrl|?|]; [|by intros [= <-]|done].
    destruct (cgroup1.Stat ctrl) as [[stats|]|?|]; try (by intros [= <-]).
    destruct (countCPUs c h m) as [n| |]; simpl; [|done|done]. by intros [= <-]. }
  assert (H2 : forall m m', statsV2 c h m = Ok m' ->
                            memswFailCount m' = memswFailCount m).
  { intros m m'. unfold statsV2.
    destruct (cgroup2_Load h (path m)) as [ctrl|?|]; [|by intros [= <-]|done].
    destruct (cgroup2.Stat ctrl) as [[stats|]|?|]; try (by intros [= <-]).
    destruct (countCPUs c h m) as [n| |]; simpl; [|done|done]. by intros [= <-]. }
  split; [done|]. split; [done|]. split.
  - intros p u m' Hmode. unfold update. rewrite decide_False by done.
    intros Hs. by apply H1 in Hs.
  - intros p u m' Hmode. unfold update. rewrite decide_True by done.
    intros Hs. by apply H2 in Hs.
Qed.

(** ** The samples [Update] sends *)

Ltac counter_iff :=
  split; [intros ?; first [done|by left|by right]|by intros [?|?]].

(** Every sample of the loop over the metrics: its descriptor is one the
    options enable, its value type is that of a counter for the two CPU
    times only, and its labels are the manager, the host name and the
    metric's [uuid], followed by a device for a per-device descriptor. *)
Lemma sendMetrics_inv (c : cgroupCollector) (m : cgMetric) (s : Metric) :
  s ∈ sendMetrics c m ->
  enabled (opts c) (desc s) = true /\
  (valueType s = CounterValue <-> desc s = cgCPUUser \/ desc s = cgCPUSystem) /\
  exists rest,
    labelValues s = manager (cgManager c) :: hostname c :: uuid m :: rest /\
    length rest = if perDevice (desc s) then 1%nat else 0%nat.
Proof.
  assert (Hdev : forall d values device,
            enabled (opts c) d = true -> perDevice d = true ->
            d <> cgCPUUser -> d <> cgCPUSystem ->
            s ∈ sendDevice c m d values device ->
            enabled (opts c) (desc s) = true /\
            (valueType s = CounterValue <-> desc s = cgCPUUser \/ desc s = cgCPUSystem) /\
            exists rest,
              labelValues s = manager (cgManager c) :: hostname c :: uuid m :: rest /\
              length rest = if perDevice (desc s) then 1%nat else 0%nat).
  { intros d values device He Hp H1 H2 Hs.
    apply sendDevice_elem in Hs as (-> & _ & _). simpl. rewrite Hp.
    split; [done|]. split; [|by exists [device]].
    split; [done|]. by intros [?|?]. }
  unfold sendMetrics. intros Hs.
  repeat (apply elem_of_app in Hs as [Hs|Hs]).
  - destruct (err m); [|by apply elem_of_nil in Hs].
    apply list_elem_of_singleton in Hs as ->. simpl.
    split; [done|]. split; [|by exists []]. counter_iff.
  - repeat (apply elem_of_cons in Hs as [->|Hs];
            [simpl; split; [done|]; split; [|by exists []]; counter_iff|]).
    by apply elem_of_nil in Hs.
  - destruct (collectSwapMemStats (opts c)) eqn:Hsw; [|by apply elem_of_nil in Hs].
    repeat (apply elem_of_cons in Hs as [->|Hs];
            [simpl; split; [done|]; split; [|by exists []]; counter_iff|]).
    by apply elem_of_nil in Hs.
  - destruct (collectBlockIOStats (opts c)) eqn:Hio; [|by apply elem_of_nil in Hs].
    apply list_elem_of_In, in_flat_map in Hs as (device & _ & Hs).
    apply list_elem_of_In in Hs.
    repeat (apply elem_of_app in Hs as [Hs|Hs]);
      by eapply Hdev; [..|exact Hs].
  - destruct (collectPSIStats (opts c)) eqn:Hpsi; [|by apply elem_of_nil in Hs].
    repeat (apply elem_of_cons in Hs as [->|Hs];
            [simpl; split; [done|]; split; [|by exists []]; counter_iff|]).
    by apply elem_of_nil in Hs.
  - apply list_elem_of_In, in_flat_map in Hs as ([device handles] & _ & Hs).
    apply list_elem_of_In in Hs.
    destruct (positive handles); [|by apply elem_of_nil in Hs].
    apply list_elem_of_singleton in Hs as ->. simpl.
    split; [done|]. split; [|by exists [device]]. counter_iff.
  - apply list_elem_of_In, in_flat_map in Hs as ([device objects] & _ & Hs).
    apply list_elem_of_In in Hs.
    destruct (positive objects); [|by apply elem_of_nil in Hs].
    apply list_elem_of_singleton in Hs as ->. simpl.
    split; [done|]. split; [|by exists [device]]. counter_iff.
Qed.

Lemma map_keys_elem (M : gmap string float64) (dev : string) :
  dev ∈ (map_to_list M).*1 <-> is_Some (M !! dev).
Proof.
  rewrite list_elem_of_fmap. split.
  - intros ([k v] & -> & Hin). apply elem_of_map_to_list in Hin. by exists v.
  - intros [v Hv]. exists (dev, v). split; [done|]. by apply elem_of_map_to_list.
Qed.

Lemma sendDevice_iff (c : cgroupCollector) (m : cgMetric) (d d' : Desc)
    (values : gmap string float64) (device dev : string) (v : float64) :
  MustNewConstMetric d GaugeValue v
    [manager (cgManager c); hostname c; uuid m; dev]
    ∈ sendDevice c m d' values device
  <-> d = d' /\ dev = device /\ values !! device = Some v /\ positive v = true.
Proof.
  split.
  - intros Hs. apply sendDevice_elem in Hs as (Heq & Hv & Hp). simpl in Hv, Hp.
    by injection Heq as -> ->.
  - intros (-> & -> & Hv & Hp). unfold sendDevice. rewrite Hv, Hp.
    by apply list_elem_of_singleton.
Qed.

(** The per-device samples of the loop over the metrics. *)
Lemma sendMetrics_device_iff (c : cgroupCollector) (m : cgMetric) (d : Desc)
    (dev : string) (v : float64) :
  MustNewConstMetric d GaugeValue v
    [manager (cgManager c); hostname c; uuid m; dev] ∈ sendMetrics c m
  <-> deviceSampleSent c m d dev v.
Proof.
  unfold sendMetrics, deviceSampleSent. rewrite !elem_of_app. split.
  - intros [Hs|[Hs|[Hs|[Hs|[Hs|[Hs|Hs]]]]]].
    + destruct (err m); [|by apply elem_of_nil in Hs].
      by apply list_elem_of_singleton in Hs.
    + repeat (apply elem_of_cons in Hs as [Hs|Hs]; [discriminate|]).
      by apply elem_of_nil in Hs.
    + destruct (collectSwapMemStats (opts c)); [|by apply elem_of_nil in Hs].
      repeat (apply elem_of_cons in Hs as [Hs|Hs]; [discriminate|]).
      by apply elem_of_nil in Hs.
    + destruct (collectBlockIOStats (opts c)); [|by apply elem_of_nil in Hs].
      apply list_elem_of_In, in_flat_map in Hs as (device & Hk & Hs).
      apply list_elem_of_In in Hs, Hk. apply map_keys_elem in Hk.
      rewrite !elem_of_app, !sendDevice_iff in Hs.
      destruct Hs as [Hs|[Hs|[Hs|Hs]]]; destruct Hs as (-> & -> & Hv & Hp); done.
    + destruct (collectPSIStats (opts c)); [|by apply elem_of_nil in Hs].
      repeat (apply elem_of_cons in Hs as [Hs|Hs]; [discriminate|]).
      by apply elem_of_nil in Hs.
    + apply list_elem_of_In, in_flat_map in Hs as ([device handles] & Hin & Hs).
      apply list_elem_of_In in Hs, Hin. apply elem_of_map_to_list in Hin.
      destruct (positive handles) eqn:Hp; [|by apply elem_of_nil in Hs].
      apply list_elem_of_singleton in Hs. by injection Hs as -> -> ->.
    + apply list_elem_of_In, in_flat_map in Hs as ([device objects] & Hin & Hs).
      apply list_elem_of_In in Hs, Hin. apply elem_of_map_to_list in Hin.
      destruct (positive objects) eqn:Hp; [|by apply elem_of_nil in Hs].
      apply list_elem_of_singleton in Hs. by injection Hs as -> -> ->.
  - intros [Hp Hd].
    assert (Hblk : forall d', d = d' ->
              collectBlockIOStats (opts c) = true ->
              is_Some (blkioReadBytes m !! dev) ->
              (d' = cgBlkioReadBytes /\ blkioReadBytes m !! dev = Some v) \/
              (d' = cgBlkioWriteBytes /\ blkioWriteBytes m !! dev = Some v) \/
              (d' = cgBlkioReadReqs /\ blkioReadReqs m !! dev = Some v) \/
              (d' = cgBlkioWriteReqs /\ blkioWriteReqs m !! dev = Some v) ->
              MustNewConstMetric d GaugeValue v
                [manager (cgManager c); hostname c; uuid m; dev]
              ∈ (if collectBlockIOStats (opts c)
                 then flat_map
                        (fun device =>
                           sendDevice c m cgBlkioReadBytes (blkioReadBytes m) device
                           ++ sendDevice c m cgBlkioWriteBytes (blkioWriteBytes m) device
                           ++ sendDevice c m cgBlkioReadReqs (blkioReadReqs m) device
                           ++ sendDevice c m cgBlkioWriteReqs (blkioWriteReqs m) device)
                        (map_to_list (blkioReadBytes m)).*1
                 else [])).
    { intros d' -> -> Hk Hcase. apply list_elem_of_In, in_flat_map.
      exists dev. split; [by apply list_elem_of_In, map_keys_elem|].
      apply list_elem_of_In. rewrite !elem_of_app, !sendDevice_iff.
      destruct Hcase as [[-> Hv]|[[-> Hv]|[[-> Hv]|[-> Hv]]]]; tauto. }
    destruct d; try done.
    + destruct Hd as (Hf & Hk & Hv). do 3 right. left. apply (Hblk _ eq_refl Hf Hk). tauto.
    + destruct Hd as (Hf & Hk & Hv). do 3 right. left. apply (Hblk _ eq_refl Hf Hk). tauto.
    + destruct Hd as (Hf & Hk & Hv). do 3 right. left. apply (Hblk _ eq_refl Hf Hk). tauto.
    + destruct Hd as (Hf & Hk & Hv). do 3 right. left. apply (Hblk _ eq_refl Hf Hk). tauto.
    + do 5 right. left. apply list_elem_of_In, in_flat_map. exists (dev, v).
      split; [by apply list_elem_of_In, elem_of_map_to_list|].
      rewrite Hp. by apply list_elem_of_In, list_elem_of_singleton.
    + do 6 right. apply list_elem_of_In, in_flat_map. exists (dev, v).
      split; [by apply list_elem_of_In, elem_of_map_to_list|].
      rewrite Hp. by apply list_elem_of_In, list_elem_of_singleton.
Qed.

Lemma Update_sent_elem (c : cgroupCollector) (h : host) (ms ms' : list cgMetric)
    (sent : list Metric) (s : Metric) :
  doUpdate c h ms = Ok ms' -> Update c h ms = Ok sent ->
  s ∈ sent <->
  s = MustNewConstMetric numCgs GaugeValue
        (float64_of_int (Z.of_nat (length ms')))
        [manager (cgManager c); hostname c] \/
  exists m', m' ∈ ms' /\ s ∈ sendMetrics c m'.
Proof.
  intros Hdo (ms'' & Hdo' & ->)%Update_Ok. rewrite Hdo in Hdo'.
  injection Hdo' as <-. rewrite elem_of_cons. apply or_iff_compat_l.
  rewrite list_elem_of_In, in_flat_map. split.
  - intros (m' & Hm & Hs). exists m'. by split; apply list_elem_of_In.
  - intros (m' & Hm & Hs). exists m'. by split; apply list_elem_of_In.
Qed.

Lemma Update_doUpdate (c : cgroupCollector) (h : host) (ms : list cgMetric)
    (sent : list Metric) :
  Update c h ms = Ok sent -> exists ms', doUpdate c h ms = Ok ms'.
Proof. intros (ms' & Hdo & _)%Update_Ok. eauto. Qed.

(** X14. [Update] sends the sample of a block-IO descriptor for a device of
    a unit exactly when block-IO collection is on, the device is a key of the
    unit's [blkioReadBytes], and the descriptor's own map holds a positive
    value for it, which is the sample's value: a device that has write
    entries but no read entry gets no sample at all. It sends the sample of
    an RDMA descriptor exactly when [rdmaHCAHandles] holds a positive value
    for the device. No other descriptor is sent with a device label. *)
Theorem Update_device_sample_iff
    (c : cgroupCollector) (h : host) (ms : list cgMetric) (sent : list Metric) :
  Update c h ms = Ok sent ->
  exists ms', doUpdate c h ms = Ok ms' /\
    forall d u dev v,
      MustNewConstMetric d GaugeValue v
        [manager (cgManager c); hostname c; u; dev] ∈ sent
      <-> exists m', m' ∈ ms' /\ uuid m' = u /\ deviceSampleSent c m' d dev v.
Proof.
  intros Hu. destruct (Update_doUpdate c h ms sent Hu) as [ms' Hdo].
  exists ms'. split; [done|]. intros d u dev v.
  rewrite (Update_sent_elem c h ms ms' sent _ Hdo Hu). split.
  - intros [Heq|(m' & Hm & Hs)]; [discriminate|].
    pose proof Hs as Hs'. apply sendMetrics_inv in Hs' as (_ & _ & rest & Hl & _).
    simpl in Hl. injection Hl as -> _. exists m'. split; [done|]. split; [done|].
    by apply sendMetrics_device_iff.
  - intros (m' & Hm & <- & Hd). right. exists m'. split; [done|].
    by apply sendMetrics_device_iff.
Qed.

Lemma Update_device_sample_iff_witness :
  exists sent,
    Update (collectorOf slurmUnified ∅) (job42Host "0-3") [job42Metric] = Ok sent /\
    MustNewConstMetric cgBlkioReadBytes GaugeValue 4096%float
      ["slurm"; "node1"; "42"; "sda"] ∈ sent /\
    (MustNewConstMetric cgBlkioWriteBytes GaugeValue 0%float
       ["slurm"; "node1"; "42"; "sda"] ∈ sent -> False).
Proof.
  assert (Hu : exists sent, Update (collectorOf slurmUnified ∅) (job42Host "0-3")
                                   [job42Metric] = Ok sent)
    by (eexists; vm_compute; reflexivity).
  destruct Hu as [sent Hu]. exists sent. split; [exact Hu|].
  destruct (Update_device_sample_iff (collectorOf slurmUnified ∅) (job42Host "0-3")
              [job42Metric] sent Hu) as (ms' & Hdo & Hiff).
  vm_compute in Hdo. injection Hdo as <-. split.
  - apply (Hiff cgBlkioReadBytes "42" "sda" 4096%float).
    eexists. split; [apply list_elem_of_here|]. split; [reflexivity|].
    split; [by vm_compute|]. split; [reflexivity|]. split; [|by vm_compute].
    eexists. by vm_compute.
  - intros Hin. apply (Hiff cgBlkioWriteBytes "42" "sda" 0%float) in Hin
      as (m' & _ & _ & Hp & _). vm_compute in Hp. discriminate.
Defined.

(** X15. Which families [Update] sends follows the options: every sample
    other than the unit count has a descriptor the options enable (swap
    samples only with [collectSwapMemStats], block-IO samples only with
    [collectBlockIOStats], pressure samples only with [collectPSIStats]), and
    the descriptor [cgBlkioPressure] is never sent, although [statsV2] fills
    [blkioPressure]. With [collectSwapMemStats] the three swap samples of
    every unit are sent, and with [collectPSIStats] its CPU and memory
    pressure samples, whatever their values. *)
Theorem Update_families_follow_options
    (c : cgroupCollector) (h : host) (ms : list cgMetric) (sent : list Metric) :
  Update c h ms = Ok sent ->
  exists ms', doUpdate c h ms = Ok ms' /\
    (forall s, s ∈ sent -> desc s = numCgs \/ enabled (opts c) (desc s) = true) /\
    (forall s, s ∈ sent -> desc s <> cgBlkioPressure) /\
    (collectSwapMemStats (opts c) = true ->
     forall m' s, m' ∈ ms' -> s ∈ swapSamples c m' -> s ∈ sent) /\
    (collectPSIStats (opts c) = true ->
     forall m' s, m' ∈ ms' -> s ∈ pressureSamples c m' -> s ∈ sent).
Proof.
  intros Hu. destruct (Update_doUpdate c h ms sent Hu) as [ms' Hdo].
  exists ms'. split; [done|].
  assert (Hen : forall s, s ∈ sent ->
                          desc s = numCgs \/ enabled (opts c) (desc s) = true).
  { intros s [->|(m' & _ & Hs)]%(Update_sent_elem c h ms ms' sent _ Hdo Hu);
      [by left|right]. by apply sendMetrics_inv in Hs as (? & _). }
  split; [done|]. split; [|split].
  - intros s Hs Hd. destruct (Hen s Hs) as [He|He]; rewrite Hd in He; done.
  - intros Hsw m' s Hm Hs. apply (Update_sent_elem c h ms ms' sent _ Hdo Hu).
    right. exists m'. split; [done|]. unfold sendMetrics. rewrite Hsw.
    apply elem_of_app. right. apply elem_of_app. right. apply elem_of_app. by left.
  - intros Hpsi m' s Hm Hs. apply (Update_sent_elem c h ms ms' sent _ Hdo Hu).
    right. exists m'. split; [done|]. unfold sendMetrics. rewrite Hpsi.
    do 4 (apply elem_of_app; right). apply elem_of_app. by left.
Qed.

Lemma Update_families_follow_options_witness :
  exists sent,
    Update (collectorOf slurmUnified ∅) (job42Host "0-3") [job42Metric] = Ok sent /\
    MustNewConstMetric cgMemswUsed GaugeValue 0%float ["slurm"; "node1"; "42"] ∈ sent /\
    Forall (fun s => desc s = numCgs \/
                     enabled (opts (collectorOf slurmUnified ∅)) (desc s) = true) sent.
Proof.
  assert (Hu : exists sent, Update (collectorOf slurmUnified ∅) (job42Host "0-3")
                                   [job42Metric] = Ok sent)
    by (eexists; vm_compute; reflexivity).
  destruct Hu as [sent Hu]. exists sent. split; [exact Hu|].
  destruct (Update_families_follow_options (collectorOf slurmUnified ∅)
              (job42Host "0-3") [job42Metric] sent Hu)
    as (ms' & Hdo & Hen & _ & Hsw & _).
  vm_compute in Hdo. injection Hdo as <-. split.
  - eapply (Hsw eq_refl); [apply list_elem_of_here|]. apply list_elem_of_here.
  - apply Forall_forall. exact Hen.
Defined.

(** X16. Every sample [Update] sends has as many label values as its
    descriptor was created with variable labels in [NewCgroupCollector], so
    that [MustNewConstMetric] never panics; the two CPU times are the only
    samples sent as counters. *)
Theorem Update_labels_match_descriptor
    (c : cgroupCollector) (h : host) (ms : list cgMetric) (sent : list Metric)
    (s : Metric) :
  Update c h ms = Ok sent -> s ∈ sent ->
  length (labelValues s) = length (variableLabels (desc s)) /\
  (valueType s = CounterValue <-> desc s = cgCPUUser \/ desc s = cgCPUSystem).
Proof.
  intros Hu Hs. destruct (Update_doUpdate c h ms sent Hu) as [ms' Hdo].
  destruct (proj1 (Update_sent_elem c h ms ms' sent s Hdo Hu) Hs)
    as [->|(m' & _ & Hs')].
  - simpl. split; [done|]. counter_iff.
  - apply sendMetrics_inv in Hs' as (Hen & Hvt & rest & -> & Hlen).
    split; [|done]. simpl. rewrite Hlen.
    destruct (desc s); try done; simpl in Hen; done.
Qed.

Lemma Update_labels_match_descriptor_witness :
  length ["slurm"; "node1"; "42"; "sda"] = length (variableLabels cgBlkioReadBytes).
Proof.
  assert (Hu : exists sent, Update (collectorOf slurmUnified ∅) (job42Host "0-3")
                                   [job42Metric] = Ok sent /\
                            MustNewConstMetric cgBlkioReadBytes GaugeValue 4096%float
                              ["slurm"; "node1"; "42"; "sda"] ∈ sent).
  { eexists. split; [vm_compute; reflexivity|].
    repeat (first [by apply list_elem_of_here | apply list_elem_of_further]). }
  destruct Hu as (sent & Hu & Hin).
  exact (proj1 (Update_labels_match_descriptor (collectorOf slurmUnified ∅)
                  (job42Host "0-3") [job42Metric] sent _ Hu Hin)).
Defined.

(** X17. The first sample [Update] sends is the unit count, with the
    manager and the host name as labels and the number of metrics it was
    given as value, whether their reads failed or not; it is the only sample
    of that descriptor, and every other sample carries the manager, the host
    name and the [uuid] of one of the metrics given. *)
Theorem Update_unit_count_first
    (c : cgroupCollector) (h : host) (ms : list cgMetric) (sent : list Metric) :
  Update c h ms = Ok sent ->
  exists rest,
    sent = MustNewConstMetric numCgs GaugeValue
             (float64_of_int (Z.of_nat (length ms)))
             [manager (cgManager c); hostname c] :: rest /\
    forall s, s ∈ rest ->
      desc s <> numCgs /\
      exists m labels, m ∈ ms /\
        labelValues s = manager (cgManager c) :: hostname c :: uuid m :: labels.
Proof.
  intros (ms' & Hdo & ->)%Update_Ok.
  pose proof (doUpdate_identity c h ms ms' Hdo) as Hf2.
  rewrite <- (Forall2_length _ _ _ Hf2). eexists. split; [reflexivity|].
  intros s (m' & Hm & Hs)%list_elem_of_In%in_flat_map.
  apply list_elem_of_In in Hm, Hs.
  apply sendMetrics_inv in Hs as (Hen & _ & rest & Hl & _). split.
  - intros Hd. by rewrite Hd in Hen.
  - apply list_elem_of_lookup in Hm as [i Hi].
    destruct (Forall2_lookup_r _ _ _ _ _ Hf2 Hi) as (m & Hmi & _ & _ & Huuid).
    exists m, rest. split; [by eapply list_elem_of_lookup_2|]. by rewrite <- Huuid.
Qed.

Lemma Update_unit_count_first_witness :
  exists rest,
    Update (collectorOf slurmUnified ∅) removedHost [job42Metric; job42Metric]
    = Ok (MustNewConstMetric numCgs GaugeValue 2%float ["slurm"; "node1"] :: rest).
Proof.
  assert (Hu : exists sent, Update (collectorOf slurmUnified ∅) removedHost
                                   [job42Metric; job42Metric] = Ok sent)
    by (eexists; vm_compute; reflexivity).
  destruct Hu as [sent Hu].
  destruct (Update_unit_count_first (collectorOf slurmUnified ∅) removedHost
              [job42Metric; job42Metric] sent Hu) as (rest & Hsent & _).
  exists rest. rewrite Hu, Hsent. reflexivity.
Defined.

(** ** [parseCgroupSubSysIds] *)

Lemma scanSubSys_Returned (lines : list string) (idx : Z)
    (ctrls res : list cgroupController) (err : option string) :
  scanSubSys lines idx ctrls = Returned res err ->
  res = ctrls ++ controllersFrom idx lines.
Proof.
  revert idx ctrls. induction lines as [|line lines IH]; intros idx ctrls; simpl.
  - intros [= <- _]. by rewrite app_nil_r.
  - unfold controllerOf. destruct (cgroupSubSysCount <=? idx).
    + destruct (strings_Fields line); [done|]. intros [= <- _]. by rewrite app_nil_r.
    + destruct (strings_Fields line) as [|f0 [|f1 fs]]; [done|done|].
      intros Hs. rewrite (IH _ _ Hs).
      destruct (strconv_ParseUint32 f1); simpl; by rewrite <- ?app_assoc.
Qed.

Lemma controllersFrom_elem (idx : Z) (lines : list string) (c : cgroupController) :
  0 <= idx -> c ∈ controllersFrom idx lines ->
  idx <= ctrl_idx c < cgroupSubSysCount /\
  exists line, lines !! Z.to_nat (ctrl_idx c - idx) = Some line /\
               controllerOf (ctrl_idx c) line = Some c.
Proof.
  revert idx. induction lines as [|line lines IH]; intros idx Hidx; simpl.
  - by intros ?%elem_of_nil.
  - destruct (Z.leb_spec cgroupSubSysCount idx) as [|Hlt]; [by intros ?%elem_of_nil|].
    intros [Hc|Hc]%elem_of_app.
    + destruct (controllerOf idx line) as [c0|] eqn:Hc0; [|by apply elem_of_nil in Hc].
      apply list_elem_of_singleton in Hc as ->.
      assert (Hi : ctrl_idx c0 = idx).
      { revert Hc0. unfold controllerOf.
        destruct (strings_Fields line) as [|f0 [|f1 fs]]; try done.
        destruct (strconv_ParseUint32 f1); try done. by intros [= <-]. }
      rewrite Hi. split; [lia|]. exists line. by rewrite Z.sub_diag.
    + destruct (IH (idx + 1) ltac:(lia) Hc) as (Hb & line' & Hl & Hc').
      split; [lia|]. exists line'. split; [|done].
      replace (Z.to_nat (ctrl_idx c - idx)) with (S (Z.to_nat (ctrl_idx c - (idx + 1))))
        by lia. done.
Qed.

Lemma controllersFrom_increasing (idx : Z) (lines : list string)
    (i j : nat) (c c' : cgroupController) :
  0 <= idx -> (i < j)%nat ->
  controllersFrom idx lines !! i = Some c ->
  controllersFrom idx lines !! j = Some c' ->
  ctrl_idx c < ctrl_idx c'.
Proof.
  revert idx i j. induction lines as [|line lines IH]; intros idx i j Hidx Hij; simpl.
  - by rewrite lookup_nil.
  - destruct (Z.leb_spec cgroupSubSysCount idx) as [|Hlt]; [by rewrite lookup_nil|].
    destruct (controllerOf idx line) as [c0|] eqn:Hc0; simpl;
      [|apply IH; [lia|done]].
    assert (Hi : ctrl_idx c0 = idx).
    { revert Hc0. unfold controllerOf.
      destruct (strings_Fields line) as [|f0 [|f1 fs]]; try done.
      destruct (strconv_ParseUint32 f1); try done. by intros [= <-]. }
    destruct j as [|j]; [lia|]. destruct i as [|i]; simpl.
    + intros [= <-] Hj. apply list_elem_of_lookup_2 in Hj.
      destruct (controllersFrom_elem (idx + 1) lines c' ltac:(lia) Hj) as [? _]. lia.
    + apply IH; [lia|lia].
Qed.

Lemma controllersFrom_length (idx : Z) (lines : list string) :
  0 <= idx ->
  (Z.of_nat (length (controllersFrom idx lines)) <= Z.max 0 (cgroupSubSysCount - idx)).
Proof.
  revert idx. induction lines as [|line lines IH]; intros idx Hidx; simpl; [lia|].
  destruct (Z.leb_spec cgroupSubSysCount idx) as [|Hlt]; simpl; [lia|].
  rewrite length_app. specialize (IH (idx + 1) ltac:(lia)).
  destruct (controllerOf idx line); simpl; lia.
Qed.

Lemma strconv_ParseUint32_range (s : string) (n : Z) :
  strconv_ParseUint32 s = Ok n -> 0 <= n <= MaxUint32.
Proof.
  unfold strconv_ParseUint32. destruct s as [|c s]; [done|].
  destruct (digits 0 (String c s)) as [v|] eqn:Hd; [|done].
  destruct (Z.leb_spec v MaxUint32); [|done]. intros [= <-]. split; [|done].
  assert (Hpos : forall t acc v', 0 <= acc -> digits acc t = Some v' -> 0 <= v').
  { induction t as [|a t IH]; intros acc v' Hacc; simpl; [by intros [= <-]|].
    destruct (digit a) as [x|] eqn:Hx; [|done]. apply IH.
    unfold digit in Hx. destruct (_ && _) eqn:Hr; [|done]. injection Hx as <-.
    apply andb_prop in Hr as [?%Z.leb_le _]. lia. }
  by apply (Hpos (String c s) 0 v).
Qed.

(** X18. Whatever [/proc/cgroups] holds, the controllers that
    [parseCgroupSubSysIds] returns (with or without an error) number at most
    [cgroupSubSysCount]; each is active, has a hierarchy ID that fits 32 bits
    and an index below [cgroupSubSysCount] which is the position of its line
    after the header (lines whose ID does not parse are skipped but counted),
    its name and ID being the first two fields of that line; and the indices
    are strictly increasing. *)
Theorem parseCgroupSubSysIds_indices_bounded
    (h : host) (procCgroups data : string)
    (ctrls : list cgroupController) (err : option string) :
  files h !! procCgroups = Some (Content data) ->
  parseCgroupSubSysIds h procCgroups = Returned ctrls err ->
  (length ctrls <= Z.to_nat cgroupSubSysCount)%nat /\
  (forall i j c c', (i < j)%nat -> ctrls !! i = Some c -> ctrls !! j = Some c' ->
                    ctrl_idx c < ctrl_idx c') /\
  forall c, c ∈ ctrls ->
    0 <= ctrl_idx c < cgroupSubSysCount /\
    0 <= ctrl_id c <= MaxUint32 /\ ctrl_active c = true /\
    exists line f0 f1 rest,
      subsysLines data !! Z.to_nat (ctrl_idx c) = Some line /\
      strings_Fields line = f0 :: f1 :: rest /\
      ctrl_name c = f0 /\ strconv_ParseUint32 f1 = Ok (ctrl_id c).
Proof.
  intros Hf. unfold parseCgroupSubSysIds. rewrite Hf.
  intros ->%scanSubSys_Returned. simpl. fold (subsysLines data).
  split; [|split].
  - pose proof (controllersFrom_length 0 (subsysLines data) ltac:(lia)).
    unfold cgroupSubSysCount in *. lia.
  - intros i j c c'. by apply controllersFrom_increasing.
  - intros c Hc.
    destruct (controllersFrom_elem 0 _ c ltac:(lia) Hc) as (Hb & line & Hl & Hc').
    rewrite Z.sub_0_r in Hl. split; [lia|]. revert Hc'. unfold controllerOf.
    destruct (strings_Fields line) as [|f0 [|f1 fs]] eqn:Hfs; try done.
    destruct (strconv_ParseUint32 f1) as [id| |] eqn:Hp; try done.
    intros [= <-]. simpl. split; [by apply (strconv_ParseUint32_range f1)|].
    split; [done|]. exists line, f0, f1, fs. done.
Qed.

Lemma parseCgroupSubSysIds_indices_bounded_witness :
  exists ctrls,
    parseCgroupSubSysIds (procHost procCgroupsFile) "/proc/cgroups"
    = Returned ctrls None /\
    ctrl_name <$> ctrls = ["cpuset"; "cpu"; "cpuacct"; "blkio"; "memory"] /\
    ctrl_id <$> ctrls = [8; 3; 3; 6; 2] /\
    ctrl_idx <$> ctrls = [0; 1; 2; 3; 4] /\
    (length ctrls <= Z.to_nat cgroupSubSysCount)%nat.
Proof.
  eexists. split; [vm_compute; reflexivity|].
  split; [reflexivity|]. split; [reflexivity|]. split; [reflexivity|].
  match goal with
  | |- (length ?ctrls <= _)%nat =>
      exact (proj1 (parseCgroupSubSysIds_indices_bounded
                      (procHost procCgroupsFile) "/proc/cgroups"
                      procCgroupsFile ctrls None eq_refl eq_refl))
  end.
Defined.

Lemma scanSubSys_well_formed (lines : list string) (idx : Z)
    (ctrls : list cgroupController) :
  0 <= idx <= cgroupSubSysCount ->
  Forall twoFields (take (Z.to_nat (cgroupSubSysCount - idx)) lines) ->
  scanSubSys lines idx ctrls =
    match lines !! Z.to_nat (cgroupSubSysCount - idx) with
    | None => Returned (ctrls ++ controllersFrom idx lines) None
    | Some line =>
        match strings_Fields line with
        | f0 :: _ => Returned (ctrls ++ controllersFrom idx lines)
                              (Some (subsysIndexError f0))
        | [] => Panicked "runtime error: index out of range [0] with length 0"
        end
    end.
Proof.
  revert idx ctrls. induction lines as [|line lines IH]; intros idx ctrls Hidx Hall.
  - simpl. by rewrite app_nil_r.
  - cbn [scanSubSys controllersFrom].
    destruct (Z.leb_spec cgroupSubSysCount idx) as [Hge|Hlt].
    + replace idx with cgroupSubSysCount by lia. rewrite Z.sub_diag. simpl.
      rewrite app_nil_r. by destruct (strings_Fields line).
    + replace (Z.to_nat (cgroupSubSysCount - idx))
        with (S (Z.to_nat (cgroupSubSysCount - (idx + 1)))) in * by lia.
      simpl in Hall. apply Forall_cons in Hall as [Hl Hall].
      unfold twoFields in Hl. unfold controllerOf.
      destruct (strings_Fields line) as [|f0 [|f1 fs]]; [simpl in Hl; lia..|].
      rewrite IH by (done || lia). simpl.
      destruct (lines !! _) as [l|]; [destruct (strings_Fields l)|];
        destruct (strconv_ParseUint32 f1); simpl; by rewrite <- ?app_assoc.
Qed.

Lemma scanSubSys_short_line (lines : list string) (idx : Z)
    (ctrls : list cgroupController) (i : nat) (line : string) :
  0 <= idx -> idx + Z.of_nat i < cgroupSubSysCount ->
  Forall twoFields (take i lines) ->
  lines !! i = Some line -> ~ twoFields line ->
  scanSubSys lines idx ctrls
  = Panicked ("runtime error: index out of range [1] with length "
              +:+ strconv_Itoa (Z.of_nat (length (strings_Fields line)))).
Proof.
  revert idx ctrls i. induction lines as [|l lines IH]; intros idx ctrls i Hidx Hi Hall;
    [by rewrite lookup_nil|].
  cbn [scanSubSys]. destruct (Z.leb_spec cgroupSubSysCount idx) as [|_]; [lia|].
  destruct i as [|i]; simpl.
  - intros [= ->] Hshort. unfold twoFields in Hshort.
    destruct (strings_Fields line) as [|f0 [|f1 fs]]; [done|done|]. simpl in Hshort. lia.
  - intros Hl Hshort. simpl in Hall. apply Forall_cons in Hall as [Hl0 Hall].
    unfold twoFields in Hl0.
    destruct (strings_Fields l) as [|f0 [|f1 fs]]; [simpl in Hl0; lia..|].
    apply (IH _ _ i); [lia|lia|done|done|done].
Qed.

(** X19. On a [/proc/cgroups] whose first [cgroupSubSysCount] lines after
    the header have at least two fields each, what [parseCgroupSubSysIds]
    does is decided by the next line, whatever follows it. Without such a
    line it returns the controllers of those lines and no error; with one
    that has a field it returns them together with an error that names the
    line's first field; and on one without any field (a blank line) it
    panics on [fields[0]] while building that error. *)
Theorem parseCgroupSubSysIds_sixteenth_line_is_an_error
    (h : host) (procCgroups data : string) :
  files h !! procCgroups = Some (Content data) ->
  Forall twoFields (take (Z.to_nat cgroupSubSysCount) (subsysLines data)) ->
  ((length (subsysLines data) <= Z.to_nat cgroupSubSysCount)%nat ->
   parseCgroupSubSysIds h procCgroups
   = Returned (controllersFrom 0 (subsysLines data)) None) /\
  (forall line name rest,
     subsysLines data !! Z.to_nat cgroupSubSysCount = Some line ->
     strings_Fields line = name :: rest ->
     parseCgroupSubSysIds h procCgroups
     = Returned (controllersFrom 0 (subsysLines data))
                (Some (subsysIndexError name))) /\
  (forall line,
     subsysLines data !! Z.to_nat cgroupSubSysCount = Some line ->
     strings_Fields line = [] ->
     parseCgroupSubSysIds h procCgroups
     = Panicked "runtime error: index out of range [0] with length 0").
Proof.
  intros Hf Hall. unfold parseCgroupSubSysIds. rewrite Hf. fold (subsysLines data).
  rewrite (scanSubSys_well_formed _ 0 []) by (done || (unfold cgroupSubSysCount; lia)).
  rewrite Z.sub_0_r. simpl. split; [|split].
  - intros Hlen. by rewrite (lookup_ge_None_2 _ _ Hlen).
  - by intros line name rest -> ->.
  - by intros line -> ->.
Qed.

Lemma parseCgroupSubSysIds_sixteenth_line_is_an_error_witness :
  exists ctrls,
    parseCgroupSubSysIds (procHost procCgroupsSixteen) "/proc/cgroups"
    = Returned ctrls
        (Some "cgroup default subsystem 'ctrl16' is indexed at idx=15 higher than CGROUP_SUBSYS_COUNT=15") /\
    length ctrls = 15%nat /\
    parseCgroupSubSysIds (procHost procCgroupsFile) "/proc/cgroups"
    = Returned (controllersFrom 0 (subsysLines procCgroupsFile)) None /\
    parseCgroupSubSysIds (procHost procCgroupsFifteenBlank) "/proc/cgroups"
    = Panicked "runtime error: index out of range [0] with length 0".
Proof.
  exists (controllersFrom 0 (subsysLines procCgroupsSixteen)). split; [|split; [|split]].
  - apply (proj1 (proj2 (parseCgroupSubSysIds_sixteenth_line_is_an_error
                    (procHost procCgroupsSixteen) "/proc/cgroups" procCgroupsSixteen
                    eq_refl ltac:(repeat constructor)))
             "ctrl16 16 1 1" "ctrl16" ["16"; "1"; "1"]); reflexivity.
  - reflexivity.
  - apply (proj1 (parseCgroupSubSysIds_sixteenth_line_is_an_error
                    (procHost procCgroupsFile) "/proc/cgroups" procCgroupsFile
                    eq_refl ltac:(repeat constructor))).
    vm_compute. lia.
  - apply (proj2 (proj2 (parseCgroupSubSysIds_sixteenth_line_is_an_error
                    (procHost procCgroupsFifteenBlank) "/proc/cgroups"
                    procCgroupsFifteenBlank
                    eq_refl ltac:(repeat constructor)))
             ""); reflexivity.
Defined.

(** X20. A line of [/proc/cgroups] with fewer than two fields (a blank
    line, for one) among the first [cgroupSubSysCount] after the header makes
    [parseCgroupSubSysIds] panic on [fields[1]]: it returns neither the
    controllers read so far nor an error. *)
Theorem parseCgroupSubSysIds_short_line_panics
    (h : host) (procCgroups data : string) (i : nat) (line : string) :
  files h !! procCgroups = Some (Content data) ->
  Z.of_nat i < cgroupSubSysCount ->
  Forall twoFields (take i (subsysLines data)) ->
  subsysLines data !! i = Some line ->
  ~ twoFields line ->
  parseCgroupSubSysIds h procCgroups
  = Panicked ("runtime error: index out of range [1] with length "
              +:+ strconv_Itoa (Z.of_nat (length (strings_Fields line)))).
Proof.
  intros Hf Hi Hall Hl Hshort. unfold parseCgroupSubSysIds. rewrite Hf.
  fold (subsysLines data). by apply (scanSubSys_short_line _ 0 [] i line).
Qed.

Lemma parseCgroupSubSysIds_short_line_panics_witness :
  parseCgroupSubSysIds (procHost procCgroupsBlank) "/proc/cgroups"
  = Panicked "runtime error: index out of range [1] with length 0".
Proof.
  apply (parseCgroupSubSysIds_short_line_panics (procHost procCgroupsBlank)
           "/proc/cgroups" procCgroupsBlank 1 "").
  - reflexivity.
  - by vm_compute.
  - repeat constructor.
  - reflexivity.
  - vm_compute. lia.
Defined.

(** ** Decimal numbers and separators *)

Lemma string_app_cons (c : ascii) (s t : string) :
  String c s +:+ t = String c (s +:+ t).
Proof. reflexivity. Qed.

Lemma string_app_nil_l (t : string) : "" +:+ t = t.
Proof. reflexivity. Qed.

Lemma string_app_assoc (s1 s2 s3 : string) :
  (s1 +:+ s2) +:+ s3 = s1 +:+ (s2 +:+ s3).
Proof.
  induction s1 as [|c s1 IH]; [done|]. rewrite !string_app_cons. by rewrite IH.
Qed.

Lemma pretty_N_go_app (x : N) (s : string) :
  pretty_N_go x s = pretty_N_go x "" +:+ s.
Proof.
  revert s. induction (N.lt_wf_0 x) as [x _ IH]; intros s.
  destruct (decide (x = 0)%N) as [->|Hx]; [by rewrite !pretty_N_go_0|].
  rewrite (pretty_N_go_step x s), (pretty_N_go_step x "") by lia.
  rewrite (IH (x `div` 10)%N) by (apply N.div_lt; lia).
  rewrite (IH (x `div` 10)%N ltac:(apply N.div_lt; lia) (String _ "")).
  by rewrite string_app_assoc.
Qed.

Lemma digits_app (acc : Z) (s1 s2 : string) :
  digits acc (s1 +:+ s2) = digits acc s1 ≫= fun acc' => digits acc' s2.
Proof.
  revert acc. induction s1 as [|c s1 IH]; intros acc; [done|].
  rewrite string_app_cons. simpl. destruct (digit c); [apply IH|done].
Qed.

Lemma digit_pretty_N_char (d : N) :
  (d < 10)%N -> digit (pretty_N_char d) = Some (Z.of_N d).
Proof.
  intros Hd.
  assert (d = 0 \/ d = 1 \/ d = 2 \/ d = 3 \/ d = 4 \/ d = 5 \/ d = 6 \/ d = 7
          \/ d = 8 \/ d = 9)%N as H by lia.
  repeat (destruct H as [->|H]; [reflexivity|]). by rewrite H.
Qed.

Lemma digits_pretty_N_go (x : N) : digits 0 (pretty_N_go x "") = Some (Z.of_N x).
Proof.
  induction (N.lt_wf_0 x) as [x _ IH].
  destruct (decide (x = 0)%N) as [->|Hx]; [done|].
  rewrite pretty_N_go_step, pretty_N_go_app, digits_app by lia.
  rewrite IH by (apply N.div_lt; lia). simpl.
  rewrite digit_pretty_N_char by (apply N.mod_lt; lia). f_equal.
  pose proof (N.div_mod x 10 ltac:(lia)). lia.
Qed.

Lemma pretty_N_go_nonempty (x : N) : (0 < x)%N -> pretty_N_go x "" <> "".
Proof.
  intros Hx. rewrite pretty_N_go_step, pretty_N_go_app by done.
  destruct (pretty_N_go _ ""); [by rewrite string_app_nil_l|by rewrite string_app_cons].
Qed.

(** The decimal text of a natural number: digits only, and at least one. *)
Lemma digits_Itoa (n : Z) :
  0 <= n -> digits 0 (strconv_Itoa n) = Some n /\ strconv_Itoa n <> "".
Proof.
  intros Hn. unfold strconv_Itoa, pretty, pretty_Z.
  destruct n as [|p|p]; [done| |lia].
  unfold pretty, pretty_positive, pretty, pretty_N.
  rewrite decide_False by done. split.
  - by rewrite digits_pretty_N_go.
  - by apply pretty_N_go_nonempty.
Qed.

Lemma digits_lacks (sep : ascii) (s : string) (acc v : Z) :
  digit sep = None -> digits acc s = Some v -> lacks sep s = true.
Proof.
  intros Hsep. revert acc. induction s as [|c s IH]; intros acc; simpl; [done|].
  destruct (digit c) as [x|] eqn:Hc; [|done]. intros Hd.
  rewrite (IH _ Hd), andb_true_r.
  destruct (Ascii.eqb_spec c sep) as [->|]; [congruence|done].
Qed.

Lemma lacks_app (sep : ascii) (s1 s2 : string) :
  lacks sep (s1 +:+ s2) = lacks sep s1 && lacks sep s2.
Proof.
  induction s1 as [|c s1 IH]; [done|]. rewrite string_app_cons. simpl.
  by rewrite IH, andb_assoc.
Qed.

Lemma strings_Split_lacks (sep : ascii) (s : string) :
  lacks sep s = true -> strings_Split s sep = [s].
Proof.
  induction s as [|c s IH]; simpl; [done|].
  intros [Hc Hs]%andb_prop. apply negb_true_iff in Hc. rewrite Hc.
  by rewrite (IH Hs).
Qed.

Lemma strings_Split_app (sep : ascii) (s rest : string) :
  lacks sep s = true ->
  strings_Split (s +:+ String sep rest) sep = s :: strings_Split rest sep.
Proof.
  induction s as [|c s IH].
  - intros _. rewrite string_app_nil_l. simpl. by rewrite Ascii.eqb_refl.
  - intros [Hc Hs]%andb_prop. apply negb_true_iff in Hc.
    rewrite string_app_cons. simpl. rewrite Hc. by rewrite (IH Hs).
Qed.

Lemma strings_Split_concat (sep : ascii) (pieces : list string) :
  pieces <> [] -> Forall (fun p => lacks sep p = true) pieces ->
  strings_Split (String.concat (String sep "") pieces) sep = pieces.
Proof.
  induction pieces as [|p pieces IH]; [done|]. intros _ Hall.
  apply Forall_cons in Hall as [Hp Hall]. destruct pieces as [|q pieces].
  - simpl. by apply strings_Split_lacks.
  - cbn [String.concat]. rewrite string_app_cons, string_app_nil_l.
    rewrite strings_Split_app by done. f_equal. by apply IH.
Qed.

(** [strconv.Atoi] undoes [strconv.Itoa] on every [int]. *)
Lemma strconv_Atoi_Itoa (n : Z) :
  MinInt64 <= n <= MaxInt64 -> strconv_Atoi (strconv_Itoa n) = Ok n.
Proof.
  intros Hn. destruct (Z.le_gt_cases 0 n) as [Hpos|Hneg].
  - destruct (digits_Itoa n Hpos) as [Hd Hne]. unfold strconv_Atoi.
    destruct (strconv_Itoa n) as [|c s] eqn:Hs; [done|].
    assert (Hc : exists x, digit c = Some x).
    { simpl in Hd. destruct (digit c); [eauto|done]. }
    destruct Hc as [x Hc].
    destruct (Ascii.eqb_spec c "+") as [->|_]; [done|].
    destruct (Ascii.eqb_spec c "-") as [->|_]; [done|].
    cbv beta iota zeta. rewrite Hd.
    destruct (Z.leb_spec MinInt64 n), (Z.leb_spec n MaxInt64); simpl; try lia. done.
  - destruct n as [|p|p]; [lia|lia|]. unfold strconv_Itoa, pretty, pretty_Z.
    destruct (digits_Itoa (Z.pos p) ltac:(lia)) as [Hd Hne].
    unfold strconv_Itoa, pretty, pretty_Z in Hd, Hne.
    unfold strconv_Atoi. rewrite string_app_cons, string_app_nil_l. simpl.
    destruct (pretty p) as [|c s] eqn:Hs; [done|]. rewrite Hd.
    destruct (Z.leb_spec MinInt64 (- Z.pos p)), (Z.leb_spec (- Z.pos p) MaxInt64);
      simpl; try lia. done.
Qed.

Lemma strconv_Atoi_returns (s : string) : strconv_Atoi s <> Hang.
Proof.
  unfold strconv_Atoi. destruct s as [|c s]; [done|].
  destruct (Ascii.eqb c "+"); [|destruct (Ascii.eqb c "-")]; cbv beta iota zeta.
  - destruct s as [|c' s']; [done|].
    destruct (digits 0 (String c' s')); [|done]. by destruct (_ && _).
  - destruct s as [|c' s']; [done|].
    destruct (digits 0 (String c' s')); [|done]. by destruct (_ && _).
  - destruct (digits 0 (String c s)); [|done]. by destruct (_ && _).
Qed.

(** ** [parseCPUSet] *)

Lemma cpuRange_Itoa (lo hi : Z) :
  0 <= lo <= MaxInt64 -> 0 <= hi <= MaxInt64 ->
  cpuRange (formatRange (lo, hi)) = Some (lo, hi).
Proof.
  intros Hlo Hhi. unfold formatRange, cpuRange. simpl.
  destruct (digits_Itoa lo ltac:(lia)) as [Hdl _].
  destruct (digits_Itoa hi ltac:(lia)) as [Hdh _].
  pose proof (digits_lacks "-" _ _ _ eq_refl Hdl) as Hll.
  pose proof (digits_lacks "-" _ _ _ eq_refl Hdh) as Hlh.
  destruct (Z.eqb_spec lo hi) as [->|Hne].
  - rewrite strings_Split_lacks by done.
    rewrite strconv_Atoi_Itoa by (unfold MinInt64; lia). done.
  - change (strconv_Itoa lo +:+ "-" +:+ strconv_Itoa hi)
      with (strconv_Itoa lo +:+ String "-" (strconv_Itoa hi)).
    rewrite strings_Split_app, strings_Split_lacks by done.
    rewrite !strconv_Atoi_Itoa by (unfold MinInt64; lia). done.
Qed.

Lemma formatRange_lacks_comma (lo hi : Z) :
  0 <= lo -> 0 <= hi -> lacks "," (formatRange (lo, hi)) = true.
Proof.
  intros Hlo Hhi. unfold formatRange. simpl.
  destruct (digits_Itoa lo Hlo) as [Hdl _].
  destruct (digits_Itoa hi Hhi) as [Hdh _].
  pose proof (digits_lacks "," _ _ _ eq_refl Hdl) as Hll.
  pose proof (digits_lacks "," _ _ _ eq_refl Hdh) as Hlh.
  destruct (lo =? hi); [done|]. rewrite !lacks_app, Hll, Hlh. done.
Qed.

Lemma trimSuffixLF_app (s : string) : trimSuffixLF (s +:+ String LF "") = s.
Proof.
  induction s as [|c s IH]; [done|].
  rewrite string_app_cons. cbn [trimSuffixLF]. rewrite IH.
  destruct s; [done|]. by rewrite string_app_cons.
Qed.

Lemma cpusetRanges_format (ranges : list (Z * Z)) :
  ranges <> [] ->
  Forall (fun r => 0 <= r.1 <= MaxInt64 /\ 0 <= r.2 <= MaxInt64) ranges ->
  formatCPUSet ranges <> "" /\ cpusetRanges (formatCPUSet ranges) = Some ranges.
Proof.
  intros Hne Hall. split.
  - destruct ranges as [|[lo hi] rest]; [done|].
    apply Forall_cons in Hall as [[Hlo Hhi] _]. simpl in Hlo, Hhi.
    unfold formatCPUSet. cbn [fmap list_fmap String.concat].
    assert (Hf : formatRange (lo, hi) <> "").
    { unfold formatRange. simpl. destruct (digits_Itoa lo ltac:(lia)) as [_ Hn].
      destruct (lo =? hi); [done|]. by destruct (strconv_Itoa lo). }
    destruct (formatRange <$> rest); [done|]. by destruct (formatRange (lo, hi)).
  - unfold cpusetRanges, formatCPUSet. rewrite strings_Split_concat.
    + clear Hne. induction Hall as [|[lo hi] rest [Hlo Hhi] Hall IH]; [done|].
      cbn [fmap list_fmap mapM]. rewrite cpuRange_Itoa by done. simpl.
      by rewrite IH.
    + by destruct ranges.
    + apply Forall_fmap. eapply Forall_impl; [exact Hall|].
      intros [lo hi] [Hlo Hhi]. apply formatRange_lacks_comma; simpl in *; lia.
Qed.

(** X21. A cpuset file in the kernel's list format (CPU numbers and ranges
    [lo-hi] with [0 <= lo <= hi] and [hi] below the largest [int], separated
    by commas and ended by one newline) is read back in full: [getCPUs] returns
    the decimal text of every CPU of every range, in order, and [countCPUs]
    their number. *)
Theorem getCPUs_reads_kernel_list_format
    (c : cgroupCollector) (h : host) (metric : cgMetric) (ranges : list (Z * Z)) :
  ranges <> [] ->
  Forall (fun r => 0 <= r.1 <= r.2 /\ r.2 < MaxInt64) ranges ->
  files h !! cpusPath c h (path metric)
  = Some (Content (formatCPUSet ranges +:+ String LF "")) ->
  parseCPUSet (formatCPUSet ranges) = Ok (strconv_Itoa <$> expansion ranges) /\
  getCPUs c h (path metric) = Ok (strconv_Itoa <$> expansion ranges) /\
  countCPUs c h metric = Ok (Z.of_nat (length (expansion ranges))).
Proof.
  intros Hne Hall Hf.
  destruct (cpusetRanges_format ranges Hne) as [Hs Hr].
  { eapply Forall_impl; [exact Hall|]. intros [lo hi]; simpl.
    unfold MaxInt64. lia. }
  assert (Hb : Forall (fun r : Z * Z => r.2 < MaxInt64) ranges).
  { eapply Forall_impl; [exact Hall|]. intros [lo hi]; simpl. lia. }
  assert (Hg : getCPUs c h (path metric) = Ok (strconv_Itoa <$> expansion ranges)).
  { apply (getCPUs_expansion c h _ (formatCPUSet ranges +:+ String LF ""));
      rewrite ?trimSuffixLF_app; done. }
  split; [|split; [done|]].
  - unfold parseCPUSet. destruct (String.eqb_spec (formatCPUSet ranges) ""); [done|].
    by apply (parseRanges_expansion _ ranges).
  - unfold countCPUs. by rewrite Hg, length_fmap.
Qed.

Lemma getCPUs_reads_kernel_list_format_witness :
  formatCPUSet [(0, 3); (7, 7); (9, 11)] = "0-3,7,9-11" /\
  getCPUs (collectorOf slurmUnified ∅) (job42Host "0-3,7,9-11") (path job42Metric)
  = Ok ["0"; "1"; "2"; "3"; "7"; "9"; "10"; "11"] /\
  countCPUs (collectorOf slurmUnified ∅) (job42Host "0-3,7,9-11") job42Metric = Ok 8.
Proof.
  split; [reflexivity|].
  destruct (getCPUs_reads_kernel_list_format (collectorOf slurmUnified ∅)
              (job42Host "0-3,7,9-11") job42Metric [(0, 3); (7, 7); (9, 11)])
    as (_ & Hg & Hc).
  - discriminate.
  - repeat constructor; simpl; unfold MaxInt64; lia.
  - reflexivity.
  - split; [exact Hg|exact Hc].
Defined.

(** The loop over the ranges after a well-formed prefix. *)
Lemma parseRanges_app (l1 rest : list string) (ranges : list (Z * Z))
    (start end_ : Z) (cpus : list string) :
  mapM cpuRange l1 = Some ranges ->
  Forall (fun r => r.2 < MaxInt64) ranges ->
  parseRanges (l1 ++ rest) start end_ cpus
  = parseRanges rest (default (start, end_) (last ranges)).1
                     (default (start, end_) (last ranges)).2
                     (cpus ++ (strconv_Itoa <$> expansion ranges)).
Proof.
  revert ranges start end_ cpus.
  induction l1 as [|r l1 IH]; intros ranges start end_ cpus Hm Hb.
  - injection Hm as <-. simpl. by rewrite app_nil_r.
  - simpl in Hm. destruct (cpuRange r) as [[lo hi]|] eqn:Hr; [|done].
    simpl in Hm. destruct (mapM cpuRange l1) as [ranges'|] eqn:Hrs; [|done].
    injection Hm as <-. apply Forall_cons in Hb as [Hhi Hb]. simpl in Hhi.
    cbn [app parseRanges]. rewrite (boundaries_cpuRange _ _ _ _ _ Hr). simpl.
    unfold expand. replace (hi =? MaxInt64) with false by (symmetry; apply Z.eqb_neq; lia).
    rewrite andb_false_r. simpl. rewrite (IH ranges') by done.
    unfold expansion. simpl. rewrite fmap_app, app_assoc.
    assert (Hlast : default (lo, hi) (last ranges')
                    = default (start, end_) (last ((lo, hi) :: ranges'))).
    { destruct ranges' as [|r' l]; [done|]. rewrite last_cons_cons.
      destruct (last (r' :: l)) eqn:Hl; [done|]. by apply last_None in Hl. }
    by rewrite Hlast.
Qed.

Lemma strings_Split_nonempty (s : string) (sep : ascii) : strings_Split s sep <> [].
Proof.
  destruct s as [|c s]; simpl; [done|].
  destruct (Ascii.eqb c sep); [done|]. by destruct (strings_Split s sep).
Qed.

(** X22. An entry that is not a number or a range of two numbers makes
    [parseCPUSet] fail, when it has at most one dash and follows well-formed
    entries: the call returns an error and none of the CPUs read before
    it. *)
Theorem parseCPUSet_malformed_entry_fails
    (s : string) (l1 l2 : list string) (r : string) (ranges : list (Z * Z)) :
  s <> "" ->
  strings_Split s "," = l1 ++ r :: l2 ->
  mapM cpuRange l1 = Some ranges ->
  Forall (fun r => r.2 < MaxInt64) ranges ->
  (length (strings_Split r "-") <= 2)%nat ->
  cpuRange r = None ->
  exists e, parseCPUSet s = Err e.
Proof.
  intros Hs Hsplit Hm Hb Hlen Hr. unfold parseCPUSet.
  destruct (String.eqb_spec s ""); [done|].
  rewrite Hsplit, (parseRanges_app l1 _ ranges) by done.
  cbn [parseRanges]. revert Hr. unfold cpuRange, boundaries.
  pose proof (strings_Split_nonempty r "-") as Hne.
  destruct (strings_Split r "-") as [|b0 [|b1 [|b2 bs]]];
    [done| | |simpl in Hlen; lia].
  - pose proof (strconv_Atoi_returns b0).
    destruct (strconv_Atoi b0); [done|simpl; eauto|done].
  - pose proof (strconv_Atoi_returns b0). pose proof (strconv_Atoi_returns b1).
    destruct (strconv_Atoi b0); [|simpl; eauto|done].
    destruct (strconv_Atoi b1); [done|simpl; eauto|done].
Qed.

Lemma parseCPUSet_malformed_entry_fails_witness :
  exists e, parseCPUSet "0-3,x,5" = Err e.
Proof.
  apply (parseCPUSet_malformed_entry_fails "0-3,x,5" ["0-3"] ["5"] "x" [(0, 3)]).
  - discriminate.
  - reflexivity.
  - reflexivity.
  - repeat constructor.
  - vm_compute. lia.
  - reflexivity.
Defined.

Lemma parseRanges_prefix (l1 x y : list string) :
  (forall start end_ cpus,
     parseRanges x start end_ cpus = parseRanges y start end_ cpus) ->
  forall start end_ cpus,
    parseRanges (l1 ++ x) start end_ cpus = parseRanges (l1 ++ y) start end_ cpus.
Proof.
  intros Hxy. induction l1 as [|r l1 IH]; intros start end_ cpus; [apply Hxy|].
  cbn [app parseRanges]. destruct (boundaries r start end_) as [[a b]| |]; simpl; try done.
  destruct (expand a b cpus); simpl; [apply IH|done|done].
Qed.

Lemma boundaries_independent (r : string) (start end_ start' end' : Z) :
  (length (strings_Split r "-") <= 2)%nat ->
  boundaries r start end_ = boundaries r start' end'.
Proof.
  unfold boundaries. pose proof (strings_Split_nonempty r "-") as Hne.
  destruct (strings_Split r "-") as [|b0 [|b1 [|b2 bs]]]; try done.
  simpl. lia.
Qed.

Lemma boundaries_extra_dash (r : string) (start end_ : Z) :
  (3 <= length (strings_Split r "-"))%nat ->
  boundaries r start end_ = Ok (start, end_).
Proof.
  unfold boundaries.
  destruct (strings_Split r "-") as [|b0 [|b1 [|b2 bs]]]; simpl; try lia. done.
Qed.

(** X23. An entry with two or more dashes is not rejected: [parseCPUSet]
    keeps the bounds of the entry before it and lists those CPUs once more,
    as if the previous entry were written twice; as the first entry it
    stands for CPU 0. *)
Theorem parseCPUSet_extra_dash_repeats_previous
    (s s' : string) (l1 l2 : list string) (r : string) :
  s <> "" -> s' <> "" ->
  (3 <= length (strings_Split r "-"))%nat ->
  (forall r0,
     strings_Split s "," = l1 ++ r0 :: r :: l2 ->
     strings_Split s' "," = l1 ++ r0 :: r0 :: l2 ->
     (length (strings_Split r0 "-") <= 2)%nat ->
     parseCPUSet s = parseCPUSet s') /\
  (strings_Split s "," = r :: l2 ->
   strings_Split s' "," = "0" :: l2 ->
   parseCPUSet s = parseCPUSet s').
Proof.
  intros Hs Hs' Hr. unfold parseCPUSet.
  destruct (String.eqb_spec s ""); [done|]. destruct (String.eqb_spec s' ""); [done|].
  split.
  - intros r0 -> -> Hr0. apply parseRanges_prefix. intros start end_ cpus.
    cbn [parseRanges].
    destruct (boundaries r0 start end_) as [[a b]| |] eqn:Hb0; simpl; try done.
    destruct (expand a b cpus) as [cpus'| |]; simpl; try done.
    rewrite (boundaries_extra_dash r a b Hr).
    rewrite (boundaries_independent r0 a b start end_ Hr0), Hb0. done.
  - intros -> ->. cbn [parseRanges]. by rewrite (boundaries_extra_dash r 0 0 Hr).
Qed.

Lemma parseCPUSet_extra_dash_repeats_previous_witness :
  parseCPUSet "0-1,1-2-3" = parseCPUSet "0-1,0-1" /\
  parseCPUSet "1-2-3,5" = parseCPUSet "0,5".
Proof.
  split.
  - apply (proj1 (parseCPUSet_extra_dash_repeats_previous "0-1,1-2-3" "0-1,0-1"
                    [] [] "1-2-3" ltac:(discriminate) ltac:(discriminate)
                    ltac:(vm_compute; lia)) "0-1"); [reflexivity|reflexivity|].
    vm_compute. lia.
  - apply (proj2 (parseCPUSet_extra_dash_repeats_previous "1-2-3,5" "0,5"
                    [] ["5"] "1-2-3" ltac:(discriminate) ltac:(discriminate)
                    ltac:(vm_compute; lia))); reflexivity.
Defined.

(** ** [NewCgroupCollector] and the device names *)

Lemma foldl_insert_lookup {A V : Type} (key : A -> string) (val : A -> V)
    (entries : list A) (m : gmap string V) (k : string) :
  foldl (fun m a => <[key a := val a]> m) m entries !! k
  = match last (filter (fun a => key a = k) entries) with
    | Some a => Some (val a)
    | None => m !! k
    end.
Proof.
  revert m. induction entries as [|a entries IH]; intros m; [done|].
  cbn [foldl]. rewrite IH, filter_cons.
  destruct (decide (key a = k)) as [<-|Hn].
  - destruct (filter _ entries) as [|b l] eqn:Hf; simpl.
    + by rewrite lookup_insert_eq.
    + destruct (last (b :: l)) eqn:Hl; [done|]. by apply last_None in Hl.
  - destruct (last (filter _ entries)); [done|]. by rewrite lookup_insert_ne.
Qed.

Lemma deviceKey_inj (a b a' b' : Z) :
  0 <= a -> 0 <= b -> 0 <= a' -> 0 <= b' ->
  strconv_Itoa a +:+ ":" +:+ strconv_Itoa b
  = strconv_Itoa a' +:+ ":" +:+ strconv_Itoa b' ->
  a = a' /\ b = b'.
Proof.
  intros Ha Hb Ha' Hb' Heq.
  assert (Hs : forall x y, 0 <= x -> 0 <= y ->
            strings_Split (strconv_Itoa x +:+ ":" +:+ strconv_Itoa y) ":"
            = [strconv_Itoa x; strconv_Itoa y]).
  { intros x y Hx Hy.
    destruct (digits_Itoa x Hx) as [Hdx _]. destruct (digits_Itoa y Hy) as [Hdy _].
    change (strconv_Itoa x +:+ ":" +:+ strconv_Itoa y)
      with (strconv_Itoa x +:+ String ":" (strconv_Itoa y)).
    rewrite strings_Split_app by (by eapply digits_lacks).
    rewrite strings_Split_lacks by (by eapply digits_lacks). done. }
  apply (f_equal (fun s => strings_Split s ":")) in Heq.
  rewrite !Hs in Heq by done. injection Heq as H1 H2.
  split; by apply (inj pretty).
Qed.

(** X24. The device names the collector reports come from
    [/proc/diskstats] as read once by [NewCgroupCollector]: the name used for
    a [major:minor] pair is that of the last listed device with that pair,
    and the empty string when no device has it or when the file could not
    be read. *)
Theorem NewCgroupCollector_device_names
    (cgManager' : cgroupManager) (opts' : cgroupOpts) (hostname' : string)
    (meminfo : outcome (gmap string float64)) (major minor : Z) :
  0 <= major -> 0 <= minor ->
  (forall stats,
     Forall (fun s => 0 <= MajorNumber s /\ 0 <= MinorNumber s) stats ->
     devName (NewCgroupCollector cgManager' opts' hostname' meminfo (Ok stats))
             major minor
     = default EmptyString
         (DeviceName <$>
          last (filter (fun s => MajorNumber s = major /\ MinorNumber s = minor)
                       stats))) /\
  (forall e,
     devName (NewCgroupCollector cgManager' opts' hostname' meminfo (Err e))
             major minor = EmptyString).
Proof.
  intros Hmaj Hmin. split; [|done].
  intros stats Hall. unfold devName, NewCgroupCollector. simpl.
  rewrite (foldl_insert_lookup
             (fun s => strconv_Itoa (MajorNumber s) +:+ ":"
                       +:+ strconv_Itoa (MinorNumber s)) DeviceName).
  rewrite lookup_empty.
  assert (Hf : filter (fun s => strconv_Itoa (MajorNumber s) +:+ ":"
                                +:+ strconv_Itoa (MinorNumber s)
                                = strconv_Itoa major +:+ ":" +:+ strconv_Itoa minor)
                      stats
               = filter (fun s => MajorNumber s = major /\ MinorNumber s = minor)
                        stats).
  { induction Hall as [|s stats [H1 H2] Hall IH]; [done|].
    rewrite !filter_cons, IH.
    destruct (decide (MajorNumber s = major /\ MinorNumber s = minor)) as [[<- <-]|Hn].
    - by rewrite decide_True.
    - rewrite decide_False; [done|]. intros Heq. apply Hn.
      by apply deviceKey_inj. }
  rewrite Hf. by destruct (last _).
Qed.

Lemma NewCgroupCollector_device_names_witness :
  devName (NewCgroupCollector slurmUnified
             {| collectSwapMemStats := false; collectBlockIOStats := true;
                collectPSIStats := false |}
             "node1" (Err "open /proc/meminfo: no such file or directory")
             (Ok nodeDisks)) 8 1
  = "sda1".
Proof.
  etrans;
    [apply (proj1 (NewCgroupCollector_device_names slurmUnified
                     {| collectSwapMemStats := false; collectBlockIOStats := true;
                        collectPSIStats := false |}
                     "node1" (Err "open /proc/meminfo: no such file or directory")
                     8 1 ltac:(lia) ltac:(lia)) nodeDisks);
     repeat constructor; simpl; lia|].
  reflexivity.
Defined.

(** ** The matcher, and the IDs the patterns give *)

Lemma string_length_app (s t : string) :
  String.length (s +:+ t) = (String.length s + String.length t)%nat.
Proof.
  induction s as [|c s IH]; [done|]. rewrite string_app_cons. simpl. by rewrite IH.
Qed.

Lemma regexp_take_app (t s : string) : regexp.take (String.length t) (t +:+ s) = t.
Proof.
  unfold regexp.take. induction t as [|c t IH].
  - rewrite string_app_nil_l. by destruct s.
  - rewrite string_app_cons. simpl. by rewrite IH.
Qed.

Lemma regexp_drop_app (t s : string) : regexp.drop (String.length t) (t +:+ s) = s.
Proof.
  unfold regexp.drop. rewrite string_length_app.
  replace (String.length t + String.length s - String.length t)%nat
    with (String.length s) by lia.
  induction t as [|c t IH].
  - rewrite string_app_nil_l. simpl.
    induction s as [|c s IHs]; [done|]. simpl. by rewrite IHs.
  - rewrite string_app_cons. simpl. exact IH.
Qed.

Lemma prefix_app (l s : string) :
  String.prefix l s = true -> exists s', s = l +:+ s'.
Proof.
  revert s. induction l as [|c l IH]; intros s.
  - intros _. by exists s.
  - destruct s as [|c' s]; simpl; [done|].
    destruct (Ascii.ascii_dec c c') as [->|]; [|done].
    intros [s' ->]%IH. by exists s'.
Qed.

Lemma repeat_greedy_sound {R : Type} (cls : ascii -> bool) (k : string -> option R)
    (min : nat) (s : string) (r : R) :
  regexp.repeat_greedy cls k min s = Some r ->
  exists t s', s = t +:+ s' /\ allb cls t = true /\ (min <= String.length t)%nat /\
               k s' = Some r.
Proof.
  revert min. induction s as [|c s IH]; intros min; simpl.
  - destruct min; [|done]. intros Hk. exists EmptyString, EmptyString. by repeat split.
  - assert (Hstop : match min with O => k (String c s) | S _ => None end = Some r ->
              exists t s', String c s = t +:+ s' /\ allb cls t = true /\
                           (min <= String.length t)%nat /\ k s' = Some r).
    { destruct min; [|done]. intros Hk. exists EmptyString, (String c s).
      by repeat split. }
    destruct (cls c) eqn:Hc; [|done].
    destruct (regexp.repeat_greedy cls k (Nat.pred min) s) as [r'|] eqn:Hg; [|done].
    intros [= <-]. destruct (IH _ Hg) as (t & s' & -> & Ht & Hlen & Hk).
    exists (String c t), s'. rewrite string_app_cons. simpl. rewrite Hc, Ht.
    repeat split; [lia|done].
Qed.

Lemma repeat_lazy_sound {R : Type} (cls : ascii -> bool) (k : string -> option R)
    (min : nat) (s : string) (r : R) :
  regexp.repeat_lazy cls k min s = Some r ->
  exists t s', s = t +:+ s' /\ allb cls t = true /\ (min <= String.length t)%nat /\
               k s' = Some r.
Proof.
  revert min. induction s as [|c s IH]; intros min; simpl.
  - destruct min; [|done]. destruct (k EmptyString) eqn:Hk; [|done].
    intros [= <-]. exists EmptyString, EmptyString. by repeat split.
  - destruct (match min with O => k (String c s) | S _ => None end) as [r'|] eqn:Hstop.
    + intros [= <-]. destruct min; [|done]. exists EmptyString, (String c s).
      by repeat split.
    + destruct (cls c) eqn:Hc; [|done]. intros Hg.
      destruct (IH _ Hg) as (t & s' & -> & Ht & Hlen & Hk).
      exists (String c t), s'. rewrite string_app_cons. simpl. rewrite Hc, Ht.
      repeat split; [lia|done].
Qed.

(** Every result of the matcher comes from a match. *)
Lemma run_sound {R : Type} (re : regexp.Regexp) (whole : nat) (s : string)
    (caps : gmap nat string) (k : string -> gmap nat string -> option R) (r : R) :
  regexp.run re whole s caps k = Some r ->
  exists s' caps', matchOf re whole s caps s' caps' /\ k s' caps' = Some r.
Proof.
  revert s caps k. induction re as [l|cls min g|r1 IH1 r2 IH2|r1 IH1 r2 IH2|n r0 IH| |];
    intros s caps k; simpl.
  - destruct (String.prefix l s) eqn:Hp; [|done].
    apply prefix_app in Hp as [s' ->]. rewrite regexp_drop_app.
    intros Hk. by exists s', caps.
  - intros Hr.
    assert (H : exists t s', s = t +:+ s' /\ allb cls t = true /\
                             (min <= String.length t)%nat /\ k s' caps = Some r).
    { destruct g; [by apply repeat_greedy_sound in Hr|by apply repeat_lazy_sound in Hr]. }
    destruct H as (t & s' & -> & Ht & Hlen & Hk). exists s', caps. eauto 10.
  - intros (s1 & caps1 & H1 & H2)%IH1. apply IH2 in H2 as (s' & caps' & H2 & Hk).
    exists s', caps'. eauto 10.
  - destruct (regexp.run r1 whole s caps k) as [r'|] eqn:H1.
    + intros [= <-]. apply IH1 in H1 as (s' & caps' & H1 & Hk). eauto 10.
    + intros (s' & caps' & H2 & Hk)%IH2. eauto 10.
  - intros (s' & caps1 & Hm & Hk)%IH. eauto 10.
  - destruct (Nat.eqb_spec (String.length s) whole); [|done]. intros Hk.
    exists s, caps. eauto.
  - destruct s; [|done]. intros Hk. exists EmptyString, caps. eauto.
Qed.

(** What [FindStringSubmatch] returns: nothing, or the groups of a match. *)
Lemma search_sound (re : regexp.Regexp) (whole : nat) (s : string) :
  regexp.search re whole s = [] \/
  exists s0 s' caps whole',
    matchOf re whole s0 ∅ s' caps /\
    regexp.search re whole s
    = whole' :: ((fun i => default EmptyString (caps !! i))
                 <$> seq 1 (regexp.NumSubexp re)).
Proof.
  induction s as [|c s IH]; simpl.
  - destruct (regexp.run re whole EmptyString ∅ _) as [[s' caps]|] eqn:Hr; [|by left].
    apply run_sound in Hr as (s1 & caps1 & Hm & [= <- <-]). right. eauto 10.
  - destruct (regexp.run re whole (String c s) ∅ _) as [[s' caps]|] eqn:Hr; [|done].
    apply run_sound in Hr as (s1 & caps1 & Hm & [= <- <-]). right. eauto 10.
Qed.

Lemma allb_impl (cls cls' : ascii -> bool) (s : string) :
  (forall c, cls c = true -> cls' c = true) -> allb cls s = true -> allb cls' s = true.
Proof.
  intros H. induction s as [|c s IH]; simpl; [done|].
  intros [Hc Hs]%andb_prop. by rewrite (H c Hc), IH.
Qed.

Lemma allb_app (cls : ascii -> bool) (s t : string) :
  allb cls (s +:+ t) = allb cls s && allb cls t.
Proof.
  induction s as [|c s IH]; [done|]. rewrite string_app_cons. simpl.
  by rewrite IH, andb_assoc.
Qed.

Lemma strings_TrimSpace_no_space (s : string) :
  allb (fun c => negb (isSpace c)) s = true -> strings_TrimSpace s = s.
Proof.
  intros Hs. unfold strings_TrimSpace.
  assert (Hl : trimLeft s = s).
  { destruct s as [|c s]; [done|]. simpl in *.
    apply andb_prop in Hs as [Hc _]. apply negb_true_iff in Hc. by rewrite Hc. }
  rewrite Hl. induction s as [|c s IH]; [done|]. simpl in *.
  apply andb_prop in Hs as [Hc Hs]. apply negb_true_iff in Hc.
  rewrite IH; [|done|by destruct s as [|c' s]; [|simpl in *;
    apply andb_prop in Hs as [Hc' _]; apply negb_true_iff in Hc'; rewrite Hc']].
  destruct s; [by rewrite Hc|done].
Qed.

Lemma digit09_no_space (c : ascii) : regexp.digit09 c = true -> negb (isSpace c) = true.
Proof.
  unfold regexp.digit09, isSpace. intros [H1 H2]%andb_prop.
  apply Nat.leb_le in H1, H2. apply negb_true_iff, orb_false_iff. split.
  - apply andb_false_iff. right. apply Nat.leb_gt. lia.
  - apply Nat.eqb_neq. lia.
Qed.

Lemma hex09af_no_space (c : ascii) : regexp.hex09af c = true -> negb (isSpace c) = true.
Proof.
  unfold regexp.hex09af. intros [H|H]%orb_prop; [by apply digit09_no_space|].
  unfold isSpace. apply andb_prop in H as [H1 H2].
  apply Nat.leb_le in H1, H2. apply negb_true_iff, orb_false_iff. split.
  - apply andb_false_iff. right. apply Nat.leb_gt. lia.
  - apply Nat.eqb_neq. lia.
Qed.

Lemma captured_text (t s' : string) :
  regexp.take (String.length (t +:+ s') - String.length s') (t +:+ s') = t.
Proof.
  rewrite string_length_app.
  replace (String.length t + String.length s' - String.length s')%nat
    with (String.length t) by lia.
  apply regexp_take_app.
Qed.

(** The first group of the Slurm pattern is a non-empty run of digits. *)
Lemma slurmCgroupPathRegex_group (p : string) :
  regexp.FindStringSubmatch slurmCgroupPathRegex p = [] \/
  exists whole id,
    regexp.FindStringSubmatch slurmCgroupPathRegex p = [whole; id] /\
    id <> EmptyString /\ allb regexp.digit09 id = true.
Proof.
  unfold regexp.FindStringSubmatch.
  destruct (search_sound slurmCgroupPathRegex (String.length p) p)
    as [H|(s0 & s' & caps & whole' & Hm & ->)]; [by left|right].
  simpl in Hm.
  destruct Hm as (s1 & c1 & (_ & -> & ->) & s2 & c2 & (-> & _) & s3 & c3 & (_ & ->)
                  & s4 & c4 & (-> & _) & s5 & c5 & (_ & ->) & Hm).
  destruct Hm as (s6 & c6 & (c7 & (-> & t & -> & Hd & Hlen) & ->)
                  & s7 & c8 & (-> & _) & s8 & c9 & (_ & _ & ->) & (_ & ->)).
  exists whole', t.
  replace (regexp.NumSubexp slurmCgroupPathRegex) with 1%nat by reflexivity.
  cbn [seq fmap list_fmap]. rewrite lookup_insert_eq, captured_text. cbn [default].
  split; [done|]. split; [|done]. destruct t; [simpl in Hlen; lia|done].
Qed.

(** The first group of the libvirt pattern is [instance-] and a non-empty
    run of hexadecimal digits. *)
Lemma libvirtCgroupPathRegex_group (p : string) :
  regexp.FindStringSubmatch libvirtCgroupPathRegex p = [] \/
  exists whole t,
    regexp.FindStringSubmatch libvirtCgroupPathRegex p = [whole; "instance-" +:+ t] /\
    t <> EmptyString /\ allb regexp.hex09af t = true.
Proof.
  unfold regexp.FindStringSubmatch.
  destruct (search_sound libvirtCgroupPathRegex (String.length p) p)
    as [H|(s0 & s' & caps & whole' & Hm & ->)]; [by left|right].
  simpl in Hm.
  destruct Hm as (s1 & c1 & (_ & -> & ->) & s2 & c2 & (-> & _) & s3 & c3 & (_ & ->)
                  & s4 & c4 & (-> & _) & s5 & c5 & (_ & ->)
                  & s6 & c6 & (-> & _) & s7 & c7 & (_ & ->) & Hm).
  destruct Hm as (s8 & c8 & (c9 & (s9 & c10 & (-> & ->) & (-> & t & -> & Hd & Hlen)) & ->)
                  & s10 & c11 & (-> & _) & s11 & c12 & (_ & _ & ->) & (_ & ->)).
  exists whole', t.
  replace (regexp.NumSubexp libvirtCgroupPathRegex) with 1%nat by reflexivity.
  cbn [seq fmap list_fmap]. rewrite lookup_insert_eq.
  rewrite <- string_app_assoc, captured_text. cbn [default].
  split; [done|]. split; [|done]. destruct t; [simpl in Hlen; lia|done].
Qed.

Lemma setMountPoint_idRegex (c : cgroupManager) :
  idRegex (setMountPoint c) = idRegex c.
Proof.
  unfold setMountPoint.
  destruct (String.eqb (manager c) slurm); [by destruct (mode c)|].
  destruct (String.eqb (manager c) libvirt); [by destruct (mode c)|done].
Qed.

Lemma NewCgroupManager_idRegex (name : string) (h : host) (procfs : outcome FS)
    (forceCgroupsVersion activeController' : string) (hostMode : CGMode)
    (c : cgroupManager) :
  NewCgroupManager name h procfs forceCgroupsVersion activeController' hostMode = Ok c ->
  (name = slurm /\ idRegex c = slurmCgroupPathRegex) \/
  (name = libvirt /\ idRegex c = libvirtCgroupPathRegex).
Proof.
  unfold NewCgroupManager. destruct procfs as [fs'| |]; simpl; [|done|done].
  destruct (String.eqb_spec name slurm) as [->|_].
  - intros [= <-]. left. split; [done|]. rewrite setMountPoint_idRegex.
    by destruct (_ || _).
  - destruct (String.eqb_spec name libvirt) as [->|_]; [|done].
    intros [= <-]. right. split; [done|]. rewrite setMountPoint_idRegex.
    by destruct (_ || _).
Qed.

(** The ID of a returned root is the trimmed first group of the pattern on
    some path. *)
Lemma discover_id_group (c : cgroupManager) (h : host) (cgs : list cgroup)
    (g : cgroup) :
  discover c h = Ok cgs -> g ∈ cgs ->
  cg_uuid g = cg_id g /\
  exists p whole m1 rest,
    regexp.FindStringSubmatch (idRegex c) p = whole :: m1 :: rest /\
    cg_id g = strings_TrimSpace m1.
Proof.
  intros (_ & st & ->)%discover_Ok_inv (g0 & -> & Hg0)%list_elem_of_fmap.
  apply list_elem_of_omap in Hg0 as (e & _ & Hu).
  destruct (unitOf_Some c h _ _ Hu) as (_ & _ & Huu & _ & _ & whole & m1 & rest & Hf & Hid).
  simpl. split; [done|]. eauto 10.
Qed.

(** X25. The IDs of the units follow from the manager's pattern. For a
    manager that [NewCgroupManager] makes for Slurm, the [id] of every unit
    that [discover] returns is a non-empty string of decimal digits; for
    libvirt it is [instance-] followed by a non-empty string of lower-case
    hexadecimal digits. In both cases [uuid] equals [id], and the ID has no
    white space for [strings.TrimSpace] to remove nor can it be empty. *)
Theorem discover_ids_follow_pattern
    (name : string) (h0 : host) (procfs : outcome FS)
    (forceCgroupsVersion activeController' : string) (hostMode : CGMode)
    (c : cgroupManager) (h : host) (cgs : list cgroup) (g : cgroup) :
  NewCgroupManager name h0 procfs forceCgroupsVersion activeController' hostMode = Ok c ->
  discover c h = Ok cgs -> g ∈ cgs ->
  cg_uuid g = cg_id g /\
  ((name = slurm /\ cg_id g <> EmptyString /\ allb regexp.digit09 (cg_id g) = true) \/
   (name = libvirt /\
    exists t, cg_id g = "instance-" +:+ t /\ t <> EmptyString /\
              allb regexp.hex09af t = true)).
Proof.
  intros Hnew Hd Hg.
  destruct (discover_id_group c h cgs g Hd Hg)
    as (Huu & p & whole & m1 & rest & Hf & Hid).
  split; [done|].
  destruct (NewCgroupManager_idRegex _ _ _ _ _ _ _ Hnew) as [[-> Hre]|[-> Hre]];
    rewrite Hre in Hf; [left|right]; (split; [done|]).
  - destruct (slurmCgroupPathRegex_group p) as [Hn|(w & id & Hm & Hne & Hall)];
      rewrite Hf in *; [done|]. injection Hm as _ -> _.
    rewrite Hid, strings_TrimSpace_no_space; [done|].
    eapply allb_impl; [apply digit09_no_space|done].
  - destruct (libvirtCgroupPathRegex_group p) as [Hn|(w & t & Hm & Hne & Hall)];
      rewrite Hf in *; [done|]. injection Hm as _ -> _.
    exists t. rewrite Hid, strings_TrimSpace_no_space; [done|].
    rewrite allb_app. apply andb_true_intro. split; [done|].
    eapply allb_impl; [apply hex09af_no_space|done].
Qed.

Lemma discover_ids_follow_pattern_witness :
  exists g,
    discover slurmUnified (job42Host "0-3") = Ok [g] /\
    cg_uuid g = cg_id g /\ cg_id g = "42" /\ allb regexp.digit09 (cg_id g) = true.
Proof.
  eexists. split; [vm_compute; reflexivity|].
  match goal with
  | |- cg_uuid ?g = _ /\ _ =>
      destruct (discover_ids_follow_pattern slurm (job42Host "0-3") (Ok procfs)
                  "v2" "cpuacct" Legacy slurmUnified (job42Host "0-3") [g] g)
        as (Huu & [(_ & _ & Hall)|(Hname & _)])
  end.
  - reflexivity.
  - vm_compute. reflexivity.
  - apply list_elem_of_here.
  - split; [exact Huu|]. split; [reflexivity|exact Hall].
  - discriminate.
Defined.

End cg.
